(** * sheetapp: the page edit state machine, the ToDo status overlay and the
    request gateway of the React frontend

    The development follows three source files of the frontend:
    - [pages/PageView.js]  (module [PageView]): canonical page data
      ([pageData]) against the edit buffer ([editData]), with the handlers
      for cell edits, row addition and deletion, save, cancel and toggle;
    - [pages/TodoView.js]  (module [TodoView]): the combined row/status view
      and the optimistic status update;
    - [services/api.js]    (module [Api]): [getCookie] and the request
      interceptor that attaches the CSRF header;

    and, around them, the table that calls the page handlers
    ([components/table/DataTable.js] and [EditableCell.js], module
    [DataTable]), the notification list ([contexts/NotificationContext.js],
    module [NotificationContext]) and the form that creates a ToDo list
    from a page ([components/modals/CreateTodoModal.js], module
    [CreateTodoModal]).

    JavaScript objects that the code mutates in place live in an explicit
    heap, so that "works on a deep copy" is a statement about locations and
    not an artefact of immutable values. *)

From stdpp Require Import base option list strings gmap pretty.
From Stdlib Require Import ZArith Lia Ascii.

(** ** JavaScript values *)

Module Js.

(** A JSON-like JavaScript value. [VUndef] is [undefined]; numbers are the
    integers (ids, orders and widths are integral in this application).
    JavaScript holds them as doubles, which are exact up to 2^53: a sum
    written in [Z] below is the code's sum as long as it stays in that
    range, and the statements that depend on a sum say so.
    The property list of [VObj] is in the object's enumeration order. *)
#[warnings="-register-all"]
Inductive value :=
| VUndef
| VNull
| VBool (b : bool)
| VNum (n : Z)
| VStr (s : string)
| VArr (l : list value)
| VObj (fs : list (string * value)).

(** Induction principle that reaches inside arrays and objects. *)
Section value_ind.
Variable P : value → Prop.
Hypothesis Hundef : P VUndef.
Hypothesis Hnull : P VNull.
Hypothesis Hbool : ∀ b, P (VBool b).
Hypothesis Hnum : ∀ n, P (VNum n).
Hypothesis Hstr : ∀ s, P (VStr s).
Hypothesis Harr : ∀ l, Forall P l → P (VArr l).
Hypothesis Hobj : ∀ fs, Forall (λ kv, P kv.2) fs → P (VObj fs).

Fixpoint value_ind' (v : value) : P v :=
  match v with
  | VUndef => Hundef
  | VNull => Hnull
  | VBool b => Hbool b
  | VNum n => Hnum n
  | VStr s => Hstr s
  | VArr l =>
      Harr l ((fix go (l : list value) : Forall P l :=
                 match l with
                 | [] => Forall_nil_2 _
                 | x :: l' => Forall_cons_2 _ _ _ (value_ind' x) (go l')
                 end) l)
  | VObj fs =>
      Hobj fs ((fix go (fs : list (string * value)) : Forall (λ kv, P kv.2) fs :=
                  match fs with
                  | [] => Forall_nil_2 _
                  | kv :: fs' =>
                      Forall_cons_2 (λ kv, P kv.2) _ _ (value_ind' kv.2) (go fs')
                  end) fs)
  end.
End value_ind.

(** [!!v]: the falsy values are [undefined], [null], [false], [0] and [EmptyString]. *)
Definition truthy (v : value) : bool :=
  match v with
  | VUndef | VNull => false
  | VBool b => b
  | VNum n => negb (n =? 0)%Z
  | VStr s => negb (String.eqb s EmptyString)
  | VArr _ | VObj _ => true
  end.

(** [a || b] *)
Definition or_else (a b : value) : value := if truthy a then a else b.

(** [a === b], also the SameValueZero comparison of [Map] keys on these
    values. Primitives compare by value. Two arrays or objects are equal
    only when they are the same reference; the values compared in this
    application come from separately parsed JSON or from a deep copy, so
    they are never the same reference. *)
Definition strict_eq (a b : value) : bool :=
  match a, b with
  | VUndef, VUndef => true
  | VNull, VNull => true
  | VBool x, VBool y => bool_decide (x = y)
  | VNum x, VNum y => bool_decide (x = y)
  | VStr x, VStr y => bool_decide (x = y)
  | _, _ => false
  end.

(** Own property lookup in a property list. *)
Fixpoint lookup_prop (k : string) (fs : list (string * value)) : value :=
  match fs with
  | [] => VUndef
  | (k', v) :: fs' => if bool_decide (k' = k) then v else lookup_prop k fs'
  end.

(** [v.k] for a property name [k] that is not an array index, ["length"] or
    another built-in: [None] is the [TypeError] of reading a property of
    [null] or [undefined]; primitives, arrays and strings have no such
    property. *)
Definition get (v : value) (k : string) : option value :=
  match v with
  | VUndef | VNull => None
  | VObj fs => Some (lookup_prop k fs)
  | _ => Some VUndef
  end.

(** [v?.k] *)
Definition get_opt (v : value) (k : string) : value :=
  default VUndef (get v k).

(** [o[k] = x] on a property list: an existing property keeps its place. *)
Fixpoint set_prop (k : string) (x : value) (fs : list (string * value))
  : list (string * value) :=
  match fs with
  | [] => [(k, x)]
  | (k', v) :: fs' =>
      if bool_decide (k' = k) then (k', x) :: fs' else (k', v) :: set_prop k x fs'
  end.

Definition chars (s : string) : list value :=
  (λ c, VStr (String c EmptyString)) <$> String.list_ascii_of_string s.

(** The own enumerable properties copied by the spread [{...v}]. *)
Definition spread (v : value) : list (string * value) :=
  match v with
  | VObj fs => fs
  | VArr l => imap (λ i x, (pretty i, x)) l
  | VStr s => imap (λ i x, (pretty i, x)) (chars s)
  | _ => []
  end.

(** [JSON.parse(JSON.stringify(v))] below the top level: a property whose
    value is [undefined] is dropped, an [undefined] array element becomes
    [null]. *)
Fixpoint clone_in (v : value) : value :=
  match v with
  | VArr l =>
      VArr (map (λ x, match x with VUndef => VNull | _ => clone_in x end) l)
  | VObj fs =>
      VObj ((fix go (fs : list (string * value)) : list (string * value) :=
               match fs with
               | [] => []
               | (k, VUndef) :: fs' => go fs'
               | (k, x) :: fs' => (k, clone_in x) :: go fs'
               end) fs)
  | _ => v
  end.

(** [JSON.parse(JSON.stringify(v))]: [JSON.stringify(undefined)] is
    [undefined], which [JSON.parse] rejects with a [SyntaxError] ([None]). *)
Definition clone (v : value) : option value :=
  match v with
  | VUndef => None
  | _ => Some (clone_in v)
  end.

(** A value with no [undefined] inside: what a parsed JSON document is. *)
Fixpoint is_json (v : value) : bool :=
  match v with
  | VUndef => false
  | VArr l => forallb is_json l
  | VObj fs => forallb (λ kv, is_json kv.2) fs
  | _ => true
  end.

(** A message of [NotificationContext]; the generated uuid is left out. *)
Record Notification := mkNotification {
  n_message : value; n_type : string; n_duration : Z }.

(** The error a rejected gateway call carries. *)
Record Response := mkResponse { resp_status : Z; resp_data : value }.

Record AxiosError := mkAxiosError {
  err_name : string; err_message : string; err_response : option Response }.

(** [err.response?.data] and [err.response?.status] *)
Definition response_data (err : AxiosError) : value :=
  match err_response err with Some r => resp_data r | None => VUndef end.

Definition response_status (err : AxiosError) : option Z :=
  resp_status <$> err_response err.

End Js.

(** ** The page view: [pages/PageView.js] *)

Module PageView.
Import Js.

(** *** Page data *)

(** A row or column id as the backend sends it: absent, [null], a number or
    a string. *)
Inductive Id := IdUndefined | IdNull | IdNum (n : Z) | IdStr (s : string).

Global Instance Id_eq_dec : EqDecision Id.
Proof. solve_decision. Defined.

(** Truthiness of an id; [id || null] in the save payload. *)
Definition truthy_id (i : Id) : bool :=
  match i with
  | IdUndefined | IdNull => false
  | IdNum n => negb (n =? 0)%Z
  | IdStr s => negb (String.eqb s EmptyString)
  end.

Definition id_or_null (i : Id) : Id := if truthy_id i then i else IdNull.

(** An element of a [cells] array: a string, [null], or a hole left by an
    assignment past the end of the array (a hole reads as [undefined]). *)
Inductive Cell := CellStr (s : string) | CellNull | CellHole.

Global Instance Cell_eq_dec : EqDecision Cell.
Proof. solve_decision. Defined.

Record Column := mkColumn {
  col_id : Id; col_name : string; col_order : Z; col_width : Z }.

Record Row := mkRow { row_id : Id; row_order : Z; row_cells : list Cell }.

(** The data of a page, [{columns, rows}]. *)
Record Page := mkPage { columns : list Column; rows : list Row }.

(** The value that [JSON.stringify] writes: a hole is written as [null]. *)
Definition json_cell (c : Cell) : Cell :=
  match c with CellHole => CellNull | _ => c end.
Definition json_row (r : Row) : Row :=
  mkRow (row_id r) (row_order r) (json_cell <$> row_cells r).
Definition json_page (p : Page) : Page :=
  mkPage (columns p) (json_row <$> rows p).

(** *** The heap of objects *)

Abbreviation loc := nat.

Inductive Obj :=
| OCells (cs : list Cell)
| ORow (id : Id) (order : Z) (cells : loc)
| ORows (ls : list loc)
| OColumn (c : Column)
| OColumns (ls : list loc)
| OPage (cols : loc) (rws : loc).

Abbreviation Heap := (list Obj).

(** [JSON.stringify] follows the references from a page object. *)
Definition read_cells (h : Heap) (l : loc) : option (list Cell) :=
  match h !! l with Some (OCells cs) => Some cs | _ => None end.

Definition read_row (h : Heap) (l : loc) : option Row :=
  match h !! l with
  | Some (ORow i o lc) => mkRow i o <$> read_cells h lc
  | _ => None
  end.

Definition read_rows (h : Heap) (l : loc) : option (list Row) :=
  match h !! l with Some (ORows ls) => mapM (read_row h) ls | _ => None end.

Definition read_column (h : Heap) (l : loc) : option Column :=
  match h !! l with Some (OColumn c) => Some c | _ => None end.

Definition read_columns (h : Heap) (l : loc) : option (list Column) :=
  match h !! l with Some (OColumns ls) => mapM (read_column h) ls | _ => None end.

Definition read_page (h : Heap) (l : loc) : option Page :=
  match h !! l with
  | Some (OPage lc lr) =>
      cs ← read_columns h lc; rs ← read_rows h lr; Some (mkPage cs rs)
  | _ => None
  end.

Definition stringify (h : Heap) (l : loc) : option Page :=
  json_page <$> read_page h l.

(** [JSON.parse] builds the objects of a page in fresh locations past the
    end of the heap. With [b] the first fresh location, [nc] columns and
    [nr] rows, the objects are laid out as follows: the column objects, the
    columns array, for every row its cells array and then the row object,
    the rows array, the page object. *)
Definition col_at (b : loc) (j : nat) : loc := b + j.
Definition cols_at (b nc : nat) : loc := b + nc.
Definition cells_at (b nc j : nat) : loc := b + nc + 1 + 2 * j.
Definition row_at (b nc j : nat) : loc := b + nc + 2 + 2 * j.
Definition rows_at (b nc nr : nat) : loc := b + nc + 1 + 2 * nr.
Definition page_at (b nc nr : nat) : loc := b + nc + 2 + 2 * nr.

Fixpoint row_objs (b nc j : nat) (rs : list Row) : list Obj :=
  match rs with
  | [] => []
  | r :: rs' =>
      OCells (row_cells r) :: ORow (row_id r) (row_order r) (cells_at b nc j)
        :: row_objs b nc (S j) rs'
  end.

Definition parse (p : Page) (h : Heap) : loc * Heap :=
  let b := length h in
  let nc := length (columns p) in
  let nr := length (rows p) in
  (page_at b nc nr,
   h ++ (OColumn <$> columns p) ++ [OColumns (col_at b <$> seq 0 nc)]
     ++ row_objs b nc 0 (rows p)
     ++ [ORows (row_at b nc <$> seq 0 nr); OPage (cols_at b nc) (rows_at b nc nr)]).

(** [JSON.parse(JSON.stringify(x))] for the page object at [l]. *)
Definition deepCopy (h : Heap) (l : loc) : option (loc * Heap) :=
  p ← stringify h l; Some (parse p h).

(** [arr[i] = v]: an index past the end grows the array and leaves holes. *)
Definition array_set (cs : list Cell) (i : nat) (v : Cell) : list Cell :=
  if decide (i < length cs) then <[i := v]> cs
  else cs ++ replicate (i - length cs) CellHole ++ [v].

(** *** Effects and component state *)

(** The body of [POST /pages/{slug}/save/]. *)
Record Payload := mkPayload { pl_columns : list Column; pl_rows : list Row }.

(** A call issued through the gateway. *)
Inductive Request :=
| GetPageData (slug : string)
| SavePageData (slug : string) (payload : Payload).

(** The state the component works on: its own [useState] cells, the three
    flags of [PageActionContext], the mount flag, the notification list of
    [NotificationContext] (newest first), and a log of the gateway calls
    issued and of the console warnings (newest first). *)
Record State := mkState {
  heap : Heap;
  pageSlug : string;
  pageData : option loc;
  editData : option loc;
  loading : bool;
  pageError : option value;
  editError : option value;
  isEditing : bool;
  canEdit : bool;
  isLoadingSave : bool;
  isMounted : bool;
  notifications : list Notification;
  requests : list Request;
  warnings : list string }.

Definition set_heap (x : Heap) (s : State) : State :=
  mkState x (pageSlug s) (pageData s) (editData s) (loading s) (pageError s)
    (editError s) (isEditing s) (canEdit s) (isLoadingSave s) (isMounted s)
    (notifications s) (requests s) (warnings s).
Definition setPageData (x : option loc) (s : State) : State :=
  mkState (heap s) (pageSlug s) x (editData s) (loading s) (pageError s)
    (editError s) (isEditing s) (canEdit s) (isLoadingSave s) (isMounted s)
    (notifications s) (requests s) (warnings s).
Definition setEditData (x : option loc) (s : State) : State :=
  mkState (heap s) (pageSlug s) (pageData s) x (loading s) (pageError s)
    (editError s) (isEditing s) (canEdit s) (isLoadingSave s) (isMounted s)
    (notifications s) (requests s) (warnings s).
Definition setLoading (x : bool) (s : State) : State :=
  mkState (heap s) (pageSlug s) (pageData s) (editData s) x (pageError s)
    (editError s) (isEditing s) (canEdit s) (isLoadingSave s) (isMounted s)
    (notifications s) (requests s) (warnings s).
Definition setPageError (x : option value) (s : State) : State :=
  mkState (heap s) (pageSlug s) (pageData s) (editData s) (loading s) x
    (editError s) (isEditing s) (canEdit s) (isLoadingSave s) (isMounted s)
    (notifications s) (requests s) (warnings s).
Definition setEditError (x : option value) (s : State) : State :=
  mkState (heap s) (pageSlug s) (pageData s) (editData s) (loading s)
    (pageError s) x (isEditing s) (canEdit s) (isLoadingSave s) (isMounted s)
    (notifications s) (requests s) (warnings s).
Definition updateIsEditing (x : bool) (s : State) : State :=
  mkState (heap s) (pageSlug s) (pageData s) (editData s) (loading s)
    (pageError s) (editError s) x (canEdit s) (isLoadingSave s) (isMounted s)
    (notifications s) (requests s) (warnings s).
Definition updateCanEdit (x : bool) (s : State) : State :=
  mkState (heap s) (pageSlug s) (pageData s) (editData s) (loading s)
    (pageError s) (editError s) (isEditing s) x (isLoadingSave s) (isMounted s)
    (notifications s) (requests s) (warnings s).
Definition updateIsLoadingSave (x : bool) (s : State) : State :=
  mkState (heap s) (pageSlug s) (pageData s) (editData s) (loading s)
    (pageError s) (editError s) (isEditing s) (canEdit s) x (isMounted s)
    (notifications s) (requests s) (warnings s).
Definition set_notifications (x : list Notification) (s : State) : State :=
  mkState (heap s) (pageSlug s) (pageData s) (editData s) (loading s)
    (pageError s) (editError s) (isEditing s) (canEdit s) (isLoadingSave s)
    (isMounted s) x (requests s) (warnings s).
Definition set_requests (x : list Request) (s : State) : State :=
  mkState (heap s) (pageSlug s) (pageData s) (editData s) (loading s)
    (pageError s) (editError s) (isEditing s) (canEdit s) (isLoadingSave s)
    (isMounted s) (notifications s) x (warnings s).
Definition set_warnings (x : list string) (s : State) : State :=
  mkState (heap s) (pageSlug s) (pageData s) (editData s) (loading s)
    (pageError s) (editError s) (isEditing s) (canEdit s) (isLoadingSave s)
    (isMounted s) (notifications s) (requests s) x.

(** [addNotification(message, type = 'info', duration = 5000)] of
    [NotificationContext]. *)
Definition addNotification (message : value) (type : string) (duration : Z)
    (s : State) : State :=
  set_notifications (mkNotification message type duration :: notifications s) s.

Definition send (r : Request) (s : State) : State :=
  set_requests (r :: requests s) s.

Definition console_warn (m : string) (s : State) : State :=
  set_warnings (m :: warnings s) s.


(** *** Data fetching *)

(** [fetchData], up to the [await]: the call is issued. *)
Definition fetchData_start (s : State) : State :=
  if negb (isMounted s) then s
  else send (GetPageData (pageSlug s)) (setPageError None (setLoading true s)).

(** [fetchData], after the [await], when the call resolved with the page
    [fetched] as the response body. The response data is a freshly parsed
    JSON document. *)
Definition fetchData_resolved (fetched : Page) (s : State) : option State :=
  if negb (isMounted s) then Some s
  else
    let '(fetchedData, h1) := parse (json_page fetched) (heap s) in
    let s1 := setPageData (Some fetchedData) (set_heap h1 s) in
    let s2 := updateCanEdit true s1 in
    '(copy, h2) ← deepCopy h1 fetchedData;
    Some (setLoading false (setEditData (Some copy) (set_heap h2 s2))).

(** [fetchData], after the [await], when the call was rejected. *)
Definition fetchData_rejected (err : AxiosError) (s : State) : State :=
  if bool_decide (err_name err = "CanceledError") then
    if isMounted s then setLoading false s else s
  else if negb (isMounted s) then s
  else
    let data := response_data err in
    let errorMsg :=
      or_else (get_opt data "detail")
        (or_else (get_opt data "error") (VStr "Could not load page data.")) in
    let s1 := addNotification errorMsg "error" 5000 (setPageError (Some errorMsg) s) in
    let s2 :=
      if bool_decide (response_status err = Some 404%Z)
      then setPageError (Some (VStr "Page not found.")) s1 else s1 in
    let s3 :=
      if bool_decide (response_status err = Some 403%Z)
      then updateCanEdit false
             (setPageError (Some (VStr "You do not have permission to view this page.")) s2)
      else s2 in
    setLoading false s3.

(** *** Saving *)

(** The payload of a save: ids that are falsy are sent as [null]. The body
    is serialised when the call is issued. *)
Definition payload_column (col : Column) : Column :=
  mkColumn (id_or_null (col_id col)) (col_name col) (col_order col) (col_width col).

Definition payload_row (row : Row) : Row :=
  mkRow (id_or_null (row_id row)) (row_order row) (json_cell <$> row_cells row).

Definition build_payload (p : Page) : Payload :=
  mkPayload (payload_column <$> columns p) (payload_row <$> rows p).

(** [handleSaveChanges], up to the [await]. *)
Definition handleSaveChanges_start (s : State) : option State :=
  match isEditing s, editData s with
  | true, Some e =>
      let s1 := setEditError None (updateIsLoadingSave true s) in
      p ← read_page (heap s1) e;
      Some (send (SavePageData (pageSlug s1) (build_payload p)) s1)
  | _, _ =>
      Some (console_warn "Save called but not in editing mode or no edit data." s)
  end.

(** [handleSaveChanges], after the save resolved, up to the [await] of the
    re-fetch. *)
Definition handleSaveChanges_saved (s : State) : State :=
  if negb (isMounted s) then s
  else
    fetchData_start
      (updateIsEditing false
         (addNotification (VStr "Page saved successfully!") "success" 5000 s)).

(** The [finally] block of [handleSaveChanges]. *)
Definition handleSaveChanges_finally (s : State) : State :=
  if isMounted s then updateIsLoadingSave false s else s.

(** [Object.values(errorData)] *)
Definition object_values (v : value) : list value :=
  match v with VObj fs => fs.*2 | VArr l => l | _ => [] end.

(** [.flat()] *)
Definition flat (vs : list value) : list value :=
  vs ≫= (λ v, match v with VArr l => l | _ => [v] end).

(** [.filter(msg => typeof msg === 'string')] *)
Definition strings_of (vs : list value) : list string :=
  omap (λ v, match v with VStr m => Some m | _ => None end) vs.

(** [.join(' ')] *)
Fixpoint join (sep : string) (ms : list string) : string :=
  match ms with
  | [] => EmptyString
  | [m] => m
  | m :: ms' => m +:+ sep +:+ join sep ms'
  end.

(** The message extracted in the [catch] block of [handleSaveChanges]. *)
Definition saveErrorMessage (err : AxiosError) : value :=
  let errorData := response_data err in
  let fallback := VStr "Failed to save changes." in
  match errorData with
  | VObj _ | VArr _ =>
      let messages := strings_of (flat (object_values errorData)) in
      if bool_decide (0 < length messages) then VStr (join " " messages)
      else
        let specific :=
          or_else (get_opt errorData "detail") (get_opt errorData "error") in
        if truthy specific then specific else fallback
  | VStr m => VStr m
  | _ => fallback
  end.

(** [handleSaveChanges], after the save was rejected with [err]. *)
Definition handleSaveChanges_rejected (err : AxiosError) (s : State) : State :=
  if negb (isMounted s) then s
  else
    let errorMsg := saveErrorMessage err in
    handleSaveChanges_finally
      (addNotification errorMsg "error" 5000 (setEditError (Some errorMsg) s)).

(** *** Entering and leaving edit mode *)

(** [JSON.parse(JSON.stringify(x))] for [x] a page reference or [null]. *)
Definition deepCopy_nullable (h : Heap) (x : option loc)
    : option (option loc * Heap) :=
  match x with
  | None => Some (None, h)
  | Some l => '(c, h') ← deepCopy h l; Some (Some c, h')
  end.

Definition handleToggleEdit (s : State) : option State :=
  let s := setEditError None s in
  if isEditing s then handleSaveChanges_start s
  else if negb (canEdit s) then
    Some (addNotification (VStr "You do not have permission to edit this page.")
            "warning" 5000 s)
  else
    let source := match pageData s with Some l => Some l | None => editData s end in
    '(c, h') ← deepCopy_nullable (heap s) source;
    Some (updateIsEditing true (setEditData c (set_heap h' s))).

Definition handleCancelEdit (s : State) : option State :=
  let s := setEditError None (updateIsEditing false s) in
  match pageData s with
  | Some l =>
      '(c, h') ← deepCopy (heap s) l;
      Some (setEditData (Some c) (set_heap h' s))
  | None => Some (setEditData None s)
  end.

(** What the table shows:
    [(isEditing ? editData : pageData) || { columns: [], rows: [] }]. *)
Definition displayData (s : State) : option Page :=
  match (if isEditing s then editData s else pageData s) with
  | Some l => read_page (heap s) l
  | None => Some (mkPage [] [])
  end.

(** *** Local mutations of the edit buffer *)

(** The text of the [console.warn] in [handleCellChange]. *)
Definition cell_warning (rowIndex colIndex : nat) : string :=
  "Attempted to update non-existent cell in editData at ["
    +:+ pretty rowIndex +:+ ", " +:+ pretty colIndex +:+ "]".

(** The handlers take [rowIndex] and [colIndex] from the indices of
    [rows.map] and [columns.map] in [DataTable], natural numbers, and
    [value] from the text area, a string. *)
Definition handleCellChange (rowIndex colIndex : nat) (v : string) (s : State)
    : option State :=
  if negb (isEditing s) then Some s
  else
    match editData s with
    | None => Some (setEditData None s)
    | Some prevData =>
        '(newData, h1) ← deepCopy (heap s) prevData;
        lr ← match h1 !! newData with Some (OPage _ lr) => Some lr | _ => None end;
        ls ← match h1 !! lr with Some (ORows ls) => Some ls | _ => None end;
        match ls !! rowIndex with
        | Some lrow =>
            lcells ← match h1 !! lrow with
                     | Some (ORow _ _ lcells) => Some lcells | _ => None end;
            cs ← read_cells h1 lcells;
            let h2 := <[lcells := OCells (array_set cs colIndex (CellStr v))]> h1 in
            Some (setEditData (Some newData) (set_heap h2 s))
        | None =>
            Some (console_warn (cell_warning rowIndex colIndex)
                    (setEditData (Some newData) (set_heap h1 s)))
        end
    end.

(** [Math.max(0, ...orders)] *)
Definition max_order (orders : list Z) : Z := foldr Z.max 0%Z orders.

(** [handleAddRow]. The new order, [Math.max(0, ...orders) + 1], is a sum
    of doubles in the code: it is the sum in [Z] written here when the
    greatest order is below 2^53, and at 2^53 and above the code's sum is
    rounded (2^53 + 1 is 2^53). *)
Definition handleAddRow (s : State) : option State :=
  match isEditing s, editData s with
  | true, Some prevData =>
      '(newData, h1) ← deepCopy (heap s) prevData;
      '(lc, lr) ← match h1 !! newData with
                  | Some (OPage lc lr) => Some (lc, lr) | _ => None end;
      ls ← match h1 !! lr with Some (ORows ls) => Some ls | _ => None end;
      orders ← mapM (λ l, match h1 !! l with
                          | Some (ORow _ o _) => Some o | _ => None end) ls;
      let newOrder :=
        if bool_decide (0 < length ls) then (max_order orders + 1)%Z else 1%Z in
      lcols ← match h1 !! lc with Some (OColumns lcols) => Some lcols | _ => None end;
      let lcells := length h1 in
      let h2 := h1 ++ [OCells (replicate (length lcols) (CellStr EmptyString))] in
      let newRow := length h2 in
      let h3 := h2 ++ [ORow IdNull newOrder lcells] in
      let h4 := <[lr := ORows (ls ++ [newRow])]> h3 in
      Some (setEditData (Some newData) (set_heap h4 s))
  | _, _ => Some s
  end.

(** [rows.filter(row => row.id !== rowIdToDelete)] on the row objects. *)
Fixpoint filter_rows (rowIdToDelete : Id) (h : Heap) (ls : list loc)
    : option (list loc) :=
  match ls with
  | [] => Some []
  | l :: ls' =>
      match h !! l with
      | Some (ORow i _ _) =>
          kept ← filter_rows rowIdToDelete h ls';
          Some (if bool_decide (i ≠ rowIdToDelete) then l :: kept else kept)
      | _ => None
      end
  end.

(** [rows.forEach((row, index) => { row.order = index + 1; })], from
    index [i] on. *)
Fixpoint renumber (i : nat) (ls : list loc) (h : Heap) : option Heap :=
  match ls with
  | [] => Some h
  | l :: ls' =>
      match h !! l with
      | Some (ORow id _ lcells) =>
          renumber (S i) ls' (<[l := ORow id (Z.of_nat i + 1) lcells]> h)
      | _ => None
      end
  end.

Definition handleDeleteRow (rowIdToDelete : Id) (s : State) : option State :=
  match isEditing s, editData s with
  | true, Some prevData =>
      '(newData, h1) ← deepCopy (heap s) prevData;
      '(lc, lr) ← match h1 !! newData with
                  | Some (OPage lc lr) => Some (lc, lr) | _ => None end;
      ls ← match h1 !! lr with Some (ORows ls) => Some ls | _ => None end;
      kept ← filter_rows rowIdToDelete h1 ls;
      let lr' := length h1 in
      let h2 := h1 ++ [ORows kept] in
      let h3 := <[newData := OPage lc lr']> h2 in
      h4 ← renumber 0 kept h3;
      Some (setEditData (Some newData) (set_heap h4 s))
  | _, _ => Some s
  end.

(** *** Sequences of local mutations *)

Inductive Mutation :=
| CellEdit (rowIndex colIndex : nat) (v : string)
| AddRow
| DeleteRow (rowId : Id).

Definition mutate (m : Mutation) (s : State) : option State :=
  match m with
  | CellEdit i j v => handleCellChange i j v s
  | AddRow => handleAddRow s
  | DeleteRow rowId => handleDeleteRow rowId s
  end.

Fixpoint mutates (ms : list Mutation) (s : State) : option State :=
  match ms with
  | [] => Some s
  | m :: ms' => s' ← mutate m s; mutates ms' s'
  end.

(** Every transition of the component except the resolution of a fetch. *)
Inductive Event :=
| EMutation (m : Mutation)
| EToggleEdit
| ECancelEdit
| ESaveChanges
| ESaveResolved
| ESaveRejected (err : AxiosError)
| ESaveFinally
| EFetchStart
| EFetchRejected (err : AxiosError).

Definition step (e : Event) (s : State) : option State :=
  match e with
  | EMutation m => mutate m s
  | EToggleEdit => handleToggleEdit s
  | ECancelEdit => handleCancelEdit s
  | ESaveChanges => handleSaveChanges_start s
  | ESaveResolved => Some (handleSaveChanges_saved s)
  | ESaveRejected err => Some (handleSaveChanges_rejected err s)
  | ESaveFinally => Some (handleSaveChanges_finally s)
  | EFetchStart => Some (fetchData_start s)
  | EFetchRejected err => Some (fetchData_rejected err s)
  end.

Fixpoint steps (es : list Event) (s : State) : option State :=
  match es with
  | [] => Some s
  | e :: es' => s' ← step e s; steps es' s'
  end.

(** Every transition of the component: an event, or a fetch that resolved
    with the page [fetched]. *)
Inductive Transition :=
| TEvent (e : Event)
| TFetchResolved (fetched : Page).

Definition transition (t : Transition) (s : State) : option State :=
  match t with
  | TEvent e => step e s
  | TFetchResolved fetched => fetchData_resolved fetched s
  end.

Fixpoint transitions (ts : list Transition) (s : State) : option State :=
  match ts with
  | [] => Some s
  | t :: ts' => s' ← transition t s; transitions ts' s'
  end.

(** *** What the handlers are expected to compute on the buffer's value *)

(** The cell edit on a page value: the row [rowIndex], if there is one, gets
    [v] at [colIndex] of its cells. *)
Definition spec_cellEdit (rowIndex colIndex : nat) (v : string) (p : Page) : Page :=
  match rows p !! rowIndex with
  | Some r =>
      mkPage (columns p)
        (<[rowIndex := mkRow (row_id r) (row_order r)
                         (array_set (row_cells r) colIndex (CellStr v))]> (rows p))
  | None => p
  end.

(** The row that [addRow] appends. *)
Definition spec_newRow (p : Page) : Row :=
  mkRow IdNull (max_order (row_order <$> rows p) + 1)
    (replicate (length (columns p)) (CellStr EmptyString)).

Definition spec_addRow (p : Page) : Page :=
  mkPage (columns p) (rows p ++ [spec_newRow p]).

(** Orders [1..N] by position. *)
Definition renumbered (rs : list Row) : list Row :=
  imap (λ i r, mkRow (row_id r) (Z.of_nat i + 1) (row_cells r)) rs.

Definition spec_deleteRow (rowId : Id) (p : Page) : Page :=
  mkPage (columns p) (renumbered (filter (λ r, row_id r ≠ rowId) (rows p))).

Definition spec_mutate (m : Mutation) (p : Page) : Page :=
  match m with
  | CellEdit i j v => spec_cellEdit i j v p
  | AddRow => spec_addRow p
  | DeleteRow rowId => spec_deleteRow rowId p
  end.

(** The buffer's value after a sequence of mutations; every handler starts
    from a JSON copy of the buffer it finds. *)
Definition spec_mutates (ms : list Mutation) (p : Page) : Page :=
  foldl (λ q m, spec_mutate m (json_page q)) p ms.

(** *** Heap relations and invariants *)

(** Every object of [h] is still there, unmodified, in [h']. *)
Definition preserves (h h' : Heap) : Prop :=
  ∀ l o, h !! l = Some o → h' !! l = Some o.

(** The objects of page [p] sit in [H] in the layout of [parse], from [b]. *)
Record layout (H : Heap) (b : nat) (p : Page) : Prop := mkLayout {
  lay_col : ∀ j c, columns p !! j = Some c → H !! col_at b j = Some (OColumn c);
  lay_cols :
    H !! cols_at b (length (columns p))
      = Some (OColumns (col_at b <$> seq 0 (length (columns p))));
  lay_cells : ∀ j r, rows p !! j = Some r →
    H !! cells_at b (length (columns p)) j = Some (OCells (row_cells r));
  lay_row : ∀ j r, rows p !! j = Some r →
    H !! row_at b (length (columns p)) j
      = Some (ORow (row_id r) (row_order r) (cells_at b (length (columns p)) j));
  lay_rows :
    H !! rows_at b (length (columns p)) (length (rows p))
      = Some (ORows (row_at b (length (columns p)) <$> seq 0 (length (rows p))));
  lay_page :
    H !! page_at b (length (columns p)) (length (rows p))
      = Some (OPage (cols_at b (length (columns p)))
                (rows_at b (length (columns p)) (length (rows p)))) }.

(** The objects of [h] of the kind [P] are still there, unmodified. *)
Definition keeps (P : Obj → bool) (h h' : Heap) : Prop :=
  ∀ l o, h !! l = Some o → P o = true → h' !! l = Some o.

Definition is_row_part (o : Obj) : bool :=
  match o with ORow _ _ _ | OCells _ => true | _ => false end.

Definition is_col_part (o : Obj) : bool :=
  match o with OColumn _ | OColumns _ => true | _ => false end.

(** The component's references point at well-formed pages. *)
Definition wf (s : State) : Prop :=
  (∀ c, pageData s = Some c → is_Some (read_page (heap s) c)) ∧
  (∀ e, editData s = Some e → is_Some (read_page (heap s) e)).

(** Everything but the heap, the buffer reference and the warning log is
    the same in both states. *)
Definition same_view (s s' : State) : Prop :=
  pageSlug s' = pageSlug s ∧ pageData s' = pageData s ∧
  loading s' = loading s ∧ pageError s' = pageError s ∧
  editError s' = editError s ∧ isEditing s' = isEditing s ∧
  canEdit s' = canEdit s ∧ isLoadingSave s' = isLoadingSave s ∧
  isMounted s' = isMounted s ∧ notifications s' = notifications s ∧
  requests s' = requests s.

(** *** A concrete page, used to exercise the statements below *)

(** Columns [A, B] and one row [{id: 1, order: 1, cells: ["x", "y"]}]. *)
Definition example_page : Page :=
  mkPage [mkColumn (IdNum 1) "A" 1 150; mkColumn (IdNum 2) "B" 2 150]
    [mkRow (IdNum 1) 1 [CellStr "x"; CellStr "y"]].

(** The component as mounted, before the first fetch resolves. *)
Definition initial_state : State :=
  mkState [] "budget" None None true None None false false false true [] [] [].

(** After the fetch of [example_page] resolved. *)
Definition example_loaded : State :=
  default initial_state
    (fetchData_resolved example_page (fetchData_start initial_state)).

(** After the edit toggle was pressed. *)
Definition example_editing : State :=
  default example_loaded (handleToggleEdit example_loaded).

(** A page whose only row has fewer cells than there are columns; the
    table shows the missing cells as empty and lets them be edited. *)
Definition short_row_page : Page :=
  mkPage [mkColumn (IdNum 1) "A" 1 150; mkColumn (IdNum 2) "B" 2 150;
          mkColumn (IdNum 3) "C" 3 150]
    [mkRow (IdNum 1) 1 [CellStr "x"]].

(** That page loaded, in edit mode. *)
Definition short_row_editing : State :=
  let loaded :=
    default initial_state
      (fetchData_resolved short_row_page (fetchData_start initial_state)) in
  default loaded (handleToggleEdit loaded).

End PageView.

(** ** The ToDo view: [pages/TodoView.js] *)

Module TodoView.
Import Js.

(** *** The status [Map] *)

(** A JavaScript [Map] in insertion order; keys are compared as by [===]. *)
Abbreviation JsMap := (list (value * value)).

(** [m.set(k, v)] *)
Fixpoint map_set (k v : value) (m : JsMap) : JsMap :=
  match m with
  | [] => [(k, v)]
  | (k', v') :: m' =>
      if strict_eq k' k then (k', v) :: m' else (k', v') :: map_set k v m'
  end.

(** [m.get(k)] *)
Fixpoint map_get (k : value) (m : JsMap) : value :=
  match m with
  | [] => VUndef
  | (k', v') :: m' => if strict_eq k' k then v' else map_get k m'
  end.

(** [new Map(entries)] *)
Definition new_Map (entries : list (value * value)) : JsMap :=
  foldl (λ m kv, map_set kv.1 kv.2 m) [] entries.

(** *** Combining the source rows with the statuses *)

(** [fetchedTodo.statuses.map(s => [s.row_id, s.status])]; [None] is a
    [TypeError]. *)
Definition status_entries (fetchedTodo : value) : option (list (value * value)) :=
  statuses ← get fetchedTodo "statuses";
  match statuses with
  | VArr l => mapM (λ s, k ← get s "row_id"; v ← get s "status"; Some (k, v)) l
  | _ => None
  end.

(** [{ ...row, status: statusMap.get(row.id) || 'NOT_STARTED' }] *)
Definition combine_row (statusMap : JsMap) (row : value) : option value :=
  id ← get row "id";
  Some (VObj (set_prop "status"
                (or_else (map_get id statusMap) (VStr "NOT_STARTED"))
                (spread row))).

(** Step 3 of [fetchTodoData]: the value given to [setTodoDisplayData]. *)
Definition combine (fetchedTodo sourcePage : value) : option value :=
  entries ← status_entries fetchedTodo;
  let statusMap := new_Map entries in
  rows ← get sourcePage "rows";
  combinedRows ← match rows with
                 | VArr l => mapM (combine_row statusMap) l
                 | _ => None
                 end;
  Some (VObj [("todoInfo", fetchedTodo); ("sourcePageInfo", sourcePage);
              ("rows", VArr combinedRows)]).

(** *** Component state *)

Inductive Request :=
| GetTodoDetail (todoId : string)
| GetPageData (slug : value)
| UpdateTodoStatus (todoId : string) (rowId : value) (status : string).

Record State := mkState {
  todoId : string;
  todoDisplayData : value;
  loading : bool;
  error : value;
  isMounted : bool;
  notifications : list Notification;
  requests : list Request }.

Definition setTodoDisplayData (x : value) (s : State) : State :=
  mkState (todoId s) x (loading s) (error s) (isMounted s) (notifications s)
    (requests s).
Definition setLoading (x : bool) (s : State) : State :=
  mkState (todoId s) (todoDisplayData s) x (error s) (isMounted s)
    (notifications s) (requests s).
Definition setError (x : value) (s : State) : State :=
  mkState (todoId s) (todoDisplayData s) (loading s) x (isMounted s)
    (notifications s) (requests s).
Definition addNotification (message : value) (type : string) (duration : Z)
    (s : State) : State :=
  mkState (todoId s) (todoDisplayData s) (loading s) (error s) (isMounted s)
    (mkNotification message type duration :: notifications s) (requests s).
Definition send (r : Request) (s : State) : State :=
  mkState (todoId s) (todoDisplayData s) (loading s) (error s) (isMounted s)
    (notifications s) (r :: requests s).

(** *** Loading *)

(** [fetchTodoData], up to the first [await]. *)
Definition fetchTodoData_start (s : State) : State :=
  if negb (isMounted s) then s
  else send (GetTodoDetail (todoId s)) (setError VNull (setLoading true s)).

(** The [catch] and [finally] blocks of [fetchTodoData]. *)
Definition fetchTodoData_rejected (err : AxiosError) (s : State) : State :=
  if bool_decide (err_name err = "CanceledError") then
    if isMounted s then setLoading false s else s
  else if negb (isMounted s) then s
  else
    let data := response_data err in
    let errorMsg :=
      or_else (get_opt data "detail")
        (or_else (get_opt data "error") (VStr "Could not load ToDo data.")) in
    let s1 := addNotification errorMsg "error" 5000 (setError errorMsg s) in
    let s2 :=
      if bool_decide (response_status err = Some 404%Z)
      then setError (VStr "ToDo list or its source page not found.") s1 else s1 in
    let s3 :=
      if bool_decide (response_status err = Some 403%Z)
      then setError (VStr "You do not have permission to view this ToDo list.") s2
      else s2 in
    setLoading false s3.

(** [fetchTodoData] after the ToDo detail arrived, up to the second
    [await]. A [TypeError] raised by [fetchedTodo.source_page.slug] is
    caught by the [catch] block. *)
Definition fetchTodoData_detail (fetchedTodo : value) (s : State) : State :=
  if negb (isMounted s) then s
  else
    match get fetchedTodo "source_page" ≫= (λ p, get p "slug") with
    | Some slug => send (GetPageData slug) s
    | None => fetchTodoData_rejected (mkAxiosError "TypeError" EmptyString None) s
    end.

(** [fetchTodoData] after both calls resolved. A [TypeError] raised while
    combining is caught by the same [catch] block. *)
Definition fetchTodoData_resolved (fetchedTodo sourcePage : value) (s : State)
    : State :=
  if negb (isMounted s) then s
  else
    match combine fetchedTodo sourcePage with
    | Some finalData => setLoading false (setTodoDisplayData finalData s)
    | None => fetchTodoData_rejected (mkAxiosError "TypeError" EmptyString None) s
    end.

(** *** Changing a status *)

(** The optimistic update:
    [{ ...prevData, rows: prevData.rows.map(row =>
         row.id === rowId ? { ...row, status: newStatus } : row) }]. *)
Definition update_row (rowId : value) (newStatus : string) (row : value)
    : option value :=
  id ← get row "id";
  Some (if strict_eq id rowId
        then VObj (set_prop "status" (VStr newStatus) (spread row))
        else row).

Definition optimistic (rowId : value) (newStatus : string) (prevData : value)
    : option value :=
  if negb (truthy prevData) then Some VNull
  else
    rows ← get prevData "rows";
    newRows ← match rows with
               | VArr l => mapM (update_row rowId newStatus) l
               | _ => None
               end;
    Some (VObj (set_prop "rows" (VArr newRows) (spread prevData))).

(** [handleStatusChange], up to the [await]: the new state together with
    the snapshot [previousData] that the handler holds on to. [newStatus]
    is the value of the select element, a string. *)
Definition handleStatusChange_start (rowId : value) (newStatus : string)
    (s : State) : option (State * option value) :=
  if negb (truthy (todoDisplayData s)) then Some (s, None)
  else
    previousData ← clone (todoDisplayData s);
    updated ← optimistic rowId newStatus (todoDisplayData s);
    Some (send (UpdateTodoStatus (todoId s) rowId newStatus)
            (setTodoDisplayData updated s),
          Some previousData).

(** [handleStatusChange], after the call resolved. *)
Definition handleStatusChange_resolved (s : State) : State :=
  addNotification (VStr "Status updated!") "success" 2000 s.

(** [handleStatusChange], after the call was rejected. *)
Definition handleStatusChange_rejected (err : AxiosError) (previousData : value)
    (s : State) : State :=
  let errorMsg :=
    or_else (get_opt (response_data err) "detail")
      (VStr "Failed to update status.") in
  let s1 := addNotification errorMsg "error" 5000 s in
  if isMounted s1 then setTodoDisplayData previousData s1 else s1.

(** *** What the combined view is expected to be *)

(** The status of the last entry recorded for [id], if any. *)
Fixpoint spec_status_lookup (id : value) (entries : list (value * string))
    : option string :=
  match entries with
  | [] => None
  | (k, st) :: rest =>
      match spec_status_lookup id rest with
      | Some st' => Some st'
      | None => if strict_eq k id then Some st else None
      end
  end.

Definition spec_status (id : value) (entries : list (value * string)) : string :=
  default "NOT_STARTED" (spec_status_lookup id entries).

(** A status entry [(row_id, status)] as the pair given to [new Map]. *)
Definition js_entry (e : value * string) : value * value := (e.1, VStr e.2).

(** The rows after the optimistic update of [rowId] to [newStatus]. *)
Definition updated_rows (rowId : value) (newStatus : string) (rows : list value)
    : list value :=
  (λ row, if strict_eq (get_opt row "id") rowId
          then VObj (set_prop "status" (VStr newStatus) (spread row))
          else row) <$> rows.

(** The enumeration of statuses. *)
Definition valid_status (st : string) : Prop :=
  st = "NOT_STARTED" ∨ st = "IN_PROGRESS" ∨ st = "COMPLETED".

(** The shape of a loaded view: an object whose [rows] is an array of
    objects, all of it JSON. *)
Definition is_object (v : value) : bool :=
  match v with VObj _ => true | _ => false end.

Definition loaded_view (d : value) (fs : list (string * value)) (rows : list value)
    : Prop :=
  d = VObj fs ∧ lookup_prop "rows" fs = VArr rows
  ∧ Forall (λ r, is_object r = true) rows ∧ is_json d = true.

(** *** A concrete ToDo *)

Definition example_todo : value :=
  VObj [("name", VStr "chores");
        ("source_page", VObj [("slug", VStr "budget")]);
        ("statuses",
         VArr [VObj [("row_id", VNum 5); ("status", VStr "COMPLETED")]])].

Definition example_source : value :=
  VObj [("rows", VArr [VObj [("id", VNum 5)]; VObj [("id", VNum 6)]])].

Definition example_view : value :=
  default VNull (combine example_todo example_source).

Definition example_state : State :=
  mkState "7" example_view false VNull true [] [].

End TodoView.

(** ** The request gateway: [services/api.js] *)

Module Api.

(** Strings are sequences of bytes; a character outside ASCII is the
    sequence of its UTF-8 bytes. [trim] and [toUpperCase] below are those
    of JavaScript on strings of ASCII characters: outside ASCII the
    built-ins also strip the other white space of Unicode (the no-break
    space among them) and change the case of other letters, which the
    definitions here leave alone. *)

(** *** String helpers *)

(** [s.split(c)] *)
Fixpoint split (c : ascii) (s : string) : list string :=
  match s with
  | EmptyString => [EmptyString]
  | String a s' =>
      if Ascii.eqb a c then EmptyString :: split c s'
      else match split c s' with
           | [] => [String a EmptyString]
           | w :: ws => String a w :: ws
           end
  end.

(** White space removed by [trim], within ASCII: tab, line feed, vertical
    tab, form feed, carriage return and space. ([document.cookie] separates
    the cookies by a semicolon and a space.) *)
Definition is_space (a : ascii) : bool :=
  let n := nat_of_ascii a in
  bool_decide (n = 32 ∨ (9 ≤ n ∧ n ≤ 13)).

Fixpoint trim_start (s : string) : string :=
  match s with
  | String a s' => if is_space a then trim_start s' else s
  | EmptyString => EmptyString
  end.

Fixpoint trim_end (s : string) : string :=
  match s with
  | EmptyString => EmptyString
  | String a s' =>
      match trim_end s' with
      | EmptyString => if is_space a then EmptyString else String a EmptyString
      | t => String a t
      end
  end.

(** [s.trim()], for [s] a string of ASCII characters. *)
Definition trim (s : string) : string := trim_end (trim_start s).

(** [s.substring(0, n)] and [s.substring(n)] *)
Definition substring_to (n : nat) (s : string) : string := String.substring 0 n s.
Definition substring_from (n : nat) (s : string) : string :=
  String.substring n (String.length s - n) s.

(** [s.toUpperCase()], for [s] a string of ASCII characters. *)
Definition upper_ascii (a : ascii) : ascii :=
  let n := nat_of_ascii a in
  if bool_decide (97 ≤ n ∧ n ≤ 122) then ascii_of_nat (n - 32) else a.

Fixpoint toUpperCase (s : string) : string :=
  match s with
  | EmptyString => EmptyString
  | String a s' => String (upper_ascii a) (toUpperCase s')
  end.

(** *** [decodeURIComponent] *)

Definition hex_digit (a : ascii) : option nat :=
  let n := nat_of_ascii a in
  if bool_decide (48 ≤ n ∧ n ≤ 57) then Some (n - 48)
  else if bool_decide (65 ≤ n ∧ n ≤ 70) then Some (n - 55)
  else if bool_decide (97 ≤ n ∧ n ≤ 102) then Some (n - 87)
  else None.

(** Where the decoder stands inside a UTF-8 sequence: outside one, or
    [need] more escaped bytes to come, the next one within [lo..hi]. *)
Inductive Utf8 := Outside | Inside (need lo hi : nat).

(** The state after the escaped byte [b]; [None] if [b] cannot come here. *)
Definition utf8_step (st : Utf8) (b : nat) : option Utf8 :=
  match st with
  | Outside =>
      if bool_decide (b < 128) then Some Outside
      else if bool_decide (194 ≤ b ∧ b ≤ 223) then Some (Inside 1 128 191)
      else if bool_decide (b = 224) then Some (Inside 2 160 191)
      else if bool_decide (b = 237) then Some (Inside 2 128 159)
      else if bool_decide (225 ≤ b ∧ b ≤ 239) then Some (Inside 2 128 191)
      else if bool_decide (b = 240) then Some (Inside 3 144 191)
      else if bool_decide (241 ≤ b ∧ b ≤ 243) then Some (Inside 3 128 191)
      else if bool_decide (b = 244) then Some (Inside 3 128 143)
      else None
  | Inside need lo hi =>
      if bool_decide (lo ≤ b ∧ b ≤ hi) then
        Some (match need with
              | S (S n) => Inside (S n) 128 191
              | _ => Outside
              end)
      else None
  end.

(** [None] is the [URIError] thrown for a malformed sequence. *)
Fixpoint decode (st : Utf8) (s : string) : option string :=
  match s with
  | EmptyString => match st with Outside => Some EmptyString | _ => None end
  | String "%" (String a (String b rest)) =>
      match hex_digit a, hex_digit b with
      | Some x, Some y =>
          st' ← utf8_step st (16 * x + y);
          String (ascii_of_nat (16 * x + y)) <$> decode st' rest
      | _, _ => None
      end
  | String "%" _ => None
  | String c rest =>
      match st with
      | Outside => String c <$> decode Outside rest
      | Inside _ _ _ => None
      end
  end.

Definition decodeURIComponent (s : string) : option string := decode Outside s.

(** *** [getCookie] *)

(** The [for] loop over the cookies; the outer [None] is an exception, the
    inner one the initial [null]. *)
Fixpoint getCookie_loop (name : string) (cookies : list string)
    : option (option string) :=
  match cookies with
  | [] => Some None
  | c :: rest =>
      let cookie := trim c in
      if String.eqb (substring_to (String.length name + 1) cookie) (name +:+ "=")
      then Some <$> decodeURIComponent (substring_from (String.length name + 1) cookie)
      else getCookie_loop name rest
  end.

(** [getCookie(name)], reading [document.cookie]. *)
Definition getCookie (document_cookie : string) (name : string)
    : option (option string) :=
  if negb (String.eqb document_cookie EmptyString)
  then getCookie_loop name (split ";" document_cookie)
  else Some None.

(** *** The request interceptor *)

Record Config := mkConfig {
  method : option string;
  url : string;
  headers : gmap string string }.

Definition set_header (k v : string) (config : Config) : Config :=
  mkConfig (method config) (url config) (<[k := v]> (headers config)).

Definition safe_methods : list string := ["GET"; "HEAD"; "OPTIONS"; "TRACE"].

Definition csrf_warning (m u : string) : string :=
  "CSRF token not found in cookies for request: " +:+ m +:+ " " +:+ u
    +:+ ". Request might fail.".

(** The first function given to [api.interceptors.request.use]: the config
    the request goes on with, and the console warnings. [None] is an
    exception, which rejects the request. *)
Definition request_interceptor (document_cookie : string) (config : Config)
    : option (Config * list string) :=
  match toUpperCase <$> method config with
  | Some m =>
      if negb (String.eqb m EmptyString) && negb (bool_decide (m ∈ safe_methods)) then
        csrfToken ← getCookie document_cookie "csrftoken";
        match csrfToken with
        | Some token =>
            if negb (String.eqb token EmptyString)
            then Some (set_header "X-CSRFToken" token config, [])
            else Some (config, [csrf_warning m (url config)])
        | None => Some (config, [csrf_warning m (url config)])
        end
      else Some (config, [])
  | None => Some (config, [])
  end.

Definition mutating_methods : list string := ["POST"; "PUT"; "PATCH"; "DELETE"].

Definition example_config (m : string) : Config :=
  mkConfig (Some m) "/pages/budget/save/" {["Content-Type" := "application/json"]}.

End Api.

(** ** The table: [components/table/DataTable.js] and [EditableCell.js] *)

Module DataTable.
Import Js PageView.

(** [row.cells?.[colIndex] ?? ''], the text given to the cell at
    [colIndex]: a cell that is missing, [null] or a hole shows as the empty
    string. *)
Definition initialValue (row : Row) (colIndex : nat) : string :=
  match row_cells row !! colIndex with
  | Some (CellStr text) => text
  | _ => EmptyString
  end.

(** The cells of a table row, [columns.map((col, colIndex) => ...)]: one
    for every column, whatever the length of [row.cells]. *)
Definition row_texts (columns : list Column) (row : Row) : list string :=
  imap (λ colIndex _, initialValue row colIndex) columns.

(** The table body, [rows.map((row, rowIndex) => ...)]. *)
Definition table_texts (p : Page) : list (list string) :=
  row_texts (columns p) <$> rows p.

(** [handleBlur] of [EditableCell]: [onSave] is called only when the text
    differs from the one the cell was given. *)
Definition handleBlur (value initialValue : string)
    (onSave : string → State → option State) (s : State) : option State :=
  if bool_decide (value ≠ initialValue) then onSave value s else Some s.

(** The text area of the cell at [rowIndex], [colIndex] loses the focus
    holding the text [typed]. [PageView] renders the table once [pageData]
    is there, from [displayData]; the cells are text areas in edit mode
    only, and [onSave] is
    [(newValue) => onCellChange(rowIndex, colIndex, newValue)]. *)
Definition cell_blur (rowIndex colIndex : nat) (typed : string) (s : State)
    : option State :=
  match pageData s with
  | None => Some s
  | Some _ =>
      if negb (isEditing s) then Some s
      else
        p ← displayData s;
        match rows p !! rowIndex, columns p !! colIndex with
        | Some row, Some _ =>
            handleBlur typed (initialValue row colIndex)
              (handleCellChange rowIndex colIndex) s
        | _, _ => Some s
        end
  end.

(** A click on the delete button of the row at [rowIndex]: the button is
    there in edit mode only, it is [disabled={!row.id}], and its handler is
    [() => onDeleteRow(row.id)]. *)
Definition delete_click (rowIndex : nat) (s : State) : option State :=
  match pageData s with
  | None => Some s
  | Some _ =>
      if negb (isEditing s) then Some s
      else
        p ← displayData s;
        match rows p !! rowIndex with
        | Some row =>
            if truthy_id (row_id row) then handleDeleteRow (row_id row) s
            else Some s
        | None => Some s
        end
  end.

End DataTable.

(** ** The status column of the table: [DataTable.js] *)

Module TodoTable.
Import Js.

(** [row.status || 'NOT_STARTED'], the status that the select of a row
    shows; [None] is the [TypeError] of a row that is [null]. *)
Definition currentStatus (row : value) : option value :=
  status ← get row "status";
  Some (or_else status (VStr "NOT_STARTED")).

End TodoTable.

(** ** Kinds of transitions and shapes of pages, for the statements below *)

Module PageViewProps.
Import Js PageView.

(** The handlers that run when the user acts on the page: a mutation, the
    edit toggle, a save. *)
Definition user_action (e : Event) : bool :=
  match e with
  | EMutation _ | EToggleEdit | ESaveChanges => true
  | _ => false
  end.

(** The parts of the asynchronous handlers that run after an [await], and
    the start of a fetch, which the save runs after its own [await]. *)
Definition continuation (t : Transition) : bool :=
  match t with
  | TFetchResolved _ => true
  | TEvent (ESaveResolved | ESaveRejected _ | ESaveFinally
            | EFetchStart | EFetchRejected _) => true
  | TEvent _ => false
  end.

(** The rows are numbered [1..N] by position. *)
Definition consecutive (p : Page) : Prop :=
  row_order <$> rows p = Z.of_nat <$> seq 1 (length (rows p)).

(** Every column and every row has a truthy id, as on a page that was
    saved. *)
Definition saved_ids (p : Page) : Prop :=
  Forall (λ c, truthy_id (col_id c) = true) (columns p)
  ∧ Forall (λ r, truthy_id (row_id r) = true) (rows p).

(** The mutations the table offers, a cell edit and a row deletion: they
    stay within reach while a save is in flight, whereas the button of the
    top bar that adds a row is [disabled={!isEditing || isLoadingSave}]. *)
Definition table_mutation (m : Mutation) : bool :=
  match m with
  | CellEdit _ _ _ | DeleteRow _ => true
  | AddRow => false
  end.

(** [short_row_editing] after the third cell of its row, which the row does
    not hold, was edited. *)
Definition short_row_edited : State :=
  default short_row_editing (handleCellChange 0 2 "v" short_row_editing).

End PageViewProps.

(** ** Strings *)

Module Strings.

(** Every character of [s] satisfies [P]. *)
Fixpoint all_chars (P : ascii → bool) (s : string) : bool :=
  match s with
  | EmptyString => true
  | String a s' => P a && all_chars P s'
  end.

(** An ASCII character: a byte below 128. *)
Definition ascii_char (a : ascii) : bool :=
  bool_decide (nat_of_ascii a < 128).

End Strings.

(** ** The cookie string the browser hands to [getCookie] *)

Module Cookies.
Import Api Strings.

(** [document.cookie] lists the cookies of the page as [name=value] pairs,
    separated by a semicolon and a space. *)
Definition cookie_pair (c : string * string) : string := c.1 +:+ "=" +:+ c.2.

Fixpoint cookie_string (jar : list (string * string)) : string :=
  match jar with
  | [] => EmptyString
  | [c] => cookie_pair c
  | c :: jar' => cookie_pair c +:+ "; " +:+ cookie_string jar'
  end.

(** Cookie names and values are made of ASCII characters (what lies
    outside is sent percent-encoded): a name holds no white space,
    semicolon or equals sign, a value no white space or semicolon. *)
Definition name_char (a : ascii) : bool :=
  ascii_char a && negb (is_space a) && negb (Ascii.eqb a ";")
  && negb (Ascii.eqb a "=").

Definition value_char (a : ascii) : bool :=
  ascii_char a && negb (is_space a) && negb (Ascii.eqb a ";").

Definition well_formed (c : string * string) : Prop :=
  all_chars name_char c.1 = true ∧ all_chars value_char c.2 = true.

(** The value of the first cookie called [name]. *)
Fixpoint jar_lookup (name : string) (jar : list (string * string))
    : option string :=
  match jar with
  | [] => None
  | c :: jar' => if String.eqb c.1 name then Some c.2 else jar_lookup name jar'
  end.

(** No escape sequence in the value. *)
Definition plain (v : string) : bool :=
  all_chars (λ a, negb (Ascii.eqb a "%")) v.

End Cookies.

(** ** The notification list: [contexts/NotificationContext.js] *)

Module NotificationContext.
Import Js.

(** A notification in the list: the message with the id that [uuidv4()]
    gave it. *)
Record Item := mkItem { item_id : string; item : Notification }.

(** [addNotification(message, type, duration)]: the new notification goes
    to the front; [uuid] is the result of [uuidv4()]. *)
Definition addNotification (uuid : string) (message : value) (type : string)
    (duration : Z) (prevNotifications : list Item) : list Item :=
  mkItem uuid (mkNotification message type duration) :: prevNotifications.

(** [removeNotification(idToRemove)] *)
Definition removeNotification (idToRemove : string)
    (prevNotifications : list Item) : list Item :=
  filter (λ notification, item_id notification ≠ idToRemove) prevNotifications.

End NotificationContext.

(** ** Creating a ToDo list: [components/modals/CreateTodoModal.js] *)

Module CreateTodoModal.
Import Js.

(** The body of [POST /todos/]. *)
Record Payload := mkPayload {
  name : string; is_personal : bool; source_page_slug : string }.

(** The state of the modal, with the notification list and a log of the
    calls issued (newest first). *)
Record State := mkState {
  todoName : string;
  isPersonal : bool;
  loading : bool;
  errors : list (string * value);
  notifications : list Notification;
  requests : list Payload }.

Definition setLoading (x : bool) (s : State) : State :=
  mkState (todoName s) (isPersonal s) x (errors s) (notifications s) (requests s).
Definition setErrors (x : list (string * value)) (s : State) : State :=
  mkState (todoName s) (isPersonal s) (loading s) x (notifications s) (requests s).
Definition addNotification (message : value) (type : string) (duration : Z)
    (s : State) : State :=
  mkState (todoName s) (isPersonal s) (loading s) (errors s)
    (mkNotification message type duration :: notifications s) (requests s).
Definition send (r : Payload) (s : State) : State :=
  mkState (todoName s) (isPersonal s) (loading s) (errors s) (notifications s)
    (r :: requests s).

(** [handleSubmit], up to the [await]. [Api.trim] is [todoName.trim()] for
    a name of ASCII characters. *)
Definition handleSubmit_start (sourcePageSlug : string) (s : State) : State :=
  let trimmedName := Api.trim (todoName s) in
  if String.eqb trimmedName EmptyString
  then setErrors [("name", VStr "ToDo name cannot be empty.")] s
  else
    send (mkPayload trimmedName (isPersonal s) sourcePageSlug)
      (setErrors [] (setLoading true s)).

Section rejected.

(** [l.join(sep)], the built-in [Array.prototype.join]. How it writes the
    elements of the array (numbers, nested arrays, objects) is left open:
    what follows holds of any such function. *)
Variable array_join : string → list value → string.

(** The value stored for one field:
    [Array.isArray(errorData[key]) ? errorData[key].join(' ') : errorData[key]]. *)
Definition field_error (v : value) : value :=
  match v with VArr l => VStr (array_join " " l) | _ => v end.

(** [typeof v === 'object'] *)
Definition typeof_object (v : value) : bool :=
  match v with VNull | VArr _ | VObj _ => true | _ => false end.

(** The object [backendErrors] built in the [catch] block of
    [handleSubmit]. The keys of the [for...in] loop are those of [spread];
    a property called [__proto__] in the error body is outside this
    model. *)
Definition backendErrors (err : AxiosError) : list (string * value) :=
  let errorData := response_data err in
  if truthy errorData && typeof_object errorData then
    let collected :=
      foldl (λ acc key,
               set_prop key (field_error (lookup_prop key (spread errorData))) acc)
        [] (spread errorData).*1 in
    let specific :=
      or_else (get_opt errorData "detail") (get_opt errorData "error") in
    if bool_decide (length collected = 0) && truthy specific
    then set_prop "general" specific collected
    else if bool_decide (length collected = 0)
    then set_prop "general"
           (VStr "Failed to create ToDo list. Please try again.") collected
    else collected
  else [("general", VStr "Failed to create ToDo list. An unknown error occurred.")].

(** [handleSubmit], after the call was rejected with [err]: the [catch]
    and [finally] blocks. *)
Definition handleSubmit_rejected (err : AxiosError) (s : State) : State :=
  let collected := backendErrors err in
  setLoading false
    (addNotification
       (or_else (lookup_prop "general" collected)
          (VStr "Failed to create ToDo list."))
       "error" 5000 (setErrors collected s)).

End rejected.

End CreateTodoModal.

(** ** Two facts used throughout *)

Module JsFacts.
Import Js.

(** [a || b] is truthy as soon as [b] is. *)
Lemma or_else_truthy a b : truthy b = true → truthy (or_else a b) = true.
Proof. intros Hb. unfold or_else. by destruct (truthy a) eqn:Ha. Qed.

(** A filter keeps a list whose elements all pass. *)
Lemma filter_all {A} (P : A → Prop) `{!∀ x, Decision (P x)} (l : list A) :
  Forall P l → filter P l = l.
Proof.
  induction 1 as [|x l Hx _ IH]; [done|].
  rewrite filter_cons_True by done. by rewrite IH.
Qed.

End JsFacts.

(** ** Properties of the page view *)

Module PageViewFacts.
Import Js PageView.

Ltac locs :=
  unfold col_at, cols_at, cells_at, row_at, rows_at, page_at in *; lia.

(** *** Objects that stay as they are *)

Lemma preserves_refl h : preserves h h.
Proof. by intros l o. Qed.

Lemma preserves_trans h1 h2 h3 :
  preserves h1 h2 → preserves h2 h3 → preserves h1 h3.
Proof. intros H12 H23 l o Hl. by apply H23, H12. Qed.

Lemma preserves_app h t : preserves h (h ++ t).
Proof. intros l o Hl. by apply lookup_app_l_Some. Qed.

Lemma preserves_insert h h' k o :
  preserves h h' → length h ≤ k → preserves h (<[k := o]> h').
Proof.
  intros Hp Hk l x Hl.
  rewrite list_lookup_insert_ne; [by apply Hp|].
  apply lookup_lt_Some in Hl. lia.
Qed.

(** Reading a page only looks at objects that exist, so it gives the same
    result in any heap that preserves them. *)
Lemma read_cells_preserves h h' l cs :
  preserves h h' → read_cells h l = Some cs → read_cells h' l = Some cs.
Proof.
  unfold read_cells. intros Hp.
  destruct (h !! l) as [o|] eqn:E; [|done].
  rewrite (Hp _ _ E). done.
Qed.

Lemma read_row_preserves h h' l r :
  preserves h h' → read_row h l = Some r → read_row h' l = Some r.
Proof.
  unfold read_row. intros Hp.
  destruct (h !! l) as [o|] eqn:E; [|done].
  rewrite (Hp _ _ E). destruct o; try done.
  destruct (read_cells h cells) as [cs|] eqn:Ec; [|done].
  by rewrite (read_cells_preserves _ _ _ _ Hp Ec).
Qed.

Lemma mapM_impl {A B} (f g : A → option B) l k :
  (∀ x y, f x = Some y → g x = Some y) → mapM f l = Some k → mapM g l = Some k.
Proof.
  intros Hfg. rewrite !mapM_Some. intros HF. eapply Forall2_impl; eauto.
Qed.

Lemma read_rows_preserves h h' l rs :
  preserves h h' → read_rows h l = Some rs → read_rows h' l = Some rs.
Proof.
  unfold read_rows. intros Hp.
  destruct (h !! l) as [o|] eqn:E; [|done].
  rewrite (Hp _ _ E). destruct o; try done.
  apply mapM_impl. intros x y. by apply read_row_preserves.
Qed.

Lemma read_column_preserves h h' l c :
  preserves h h' → read_column h l = Some c → read_column h' l = Some c.
Proof.
  unfold read_column. intros Hp.
  destruct (h !! l) as [o|] eqn:E; [|done].
  by rewrite (Hp _ _ E).
Qed.

Lemma read_columns_preserves h h' l cs :
  preserves h h' → read_columns h l = Some cs → read_columns h' l = Some cs.
Proof.
  unfold read_columns. intros Hp.
  destruct (h !! l) as [o|] eqn:E; [|done].
  rewrite (Hp _ _ E). destruct o; try done.
  apply mapM_impl. intros x y. by apply read_column_preserves.
Qed.

Lemma read_page_preserves h h' l p :
  preserves h h' → read_page h l = Some p → read_page h' l = Some p.
Proof.
  unfold read_page. intros Hp.
  destruct (h !! l) as [o|] eqn:E; [|done].
  rewrite (Hp _ _ E). destruct o; try done.
  destruct (read_columns h cols) as [cs|] eqn:Ec; [|done].
  destruct (read_rows h rws) as [rs|] eqn:Er; [|done].
  rewrite (read_columns_preserves _ _ _ _ Hp Ec).
  by rewrite (read_rows_preserves _ _ _ _ Hp Er).
Qed.

(** *** The layout of a parsed page *)

Lemma length_row_objs b nc j rs : length (row_objs b nc j rs) = 2 * length rs.
Proof. revert j. induction rs as [|r rs IH]; intros j; simpl; [done|]. rewrite IH. lia. Qed.

Lemma lookup_row_objs_cells b nc j rs i r :
  rs !! i = Some r → row_objs b nc j rs !! (2 * i) = Some (OCells (row_cells r)).
Proof.
  revert j i. induction rs as [|r0 rs IH]; intros j i Hi; [done|].
  destruct i as [|i]; simpl in *.
  - by simplify_eq.
  - replace (i + S (i + 0)) with (S (2 * i)) by lia. simpl. by apply IH.
Qed.

Lemma lookup_row_objs_row b nc j rs i r :
  rs !! i = Some r →
  row_objs b nc j rs !! (2 * i + 1)
    = Some (ORow (row_id r) (row_order r) (cells_at b nc (j + i))).
Proof.
  revert j i. induction rs as [|r0 rs IH]; intros j i Hi; [done|].
  destruct i as [|i]; simpl in *.
  - simplify_eq. by rewrite Nat.add_0_r.
  - replace (i + S (i + 0) + 1) with (S (2 * i + 1)) by lia. simpl.
    rewrite (IH (S j) i Hi). do 3 f_equal. lia.
Qed.

Lemma lookup_app_plus {A} (l1 l2 : list A) k n :
  n = length l1 + k → (l1 ++ l2) !! n = l2 !! k.
Proof. intros ->. rewrite lookup_app_r by lia. f_equal. lia. Qed.

Lemma lookup_cons_plus {A} (x : A) (l : list A) k n :
  n = S k → (x :: l) !! n = l !! k.
Proof. by intros ->. Qed.

Lemma parse_layout p h : layout (parse p h).2 (length h) p.
Proof.
  unfold parse; simpl.
  set (b := length h). set (nc := length (columns p)). set (nr := length (rows p)).
  split; fold nc; fold nr.
  - intros j c Hj.
    rewrite (lookup_app_plus _ _ j) by locs.
    rewrite lookup_app_l by (rewrite length_fmap; by eapply lookup_lt_Some).
    by rewrite list_lookup_fmap, Hj.
  - rewrite (lookup_app_plus _ _ nc) by locs.
    rewrite (lookup_app_plus _ _ 0) by (rewrite length_fmap; lia). done.
  - intros j r Hj.
    rewrite (lookup_app_plus _ _ (nc + 1 + 2 * j)) by locs.
    rewrite (lookup_app_plus _ _ (1 + 2 * j)) by (rewrite length_fmap; lia).
    rewrite (lookup_cons_plus _ _ (2 * j)) by lia.
    rewrite lookup_app_l.
    + by apply lookup_row_objs_cells.
    + rewrite length_row_objs. apply lookup_lt_Some in Hj. lia.
  - intros j r Hj.
    rewrite (lookup_app_plus _ _ (nc + 2 + 2 * j)) by locs.
    rewrite (lookup_app_plus _ _ (2 + 2 * j)) by (rewrite length_fmap; lia).
    rewrite (lookup_cons_plus _ _ (2 * j + 1)) by lia.
    rewrite lookup_app_l.
    + by rewrite (lookup_row_objs_row _ _ _ _ _ _ Hj).
    + rewrite length_row_objs. apply lookup_lt_Some in Hj. lia.
  - rewrite (lookup_app_plus _ _ (nc + 1 + 2 * nr)) by locs.
    rewrite (lookup_app_plus _ _ (1 + 2 * nr)) by (rewrite length_fmap; lia).
    rewrite (lookup_cons_plus _ _ (2 * nr)) by lia.
    rewrite (lookup_app_plus _ _ 0) by (rewrite length_row_objs; lia). done.
  - rewrite (lookup_app_plus _ _ (nc + 2 + 2 * nr)) by locs.
    rewrite (lookup_app_plus _ _ (2 + 2 * nr)) by (rewrite length_fmap; lia).
    rewrite (lookup_cons_plus _ _ (2 * nr + 1)) by lia.
    rewrite (lookup_app_plus _ _ 1) by (rewrite length_row_objs; lia). done.
Qed.

Lemma parse_length p h :
  length (parse p h).2
    = S (page_at (length h) (length (columns p)) (length (rows p))).
Proof.
  unfold parse; simpl. rewrite !length_app, length_fmap. simpl.
  rewrite length_app, length_row_objs. simpl. locs.
Qed.

Lemma parse_preserves p h : preserves h (parse p h).2.
Proof. apply preserves_app. Qed.

(** A page laid out in the heap reads back as itself. *)
Lemma layout_read_columns H b p :
  layout H b p → read_columns H (cols_at b (length (columns p))) = Some (columns p).
Proof.
  intros L. unfold read_columns. rewrite (lay_cols _ _ _ L).
  apply mapM_Some, Forall2_same_length_lookup. split.
  - by rewrite length_fmap, length_seq.
  - intros j l c Hl Hc. rewrite list_lookup_fmap in Hl.
    destruct (seq 0 _ !! j) as [j'|] eqn:Hs; [|done]. apply lookup_seq in Hs as [-> _].
    simpl in Hl. injection Hl as <-. unfold read_column. by rewrite (lay_col _ _ _ L _ _ Hc).
Qed.

Lemma layout_read_rows H b p :
  layout H b p →
  read_rows H (rows_at b (length (columns p)) (length (rows p))) = Some (rows p).
Proof.
  intros L. unfold read_rows. rewrite (lay_rows _ _ _ L).
  apply mapM_Some, Forall2_same_length_lookup. split.
  - by rewrite length_fmap, length_seq.
  - intros j l r Hl Hr. rewrite list_lookup_fmap in Hl.
    destruct (seq 0 _ !! j) as [j'|] eqn:Hs; [|done]. apply lookup_seq in Hs as [-> _].
    simpl in Hl. injection Hl as <-. unfold read_row.
    rewrite (lay_row _ _ _ L _ _ Hr). unfold read_cells.
    rewrite (lay_cells _ _ _ L _ _ Hr). by destruct r.
Qed.

Lemma layout_read H b p :
  layout H b p →
  read_page H (page_at b (length (columns p)) (length (rows p))) = Some p.
Proof.
  intros L. unfold read_page. rewrite (lay_page _ _ _ L).
  rewrite (layout_read_columns _ _ _ L), (layout_read_rows _ _ _ L). by destruct p.
Qed.

Lemma lookup_fmap_seq {A} (f : nat → A) n i :
  (f <$> seq 0 n) !! i = if decide (i < n) then Some (f i) else None.
Proof.
  rewrite list_lookup_fmap. case_decide as Hi.
  - by rewrite lookup_seq_lt.
  - by rewrite lookup_seq_ge by lia.
Qed.

Lemma json_cell_idemp c : json_cell (json_cell c) = json_cell c.
Proof. by destruct c. Qed.

Lemma json_row_idemp r : json_row (json_row r) = json_row r.
Proof.
  unfold json_row; simpl. f_equal. rewrite <- list_fmap_compose.
  apply list_fmap_ext. intros ? c _. apply json_cell_idemp.
Qed.

Lemma json_page_idemp p : json_page (json_page p) = json_page p.
Proof.
  unfold json_page; simpl. f_equal. rewrite <- list_fmap_compose.
  apply list_fmap_ext. intros ? r _. apply json_row_idemp.
Qed.

Lemma deepCopy_read h l p :
  read_page h l = Some p → deepCopy h l = Some (parse (json_page p) h).
Proof. intros E. unfold deepCopy, stringify. by rewrite E. Qed.

(** The copy made by [deepCopy]: where it is, what it holds, and that it
    leaves the objects of [h] alone. *)
Lemma deepCopy_spec h l p :
  read_page h l = Some p →
  ∃ H,
    deepCopy h l
      = Some (page_at (length h) (length (columns p)) (length (rows p)), H)
    ∧ layout H (length h) (json_page p)
    ∧ length H = S (page_at (length h) (length (columns p)) (length (rows p)))
    ∧ preserves h H.
Proof.
  intros E. exists (parse (json_page p) h).2. split; [|split; [|split]].
  - rewrite (deepCopy_read _ _ _ E). unfold parse; simpl. by rewrite length_fmap.
  - apply parse_layout.
  - rewrite parse_length. simpl. by rewrite length_fmap.
  - apply parse_preserves.
Qed.

(** *** Cell edits *)

(** Writing the cells array of row [i] in a laid-out page gives the layout
    of the page with that row's cells replaced. *)
Lemma layout_cell_edit H b p i r cs' :
  layout H b p → rows p !! i = Some r →
  layout (<[cells_at b (length (columns p)) i := OCells cs']> H) b
    (mkPage (columns p) (<[i := mkRow (row_id r) (row_order r) cs']> (rows p))).
Proof.
  intros L Hi.
  pose proof (lookup_lt_Some _ _ _ Hi) as Hlt.
  pose proof (lookup_lt_Some _ _ _ (lay_cells _ _ _ L _ _ Hi)) as HltH.
  split; simpl; rewrite ?length_insert.
  - intros j c Hj. pose proof (lookup_lt_Some _ _ _ Hj).
    rewrite list_lookup_insert_ne by locs. by apply L.
  - rewrite list_lookup_insert_ne by locs. by apply L.
  - intros j r' Hj. destruct (decide (j = i)) as [->|Hne].
    + rewrite list_lookup_insert_eq in Hj by done. simplify_eq. simpl.
      by rewrite list_lookup_insert_eq.
    + rewrite list_lookup_insert_ne in Hj by done.
      rewrite list_lookup_insert_ne by locs. by apply L.
  - intros j r' Hj. rewrite list_lookup_insert_ne by locs.
    destruct (decide (j = i)) as [->|Hne].
    + rewrite list_lookup_insert_eq in Hj by done. simplify_eq. simpl.
      by rewrite (lay_row _ _ _ L _ _ Hi).
    + rewrite list_lookup_insert_ne in Hj by done. by apply L.
  - rewrite list_lookup_insert_ne by locs. by apply L.
  - rewrite list_lookup_insert_ne by locs. by apply L.
Qed.

Lemma same_view_refl s : same_view s s.
Proof. by repeat split. Qed.

Lemma same_view_trans s1 s2 s3 :
  same_view s1 s2 → same_view s2 s3 → same_view s1 s3.
Proof. unfold same_view. intros ? ?. intuition congruence. Qed.

(** [handleCellChange] computes [spec_cellEdit] on a fresh copy of the
    buffer. *)
Lemma handleCellChange_spec s e buf i j v :
  isEditing s = true → editData s = Some e → read_page (heap s) e = Some buf →
  ∃ s' e',
    handleCellChange i j v s = Some s'
    ∧ editData s' = Some e'
    ∧ read_page (heap s') e' = Some (spec_cellEdit i j v (json_page buf))
    ∧ preserves (heap s) (heap s')
    ∧ same_view s s'
    ∧ warnings s' = (if decide (i < length (rows buf)) then warnings s
                     else cell_warning i j :: warnings s).
Proof.
  intros Hed He Hread.
  destruct (deepCopy_spec _ _ _ Hread) as (H1 & Hcopy & L & Hlen & Hpres).
  unfold handleCellChange. rewrite Hed, He. simpl. rewrite Hcopy. simpl.
  set (b := length (heap s)) in *.
  assert (Hnc : length (columns (json_page buf)) = length (columns buf)) by done.
  assert (Hnr : length (rows (json_page buf)) = length (rows buf))
    by (simpl; by rewrite length_fmap).
  pose proof (lay_page _ _ _ L) as Hpage. rewrite Hnc, Hnr in Hpage.
  rewrite Hpage. simpl.
  pose proof (lay_rows _ _ _ L) as Hrows. rewrite Hnc, Hnr in Hrows.
  rewrite Hrows. simpl.
  rewrite lookup_fmap_seq. unfold spec_cellEdit.
  case_decide as Hi.
  - destruct (rows (json_page buf) !! i) as [r|] eqn:Hr.
    2:{ apply lookup_ge_None in Hr. lia. }
    pose proof (lay_row _ _ _ L _ _ Hr) as Hrow. rewrite Hnc in Hrow.
    rewrite Hrow. simpl. unfold read_cells.
    pose proof (lay_cells _ _ _ L _ _ Hr) as Hcells. rewrite Hnc in Hcells.
    rewrite Hcells. simpl.
    eexists _, _. split; [done|]. simpl. split; [done|].
    split; [|split; [|split; [by repeat split|done]]].
    + pose proof (layout_cell_edit _ _ _ _ _
                    (array_set (row_cells r) j (CellStr v)) L Hr) as L'.
      apply layout_read in L'. simpl in *. rewrite <- L'.
      by rewrite length_insert, length_fmap.
    + apply preserves_insert; [done|]. locs.
  - destruct (rows (json_page buf) !! i) as [r|] eqn:Hr.
    1:{ apply lookup_lt_Some in Hr. lia. }
    eexists _, _. split; [done|]. simpl. split; [done|].
    split; [|split; [done|split; [by repeat split|done]]].
    apply layout_read in L. by rewrite Hnc, Hnr in L.
Qed.

(** *** Objects of one kind that stay as they are *)

Lemma preserves_keeps P h h' : preserves h h' → keeps P h h'.
Proof. intros Hp l o Hl _. by apply Hp. Qed.

Lemma keeps_trans P h1 h2 h3 : keeps P h1 h2 → keeps P h2 h3 → keeps P h1 h3.
Proof. intros H12 H23 l o Hl HP. apply H23; [|done]. by apply H12. Qed.

Lemma keeps_insert P h k ok o :
  h !! k = Some ok → P ok = false → keeps P h (<[k := o]> h).
Proof.
  intros Hk HP l o' Hl HP'. rewrite list_lookup_insert_ne; [done|].
  intros ->. congruence.
Qed.

Lemma read_row_inv h l r :
  read_row h l = Some r →
  ∃ lc, h !! l = Some (ORow (row_id r) (row_order r) lc)
        ∧ h !! lc = Some (OCells (row_cells r)).
Proof.
  unfold read_row, read_cells. intros E.
  destruct (h !! l) as [[]|] eqn:El; try done.
  destruct (h !! cells) as [[]|] eqn:Ec; try done.
  simpl in E. simplify_eq. eauto.
Qed.

Lemma read_row_intro h l r lc :
  h !! l = Some (ORow (row_id r) (row_order r) lc) →
  h !! lc = Some (OCells (row_cells r)) →
  read_row h l = Some r.
Proof. unfold read_row, read_cells. intros -> ->. by destruct r. Qed.

Lemma read_row_keeps h h' l r :
  keeps is_row_part h h' → read_row h l = Some r → read_row h' l = Some r.
Proof.
  intros Hk (lc & Hl & Hc)%read_row_inv.
  eapply read_row_intro; by apply Hk.
Qed.

Lemma read_columns_keeps h h' l cs :
  keeps is_col_part h h' → read_columns h l = Some cs → read_columns h' l = Some cs.
Proof.
  unfold read_columns. intros Hk.
  destruct (h !! l) as [[]|] eqn:E; try done.
  rewrite (Hk _ _ E) by done.
  apply mapM_impl. intros x y. unfold read_column.
  destruct (h !! x) as [[]|] eqn:Ex; try done.
  by rewrite (Hk _ _ Ex).
Qed.

Lemma layout_rows_Forall2 H b p :
  layout H b p →
  Forall2 (λ l r, read_row H l = Some r)
    (row_at b (length (columns p)) <$> seq 0 (length (rows p))) (rows p).
Proof.
  intros L. apply Forall2_same_length_lookup. split.
  - by rewrite length_fmap, length_seq.
  - intros j l r Hl Hr. rewrite lookup_fmap_seq in Hl.
    case_decide; [|done]. simplify_eq.
    eapply read_row_intro; by apply L.
Qed.

Lemma layout_orders H b p :
  layout H b p →
  mapM (λ l, match H !! l with Some (ORow _ o _) => Some o | _ => None end)
    (row_at b (length (columns p)) <$> seq 0 (length (rows p)))
  = Some (row_order <$> rows p).
Proof.
  intros L. apply mapM_Some. apply Forall2_fmap_r.
  eapply Forall2_impl; [by apply layout_rows_Forall2|].
  intros l r (lc & -> & _)%read_row_inv. done.
Qed.

Lemma read_rows_intro h lr ls rs :
  h !! lr = Some (ORows ls) →
  Forall2 (λ l r, read_row h l = Some r) ls rs →
  read_rows h lr = Some rs.
Proof. unfold read_rows. intros -> HF. by apply mapM_Some. Qed.

Lemma read_page_intro h l lc lr cs rs :
  h !! l = Some (OPage lc lr) →
  read_columns h lc = Some cs → read_rows h lr = Some rs →
  read_page h l = Some (mkPage cs rs).
Proof. unfold read_page. by intros -> -> ->. Qed.

(** *** Row addition *)

(** [handleAddRow] computes [spec_addRow] on a fresh copy of the buffer. *)
Lemma handleAddRow_spec s e buf :
  isEditing s = true → editData s = Some e → read_page (heap s) e = Some buf →
  ∃ s' e',
    handleAddRow s = Some s'
    ∧ editData s' = Some e'
    ∧ read_page (heap s') e' = Some (spec_addRow (json_page buf))
    ∧ preserves (heap s) (heap s')
    ∧ same_view s s'
    ∧ warnings s' = warnings s.
Proof.
  intros Hed He Hread.
  destruct (deepCopy_spec _ _ _ Hread) as (H1 & Hcopy & L & Hlen & Hpres).
  unfold handleAddRow. rewrite Hed, He. simpl. rewrite Hcopy. simpl.
  set (b := length (heap s)) in *.
  set (p := json_page buf) in *.
  assert (Hnc : length (columns buf) = length (columns p)) by done.
  assert (Hnr : length (rows buf) = length (rows p))
    by (simpl; by rewrite length_fmap).
  rewrite Hnc, Hnr in *.
  pose proof (lay_page _ _ _ L) as Lpage. pose proof (lay_rows _ _ _ L) as Lrows.
  pose proof (lay_cols _ _ _ L) as Lcols.
  pose proof (layout_orders _ _ _ L) as Lorders.
  pose proof (layout_read_columns _ _ _ L) as Lrc.
  pose proof (layout_rows_Forall2 _ _ _ L) as Lrr.
  set (nc := length (columns p)) in *. set (nr := length (rows p)) in *.
  rewrite Lpage. simpl. rewrite Lrows. simpl.
  rewrite Lorders. simpl. rewrite Lcols. simpl.
  rewrite !length_fmap, !length_seq, !length_app. simpl.
  set (newOrder := if bool_decide (0 < nr) then _ else _).
  assert (HnewOrder : newOrder = (max_order (row_order <$> rows p) + 1)%Z).
  { unfold newOrder. case_bool_decide as Hz; [done|].
    assert (Hnil : rows p = []) by (apply nil_length_inv; unfold nr in Hz; lia).
    by rewrite Hnil. }
  set (a := OCells (replicate nc (CellStr EmptyString))).
  set (H3 := (H1 ++ [a]) ++ [ORow IdNull newOrder (length H1)]).
  assert (Hp13 : preserves H1 H3).
  { eapply preserves_trans; apply preserves_app. }
  assert (Hrows3 : H3 !! rows_at b nc nr
                   = Some (ORows (row_at b nc <$> seq 0 nr))).
  { by apply Hp13. }
  set (H4 := <[rows_at b nc nr := _]> H3).
  assert (Hk : ∀ P, P (ORows (row_at b nc <$> seq 0 nr)) = false → keeps P H1 H4).
  { intros P HP. eapply keeps_trans; [by apply preserves_keeps|].
    by eapply keeps_insert. }
  eexists _, _. split; [done|]. simpl. split; [done|].
  split; [|split; [|split; [by repeat split|done]]].
  - unfold spec_addRow. eapply read_page_intro.
    + unfold H4. rewrite list_lookup_insert_ne by locs. by apply Hp13.
    + eapply read_columns_keeps; [by apply Hk|]. done.
    + eapply read_rows_intro.
      * unfold H4. apply list_lookup_insert_eq. by eapply lookup_lt_Some.
      * apply Forall2_app.
        -- eapply Forall2_impl; [done|].
           intros l r Hl. eapply read_row_keeps; [by apply Hk|done].
        -- constructor; [|constructor].
           assert (Hlt : rows_at b nc nr < length H1) by (rewrite Hlen; locs).
           eapply (read_row_intro _ _ _ (length H1)); unfold H4.
           ++ rewrite list_lookup_insert_ne by lia. unfold H3.
              rewrite (lookup_app_plus _ _ 0) by (rewrite length_app; simpl; lia).
              simpl. by rewrite HnewOrder.
           ++ rewrite list_lookup_insert_ne by lia. unfold H3.
              rewrite lookup_app_l by (rewrite length_app; simpl; lia).
              rewrite (lookup_app_plus _ _ 0) by lia. done.
  - apply preserves_insert.
    + eapply preserves_trans; [done|]. done.
    + locs.
Qed.

(** *** Row deletion *)

Lemma filter_rows_spec rowId h ls rs :
  Forall2 (λ l r, read_row h l = Some r) ls rs →
  ∃ kept,
    filter_rows rowId h ls = Some kept
    ∧ Forall2 (λ l r, read_row h l = Some r) kept
        (filter (λ r, row_id r ≠ rowId) rs)
    ∧ sublist kept ls.
Proof.
  induction 1 as [|l r ls rs Hl HF (kept & IH1 & IH2 & IH3)]; simpl.
  - exists []. split; [done|]. split; constructor.
  - destruct (read_row_inv _ _ _ Hl) as (lc & -> & _). rewrite IH1. simpl.
    rewrite filter_cons. case_bool_decide as Hid.
    + rewrite decide_True by done. exists (l :: kept).
      split; [done|]. split; by constructor.
    + rewrite decide_False by (by intros []). exists kept.
      split; [done|]. split; [done|]. by constructor.
Qed.

Lemma rows_hold_objects h ls rs l :
  Forall2 (λ l r, read_row h l = Some r) ls rs → l ∈ ls →
  ∃ i o lc, h !! l = Some (ORow i o lc).
Proof.
  intros HF Hl. apply list_elem_of_lookup in Hl as [k Hk].
  destruct (Forall2_lookup_l _ _ _ _ _ HF Hk) as (r & _ & Hr).
  apply read_row_inv in Hr as (lc & Hr & _). eauto.
Qed.

(** The [forEach] loop gives the rows the orders [i+1, i+2, ...] and
    touches no other object. *)
Lemma renumber_spec ls : ∀ rs i h,
  Forall2 (λ l r, read_row h l = Some r) ls rs → NoDup ls →
  ∃ h',
    renumber i ls h = Some h'
    ∧ Forall2 (λ l r, read_row h' l = Some r) ls
        (imap (λ k r, mkRow (row_id r) (Z.of_nat (i + k) + 1) (row_cells r)) rs)
    ∧ (∀ k, k ∉ ls → h' !! k = h !! k).
Proof.
  induction ls as [|l ls IH]; intros rs i h HF Hnd.
  - apply Forall2_nil_inv_l in HF as ->. exists h. by repeat split.
  - apply Forall2_cons_inv_l in HF as (r & rs' & Hl & HF & ->).
    apply NoDup_cons in Hnd as [Hnotin Hnd].
    destruct (read_row_inv _ _ _ Hl) as (lc & Hrow & Hcells).
    set (h1 := <[l := ORow (row_id r) (Z.of_nat i + 1) lc]> h).
    assert (HF1 : Forall2 (λ l r, read_row h1 l = Some r) ls rs').
    { apply Forall2_same_length_lookup. split; [by eapply Forall2_length|].
      intros k l' r' Hk Hr'.
      pose proof (Forall2_lookup_lr _ _ _ _ _ _ HF Hk Hr') as Hread.
      destruct (read_row_inv _ _ _ Hread) as (lc' & Hrow' & Hcells').
      assert (l' ≠ l).
      { intros ->. apply Hnotin. by eapply list_elem_of_lookup_2. }
      assert (lc' ≠ l) by (intros ->; congruence).
      eapply read_row_intro; unfold h1; by rewrite list_lookup_insert_ne. }
    destruct (IH rs' (S i) h1 HF1 Hnd) as (h' & Hren & HF' & Hframe).
    exists h'. split; [|split].
    + simpl. by rewrite Hrow.
    + rewrite imap_cons. constructor.
      * assert (lc ∉ ls).
        { intros Hin.
          destruct (rows_hold_objects _ _ _ _ HF Hin) as (? & ? & ? & ?). congruence. }
        assert (lc ≠ l) by (intros ->; congruence).
        eapply (read_row_intro _ _ _ lc); rewrite Hframe by done; unfold h1.
        -- rewrite list_lookup_insert_eq by (by eapply lookup_lt_Some).
           simpl. by rewrite Nat.add_0_r.
        -- by rewrite list_lookup_insert_ne.
      * erewrite imap_ext; [exact HF'|].
        intros k r' _. simpl. do 2 f_equal. lia.
    + intros k Hk. apply not_elem_of_cons in Hk as [Hne Hk].
      rewrite Hframe by done. unfold h1. by rewrite list_lookup_insert_ne.
Qed.

Lemma NoDup_row_locs b nc nr : NoDup (row_at b nc <$> seq 0 nr).
Proof.
  apply NoDup_fmap_2_strong; [|apply NoDup_seq].
  intros x y _ _ Heq. locs.
Qed.

(** [handleDeleteRow] computes [spec_deleteRow] on a fresh copy of the
    buffer. *)
Lemma handleDeleteRow_spec s e buf rowId :
  isEditing s = true → editData s = Some e → read_page (heap s) e = Some buf →
  ∃ s' e',
    handleDeleteRow rowId s = Some s'
    ∧ editData s' = Some e'
    ∧ read_page (heap s') e' = Some (spec_deleteRow rowId (json_page buf))
    ∧ preserves (heap s) (heap s')
    ∧ same_view s s'
    ∧ warnings s' = warnings s.
Proof.
  intros Hed He Hread.
  destruct (deepCopy_spec _ _ _ Hread) as (H1 & Hcopy & L & Hlen & Hpres).
  unfold handleDeleteRow. rewrite Hed, He. simpl. rewrite Hcopy. simpl.
  set (b := length (heap s)) in *.
  set (p := json_page buf) in *.
  assert (Hnc : length (columns buf) = length (columns p)) by done.
  assert (Hnr : length (rows buf) = length (rows p))
    by (simpl; by rewrite length_fmap).
  rewrite Hnc, Hnr in *.
  pose proof (lay_page _ _ _ L) as Lpage. pose proof (lay_rows _ _ _ L) as Lrows.
  pose proof (layout_read_columns _ _ _ L) as Lrc.
  pose proof (layout_rows_Forall2 _ _ _ L) as Lrr.
  set (nc := length (columns p)) in *. set (nr := length (rows p)) in *.
  rewrite Lpage. simpl. rewrite Lrows. simpl.
  destruct (filter_rows_spec rowId _ _ _ Lrr) as (kept & -> & Hkept & Hsub).
  simpl.
  set (H2 := H1 ++ [ORows kept]).
  set (H3 := <[page_at b nc nr := OPage (cols_at b nc) (length H1)]> H2).
  assert (Hp12 : preserves H1 H2) by apply preserves_app.
  assert (Hk13 : ∀ P, P (OPage (cols_at b nc) (rows_at b nc nr)) = false → keeps P H1 H3).
  { intros P HP. eapply keeps_trans; [by apply preserves_keeps|].
    eapply keeps_insert; [|done]. by apply Hp12. }
  assert (Hkept3 : Forall2 (λ l r, read_row H3 l = Some r) kept
                     (filter (λ r, row_id r ≠ rowId) (rows p))).
  { eapply Forall2_impl; [done|]. intros l r Hl.
    eapply read_row_keeps; [by apply Hk13|done]. }
  assert (Hnd : NoDup kept).
  { eapply sublist_NoDup; eauto using NoDup_row_locs. }
  destruct (renumber_spec kept _ 0 H3 Hkept3 Hnd) as (H4 & -> & Hkept4 & Hframe).
  simpl.
  assert (Hnotkept : ∀ l o, H3 !! l = Some o →
            (∀ i z c, o ≠ ORow i z c) → l ∉ kept).
  { intros l o Hl Ho Hin.
    destruct (rows_hold_objects _ _ _ _ Hkept3 Hin) as (i & z & c & Hrow).
    rewrite Hl in Hrow. simplify_eq. by eapply Ho. }
  assert (Hroot3 : H3 !! page_at b nc nr = Some (OPage (cols_at b nc) (length H1))).
  { unfold H3. apply list_lookup_insert_eq. unfold H2. rewrite length_app. lia. }
  assert (Harr3 : H3 !! length H1 = Some (ORows kept)).
  { unfold H3. rewrite list_lookup_insert_ne by lia.
    unfold H2. by rewrite (lookup_app_plus _ _ 0) by lia. }
  eexists _, _. split; [done|]. simpl. split; [done|].
  split; [|split; [|split; [by repeat split|done]]].
  - unfold spec_deleteRow. eapply read_page_intro.
    + rewrite Hframe; [done|]. by eapply Hnotkept.
    + eapply read_columns_keeps; [|done].
      eapply keeps_trans; [by apply Hk13|].
      intros l o Hl Hcol. rewrite Hframe; [done|].
      eapply Hnotkept; [done|]. intros ??? ->. done.
    + eapply read_rows_intro.
      * rewrite Hframe; [done|]. by eapply Hnotkept.
      * done.
  - intros l o Hl.
    assert (l < b) by (by eapply lookup_lt_Some).
    rewrite Hframe.
    + unfold H3. rewrite list_lookup_insert_ne by locs. by apply Hp12, Hpres.
    + intros Hin. eapply elem_of_sublist in Hin; [|exact Hsub].
      apply list_elem_of_fmap in Hin as (j & -> & _). locs.
Qed.

(** *** Sequences of mutations and of events *)

Lemma mutate_editing s m e buf :
  isEditing s = true → editData s = Some e → read_page (heap s) e = Some buf →
  ∃ s' e',
    mutate m s = Some s'
    ∧ editData s' = Some e'
    ∧ read_page (heap s') e' = Some (spec_mutate m (json_page buf))
    ∧ preserves (heap s) (heap s')
    ∧ same_view s s'.
Proof.
  intros Hed He Hread. destruct m as [i j v| |rowId]; simpl.
  - destruct (handleCellChange_spec s e buf i j v Hed He Hread)
      as (s' & e' & ? & ? & ? & ? & ? & ?). eauto 10.
  - destruct (handleAddRow_spec s e buf Hed He Hread)
      as (s' & e' & ? & ? & ? & ? & ? & ?). eauto 10.
  - destruct (handleDeleteRow_spec s e buf rowId Hed He Hread)
      as (s' & e' & ? & ? & ? & ? & ? & ?). eauto 10.
Qed.

Lemma mutates_editing ms : ∀ s e buf,
  isEditing s = true → editData s = Some e → read_page (heap s) e = Some buf →
  ∃ s' e',
    mutates ms s = Some s'
    ∧ editData s' = Some e'
    ∧ read_page (heap s') e' = Some (spec_mutates ms buf)
    ∧ preserves (heap s) (heap s')
    ∧ same_view s s'.
Proof.
  induction ms as [|m ms IH]; intros s e buf Hed He Hread.
  - exists s, e. repeat split; try done. apply preserves_refl.
  - destruct (mutate_editing s m e buf Hed He Hread)
      as (s1 & e1 & Hm & He1 & Hread1 & Hp1 & Hv1).
    assert (Hed1 : isEditing s1 = true) by (destruct Hv1 as (?&?&?&?&?&->&?); done).
    destruct (IH s1 e1 _ Hed1 He1 Hread1) as (s' & e' & Hms & He' & Hread' & Hp' & Hv').
    exists s', e'. split; [|split; [done|split; [done|split]]].
    + simpl. by rewrite Hm.
    + by eapply preserves_trans.
    + by eapply same_view_trans.
Qed.

Lemma wf_same s s' :
  heap s' = heap s → pageData s' = pageData s → editData s' = editData s →
  wf s → wf s'.
Proof. unfold wf. intros -> -> ->. done. Qed.

Lemma wf_grow s s' :
  preserves (heap s) (heap s') → pageData s' = pageData s →
  (∀ e, editData s' = Some e → is_Some (read_page (heap s') e)) →
  wf s → wf s'.
Proof.
  intros Hp Hpd He [Hc _]. split; [|done].
  intros c Hc'. rewrite Hpd in Hc'. destruct (Hc _ Hc') as [p Hr].
  exists p. by eapply read_page_preserves.
Qed.

Lemma mutate_wf s m :
  wf s →
  ∃ s', mutate m s = Some s' ∧ wf s' ∧ same_view s s'
        ∧ preserves (heap s) (heap s').
Proof.
  intros Hwf.
  destruct (isEditing s) eqn:Hed; [destruct (editData s) as [e|] eqn:He|].
  - destruct (proj2 Hwf _ He) as [buf Hread].
    destruct (mutate_editing s m e buf Hed He Hread)
      as (s' & e' & Hm & He' & Hread' & Hp & Hv).
    exists s'. split; [done|]. split; [|done].
    eapply wf_grow; [done|by destruct Hv as (?&?&?)| |done].
    intros e'' He''. rewrite He' in He''. simplify_eq. eauto.
  - destruct m; simpl.
    + unfold handleCellChange. rewrite Hed, He. simpl.
      eexists. split; [done|]. split; [|split; [by repeat split|apply preserves_refl]].
      split; [apply Hwf|]. simpl. done.
    + unfold handleAddRow. rewrite Hed, He.
      eexists. split; [done|]. split; [done|]. split; [apply same_view_refl|apply preserves_refl].
    + unfold handleDeleteRow. rewrite Hed, He.
      eexists. split; [done|]. split; [done|]. split; [apply same_view_refl|apply preserves_refl].
  - destruct m; simpl.
    + unfold handleCellChange. rewrite Hed. simpl.
      eexists. split; [done|]. split; [done|]. split; [apply same_view_refl|apply preserves_refl].
    + unfold handleAddRow. rewrite Hed.
      eexists. split; [done|]. split; [done|]. split; [apply same_view_refl|apply preserves_refl].
    + unfold handleDeleteRow. rewrite Hed.
      eexists. split; [done|]. split; [done|]. split; [apply same_view_refl|apply preserves_refl].
Qed.

Lemma handleSaveChanges_start_wf s :
  wf s →
  ∃ s', handleSaveChanges_start s = Some s' ∧ heap s' = heap s
        ∧ pageData s' = pageData s ∧ editData s' = editData s.
Proof.
  intros Hwf. unfold handleSaveChanges_start.
  destruct (isEditing s); [|by eexists].
  destruct (editData s) as [e|] eqn:He; [|by eexists].
  destruct (proj2 Hwf _ He) as [buf Hread]. simpl. rewrite Hread. simpl.
  by eexists.
Qed.

Lemma deepCopy_wf h l p :
  read_page h l = Some p →
  ∃ c h', deepCopy h l = Some (c, h') ∧ read_page h' c = Some (json_page p)
          ∧ preserves h h'.
Proof.
  intros Hread. destruct (deepCopy_spec _ _ _ Hread) as (H & Hc & L & _ & Hp).
  eexists _, _. split; [done|]. split; [|done].
  apply layout_read in L. simpl in L. by rewrite length_fmap in L.
Qed.

Lemma handleCancelEdit_spec s :
  wf s →
  ∃ s', handleCancelEdit s = Some s'
    ∧ wf s'
    ∧ preserves (heap s) (heap s')
    ∧ pageData s' = pageData s
    ∧ isEditing s' = false
    ∧ editError s' = None
    ∧ requests s' = requests s
    ∧ notifications s' = notifications s
    ∧ match pageData s with
      | Some c => ∃ e' p, editData s' = Some e' ∧ read_page (heap s) c = Some p
                          ∧ read_page (heap s') e' = Some (json_page p)
      | None => editData s' = None
      end.
Proof.
  intros Hwf. unfold handleCancelEdit. simpl.
  destruct (pageData s) as [c|] eqn:Hc.
  - destruct (proj1 Hwf _ Hc) as [p Hread].
    destruct (deepCopy_wf _ _ _ Hread) as (e' & h' & -> & Hread' & Hp). simpl.
    eexists. split; [done|]. simpl.
    split; [|repeat split; eauto].
    split; simpl.
    + intros c' Hc'. rewrite Hc in Hc'. simplify_eq. exists p. by eapply read_page_preserves.
    + intros ? [= <-]. eauto.
  - eexists. split; [done|]. simpl. repeat split; try done.
    + simpl. intros c' Hc'. rewrite Hc in Hc'. done.
    + apply preserves_refl.
Qed.

Lemma handleToggleEdit_enter s :
  wf s → isEditing s = false → canEdit s = true →
  ∃ s', handleToggleEdit s = Some s'
    ∧ wf s'
    ∧ preserves (heap s) (heap s')
    ∧ pageData s' = pageData s
    ∧ isEditing s' = true
    ∧ requests s' = requests s
    ∧ notifications s' = notifications s
    ∧ ∀ c p, pageData s = Some c → read_page (heap s) c = Some p →
        ∃ e', editData s' = Some e' ∧ read_page (heap s') e' = Some (json_page p).
Proof.
  intros Hwf Hed Hcan. unfold handleToggleEdit, deepCopy_nullable. simpl. rewrite Hed, Hcan. simpl.
  destruct (pageData s) as [c|] eqn:Hc; [|destruct (editData s) as [e|] eqn:He].
  - destruct (proj1 Hwf _ Hc) as [p Hread].
    destruct (deepCopy_wf _ _ _ Hread) as (e' & h' & -> & Hread' & Hp). simpl.
    eexists. split; [done|]. simpl. split; [|repeat split; eauto].
    + split; simpl.
      * intros c' Hc'. rewrite Hc in Hc'. simplify_eq. exists p. by eapply read_page_preserves.
      * intros ? [= <-]. eauto.
    + intros c' p' [= <-] Hread''. rewrite Hread in Hread''. simplify_eq. eauto.
  - destruct (proj2 Hwf _ He) as [p Hread].
    destruct (deepCopy_wf _ _ _ Hread) as (e' & h' & -> & Hread' & Hp). simpl.
    eexists. split; [done|]. simpl. split; [|repeat split; eauto; done].
    split; simpl.
    + intros c' Hc'. rewrite Hc in Hc'. done.
    + intros ? [= <-]. eauto.
  - simpl. eexists. split; [done|]. simpl. split; [|repeat split; eauto using preserves_refl; done].
    split; simpl; [intros c' Hc'; rewrite Hc in Hc'; done|done].
Qed.

(** No event changes the canonical page or any object that exists. *)
Lemma step_wf ev s :
  wf s →
  ∃ s', step ev s = Some s' ∧ wf s' ∧ pageData s' = pageData s
        ∧ preserves (heap s) (heap s').
Proof.
  intros Hwf. destruct ev as [m| | | | |err| | |err]; simpl.
  - destruct (mutate_wf s m Hwf) as (s' & ? & ? & Hv & ?).
    exists s'. split; [done|]. split; [done|].
    split; [by destruct Hv as (?&?&?)|done].
  - unfold handleToggleEdit.
    destruct (isEditing (setEditError None s)) eqn:Hed; [|destruct (canEdit (setEditError None s)) eqn:Hcan].
    + destruct (handleSaveChanges_start_wf (setEditError None s)) as (s' & -> & Hh & Hpd & Hedt);
        [by eapply wf_same|].
      exists s'. split; [done|]. simpl in *. split; [by eapply wf_same|].
      split; [done|]. rewrite Hh. apply preserves_refl.
    + destruct (handleToggleEdit_enter s Hwf Hed Hcan) as (s' & Ht & ? & ? & ? & ?).
      unfold handleToggleEdit in Ht. rewrite Hed, Hcan in Ht. simpl in Ht. simpl.
      rewrite Ht. eauto 10.
    + simpl. eexists. split; [done|]. split; [by eapply wf_same|].
      split; [done|apply preserves_refl].
  - destruct (handleCancelEdit_spec s Hwf) as (s' & ? & ? & ? & ? & ?). eauto.
  - destruct (handleSaveChanges_start_wf s Hwf) as (s' & -> & Hh & Hpd & Hedt).
    exists s'. split; [done|]. split; [by eapply wf_same|].
    split; [done|]. rewrite Hh. apply preserves_refl.
  - eexists. split; [done|]. unfold handleSaveChanges_saved, fetchData_start.
    destruct (isMounted s) eqn:Hm; simpl; [rewrite Hm; simpl|].
    + split; [by eapply wf_same|]. split; [done|apply preserves_refl].
    + split; [done|]. split; [done|apply preserves_refl].
  - eexists. split; [done|]. unfold handleSaveChanges_rejected, handleSaveChanges_finally.
    destruct (isMounted s) eqn:Hm; simpl; [rewrite Hm; simpl|].
    + split; [by eapply wf_same|]. split; [done|apply preserves_refl].
    + split; [done|]. split; [done|apply preserves_refl].
  - eexists. split; [done|]. unfold handleSaveChanges_finally.
    destruct (isMounted s) eqn:Hm; simpl.
    + split; [by eapply wf_same|]. split; [done|apply preserves_refl].
    + split; [done|]. split; [done|apply preserves_refl].
  - eexists. split; [done|]. unfold fetchData_start.
    destruct (isMounted s) eqn:Hm; simpl.
    + split; [by eapply wf_same|]. split; [done|apply preserves_refl].
    + split; [done|]. split; [done|apply preserves_refl].
  - eexists. split; [done|].
    assert (Hsame : heap (fetchData_rejected err s) = heap s
                    ∧ pageData (fetchData_rejected err s) = pageData s
                    ∧ editData (fetchData_rejected err s) = editData s).
    { unfold fetchData_rejected.
      destruct (bool_decide (err_name err = "CanceledError")).
      - by destruct (isMounted s).
      - destruct (isMounted s); [|done]. simpl.
        destruct (bool_decide (response_status err = Some 404%Z));
          destruct (bool_decide (response_status err = Some 403%Z)); done. }
    destruct Hsame as (Hh & Hpd & Hedt).
    split; [by eapply wf_same|]. split; [done|]. rewrite Hh. apply preserves_refl.
Qed.

Lemma steps_wf es : ∀ s,
  wf s →
  ∃ s', steps es s = Some s' ∧ wf s' ∧ pageData s' = pageData s
        ∧ preserves (heap s) (heap s').
Proof.
  induction es as [|ev es IH]; intros s Hwf.
  - exists s. repeat split; try done; try apply Hwf. apply preserves_refl.
  - destruct (step_wf ev s Hwf) as (s1 & Hs1 & Hwf1 & Hpd1 & Hp1).
    destruct (IH s1 Hwf1) as (s' & Hs' & Hwf' & Hpd' & Hp').
    exists s'. simpl. rewrite Hs1. simpl. split; [done|]. split; [done|].
    split; [congruence|by eapply preserves_trans].
Qed.

Lemma mutates_wf ms : ∀ s,
  wf s →
  ∃ s', mutates ms s = Some s' ∧ wf s' ∧ same_view s s'
        ∧ preserves (heap s) (heap s').
Proof.
  induction ms as [|m ms IH]; intros s Hwf.
  - exists s. split; [done|]. split; [done|].
    split; [apply same_view_refl|apply preserves_refl].
  - destruct (mutate_wf s m Hwf) as (s1 & Hm & Hwf1 & Hv1 & Hp1).
    destruct (IH s1 Hwf1) as (s' & Hms & Hwf' & Hv' & Hp').
    exists s'. simpl. rewrite Hm. simpl. split; [done|]. split; [done|].
    split; [by eapply same_view_trans|by eapply preserves_trans].
Qed.

(** C1. While in EDITING mode, no sequence of [cellEdit], [addRow] and
    [deleteRow] mutates the canonical page: [pageData] still refers to the
    same object, that object still reads as the same page, and every object
    that was in the heap before is still there unmodified, so the mutations
    touched nothing but the fresh deep copies held in [editData]. The second
    part covers every other transition of the component except the
    resolution of a fetch: whatever the sequence (toggle, cancel, save
    started, save resolved up to the re-fetch, save rejected, fetch started
    or rejected), the canonical page does not change. *)
Theorem canonical_page_never_mutated (s : State) (c : loc) (canonical : Page) :
  wf s → pageData s = Some c → read_page (heap s) c = Some canonical →
  (∀ ms, isEditing s = true →
     ∃ s', mutates ms s = Some s'
       ∧ isEditing s' = true
       ∧ pageData s' = Some c
       ∧ read_page (heap s') c = Some canonical
       ∧ preserves (heap s) (heap s'))
  ∧ (∀ es,
     ∃ s', steps es s = Some s'
       ∧ pageData s' = Some c
       ∧ read_page (heap s') c = Some canonical
       ∧ preserves (heap s) (heap s')).
Proof.
  intros Hwf Hc Hread. split.
  - intros ms Hed.
    destruct (mutates_wf ms s Hwf) as (s' & Hms & _ & Hv & Hp).
    destruct Hv as (_ & Hpd & _ & _ & _ & Hed' & _).
    exists s'. split; [done|]. split; [congruence|]. split; [congruence|].
    split; [by eapply read_page_preserves|done].
  - intros es.
    destruct (steps_wf es s Hwf) as (s' & Hs & _ & Hpd & Hp).
    exists s'. split; [done|]. split; [congruence|].
    split; [by eapply read_page_preserves|done].
Qed.

Lemma wf_example_editing : wf example_editing.
Proof.
  split; intros l Hl; vm_compute in Hl; simplify_eq; eexists; vm_compute; reflexivity.
Qed.

Lemma canonical_page_never_mutated_witness :
  wf example_editing
  ∧ pageData example_editing = Some 6
  ∧ read_page (heap example_editing) 6 = Some example_page
  ∧ isEditing example_editing = true
  ∧ ∃ s', mutates [CellEdit 0 1 "z"; AddRow; DeleteRow (IdNum 1)] example_editing = Some s'
          ∧ read_page (heap s') 6 = Some example_page.
Proof.
  split; [exact wf_example_editing|].
  split; [reflexivity|]. split; [reflexivity|]. split; [reflexivity|].
  destruct (canonical_page_never_mutated example_editing 6 example_page
              wf_example_editing eq_refl eq_refl) as [Hm _].
  destruct (Hm [CellEdit 0 1 "z"; AddRow; DeleteRow (IdNum 1)] eq_refl)
    as (s' & Hs & _ & _ & Hr & _).
  exists s'. split; [exact Hs|exact Hr].
Defined.

(** Pure facts about the expected values *)

Lemma filter_json_rows (rowId : Id) (rs : list Row) :
  filter (λ r, row_id r ≠ rowId) (json_row <$> rs)
  = json_row <$> filter (λ r, row_id r ≠ rowId) rs.
Proof.
  induction rs as [|r rs IH]; [done|].
  rewrite fmap_cons, !filter_cons, IH. simpl. by destruct (decide _).
Qed.

Lemma renumbered_orders_from (i : nat) (rs : list Row) :
  row_order <$> imap (λ k r, mkRow (row_id r) (Z.of_nat (i + k) + 1) (row_cells r)) rs
  = Z.of_nat <$> seq (S i) (length rs).
Proof.
  revert i. induction rs as [|r rs IH]; intros i; [done|].
  rewrite imap_cons, fmap_cons. cbn [length seq]. rewrite fmap_cons. f_equal.
  - simpl. lia.
  - rewrite <- (IH (S i)). f_equal. apply imap_ext. intros k r' _. simpl.
    do 2 f_equal. lia.
Qed.

Lemma renumbered_orders (rs : list Row) :
  row_order <$> renumbered rs = Z.of_nat <$> seq 1 (length rs).
Proof. apply (renumbered_orders_from 0). Qed.

Lemma renumbered_rest (rs : list Row) :
  (λ r, (row_id r, row_cells r)) <$> renumbered rs
  = (λ r, (row_id r, row_cells r)) <$> rs.
Proof.
  unfold renumbered.
  assert (H : ∀ i, (λ r, (row_id r, row_cells r))
                <$> imap (λ k r, mkRow (row_id r) (Z.of_nat (i + k) + 1) (row_cells r)) rs
              = (λ r, (row_id r, row_cells r)) <$> rs).
  { induction rs as [|r rs IH]; intros i; [done|].
    rewrite imap_cons, !fmap_cons. f_equal.
    rewrite <- (IH (S i)). f_equal. apply imap_ext. intros k r' _. simpl.
    do 2 f_equal. lia. }
  apply (H 0).
Qed.

Lemma length_renumbered (rs : list Row) : length (renumbered rs) = length rs.
Proof. apply length_imap. Qed.

(** C3. In EDITING mode [deleteRow(rowId)] leaves a buffer in which no row
    has the id [rowId], whose rows have the orders [1..N] by position, and
    whose rows are otherwise (id and cells, in order) the rows of the old
    buffer whose id differs from [rowId]; the columns are the same. *)
Theorem deleteRow_removes_and_renumbers (s : State) (e : loc) (buf : Page) (rowId : Id) :
  isEditing s = true → editData s = Some e → read_page (heap s) e = Some buf →
  ∃ s' e' buf',
    handleDeleteRow rowId s = Some s'
    ∧ editData s' = Some e'
    ∧ read_page (heap s') e' = Some buf'
    ∧ (∀ r, r ∈ rows buf' → row_id r ≠ rowId)
    ∧ row_order <$> rows buf' = Z.of_nat <$> seq 1 (length (rows buf'))
    ∧ (λ r, (row_id r, row_cells r)) <$> rows buf'
      = (λ r, (row_id r, json_cell <$> row_cells r))
          <$> filter (λ r, row_id r ≠ rowId) (rows buf)
    ∧ columns buf' = columns buf.
Proof.
  intros Hed He Hread.
  destruct (handleDeleteRow_spec s e buf rowId Hed He Hread)
    as (s' & e' & Hh & He' & Hread' & _).
  exists s', e', (spec_deleteRow rowId (json_page buf)).
  split; [done|]. split; [done|]. split; [done|].
  assert (Hrest : (λ r, (row_id r, row_cells r)) <$> rows (spec_deleteRow rowId (json_page buf))
      = (λ r, (row_id r, json_cell <$> row_cells r))
          <$> filter (λ r, row_id r ≠ rowId) (rows buf)).
  { simpl. rewrite renumbered_rest, filter_json_rows, <- list_fmap_compose. done. }
  split; [|split; [|split; [done|done]]].
  - intros r Hr Hid.
    pose proof (list_elem_of_fmap_2 (λ r0 : Row, (row_id r0, row_cells r0)) _ _ Hr)
      as Hin.
    rewrite Hrest in Hin. apply list_elem_of_fmap in Hin as (r0 & Heq & Hin).
    apply list_elem_of_filter in Hin as [Hne _]. simplify_eq; congruence.
  - simpl. by rewrite renumbered_orders, length_renumbered.
Qed.

Lemma deleteRow_removes_and_renumbers_witness :
  isEditing example_editing = true
  ∧ editData example_editing = Some 20
  ∧ read_page (heap example_editing) 20 = Some example_page
  ∧ ∃ s', handleDeleteRow (IdNum 1) example_editing = Some s'.
Proof.
  split; [reflexivity|]. split; [reflexivity|]. split; [reflexivity|].
  destruct (deleteRow_removes_and_renumbers example_editing 20 example_page
              (IdNum 1) eq_refl eq_refl eq_refl) as (s' & _ & _ & Hs & _).
  exists s'. exact Hs.
Defined.




(** [Math.max(0, ...orders)] is the greatest of [0] and the orders. *)
Lemma max_order_spec orders :
  (0 ≤ max_order orders)%Z
  ∧ (∀ o, o ∈ orders → (o ≤ max_order orders)%Z)
  ∧ (max_order orders = 0%Z ∨ max_order orders ∈ orders).
Proof.
  induction orders as [|o os (IH0 & IHle & IHin)]; simpl.
  - split; [done|]. split; [by intros ? ?%elem_of_nil|by left].
  - split; [lia|]. split.
    + intros o' [->|Hin]%elem_of_cons; [lia|]. specialize (IHle _ Hin). lia.
    + destruct (Z.max_spec o (max_order os)) as [[_ ->]|[_ ->]].
      * destruct IHin as [->|Hin]; [by left|right; by apply elem_of_cons; right].
      * right. by apply elem_of_cons; left.
Qed.

(** C7 as stated does not hold: the rows that were there are not all left
    unchanged. On the page whose row got a third cell by an edit past the
    end of its cells, [addRow] gives that row back with [null] where it had
    an empty slot. *)
Lemma addRow_rewrites_a_row_with_a_hole :
  displayData PageViewProps.short_row_edited
  = Some (mkPage (columns short_row_page)
            [mkRow (IdNum 1) 1 [CellStr "x"; CellHole; CellStr "v"]])
  ∧ (displayData <$> handleAddRow PageViewProps.short_row_edited)
    = Some (Some (mkPage (columns short_row_page)
                    [mkRow (IdNum 1) 1 [CellStr "x"; CellNull; CellStr "v"];
                     mkRow IdNull 2 [CellStr EmptyString; CellStr EmptyString; CellStr EmptyString]]))
  ∧ (∀ newRow,
       (displayData <$> handleAddRow PageViewProps.short_row_edited)
       ≠ Some (Some (mkPage (columns short_row_page)
                       ([mkRow (IdNum 1) 1 [CellStr "x"; CellHole; CellStr "v"]]
                          ++ [newRow])))).
Proof.
  split; [vm_compute; reflexivity|]. split; [vm_compute; reflexivity|].
  intros newRow. vm_compute. discriminate.
Qed.

(** A row as [JSON.parse(JSON.stringify(...))] gives it back. *)
Lemma json_row_lookup (r : Row) :
  row_id (json_row r) = row_id r
  ∧ row_order (json_row r) = row_order r
  ∧ length (row_cells (json_row r)) = length (row_cells r)
  ∧ ∀ j c, row_cells r !! j = Some c →
      row_cells (json_row r) !! j
      = Some (if decide (c = CellHole) then CellNull else c).
Proof.
  split; [done|]. split; [done|]. split; [simpl; by rewrite length_fmap|].
  intros j c Hc. simpl. rewrite list_lookup_fmap, Hc. by destruct c.
Qed.

(** C7, amended. In EDITING mode [addRow] appends exactly one row. The
    columns are unchanged. Every row that was there keeps its place, its
    id, its order and the number of its cells, and every cell except that
    an empty slot becomes [null]; the rows are the very same when the
    buffer holds no empty slot. The new row has id [null] and as many
    empty-string cells as there are columns; its order is [1] when there
    was no row, and [max(0, existing orders) + 1] when the existing orders
    are below 2^53, the range in which the code's sum of doubles is that
    sum (from 2^53 on the code's sum is rounded: after an order of 2^53 the
    new row has the order 2^53 again). *)
Theorem addRow_appends_blank_row (s : State) (e : loc) (buf : Page) :
  isEditing s = true → editData s = Some e → read_page (heap s) e = Some buf →
  ∃ s' e' buf' newRow,
    handleAddRow s = Some s'
    ∧ editData s' = Some e'
    ∧ read_page (heap s') e' = Some buf'
    ∧ columns buf' = columns buf
    ∧ length (rows buf') = S (length (rows buf))
    ∧ rows buf' !! length (rows buf) = Some newRow
    ∧ (∀ i r, rows buf !! i = Some r →
         ∃ r', rows buf' !! i = Some r'
           ∧ row_id r' = row_id r
           ∧ row_order r' = row_order r
           ∧ length (row_cells r') = length (row_cells r)
           ∧ ∀ j c, row_cells r !! j = Some c →
               row_cells r' !! j
               = Some (if decide (c = CellHole) then CellNull else c))
    ∧ (Forall (λ r, Forall (λ c, c ≠ CellHole) (row_cells r)) (rows buf) →
         rows buf' = rows buf ++ [newRow])
    ∧ row_id newRow = IdNull
    ∧ (Forall (λ r, (row_order r < 2 ^ 53)%Z) (rows buf) →
         row_order newRow = (max_order (row_order <$> rows buf) + 1)%Z)
    ∧ (rows buf = [] → row_order newRow = 1%Z)
    ∧ row_cells newRow = replicate (length (columns buf)) (CellStr EmptyString).
Proof.
  intros Hed He Hread.
  destruct (handleAddRow_spec s e buf Hed He Hread)
    as (s' & e' & Hh & He' & Hread' & _).
  exists s', e', (spec_addRow (json_page buf)), (spec_newRow (json_page buf)).
  split; [done|]. split; [done|]. split; [done|]. split; [done|].
  unfold spec_addRow. cbn [rows columns json_page].
  split; [rewrite length_app, length_fmap; simpl; lia|].
  split.
  { rewrite lookup_app_r by (by rewrite length_fmap).
    by rewrite length_fmap, Nat.sub_diag. }
  split.
  { intros i r Hr. exists (json_row r). split.
    - rewrite lookup_app_l by (rewrite length_fmap; by eapply lookup_lt_Some).
      by rewrite list_lookup_fmap, Hr.
    - apply json_row_lookup. }
  split.
  { intros Hholes. f_equal. rewrite <- (list_fmap_id (rows buf)) at 2.
    apply Forall_fmap_ext_1. eapply Forall_impl; [exact Hholes|].
    intros [i o cs] Hcs. unfold json_row. simpl in *. f_equal.
    rewrite <- (list_fmap_id cs) at 2. apply Forall_fmap_ext_1.
    eapply Forall_impl; [exact Hcs|]. intros c Hc. by destruct c. }
  split; [done|].
  assert (Ho : row_order <$> (json_row <$> rows buf) = row_order <$> rows buf).
  { rewrite <- list_fmap_compose. done. }
  split; [intros _; simpl; by rewrite Ho|].
  split; [|done].
  intros Hnil. simpl. by rewrite Hnil.
Qed.

Lemma addRow_appends_blank_row_witness :
  isEditing example_editing = true
  ∧ editData example_editing = Some 20
  ∧ read_page (heap example_editing) 20 = Some example_page
  ∧ ∃ s' newRow, handleAddRow example_editing = Some s'
       ∧ displayData s' = Some (mkPage (columns example_page)
                                  (rows example_page ++ [newRow]))
       ∧ newRow = mkRow IdNull 2 [CellStr EmptyString; CellStr EmptyString].
Proof.
  split; [reflexivity|]. split; [reflexivity|]. split; [reflexivity|].
  destruct (addRow_appends_blank_row example_editing 20 example_page
              eq_refl eq_refl eq_refl)
    as (s' & e' & buf' & newRow & Hs & He & Hr & Hc & _ & _ & _ & Hrows & Hid
        & Ho & _ & Hcs).
  exists s', newRow. split; [exact Hs|].
  assert (Hed : isEditing s' = true).
  { vm_compute in Hs. injection Hs as <-. reflexivity. }
  split.
  - unfold displayData. rewrite Hed, He, Hr. f_equal.
    destruct buf' as [cs rs]. simpl in *. rewrite Hc, Hrows; [reflexivity|].
    repeat constructor; discriminate.
  - destruct newRow as [i o cs]. simpl in *. rewrite Hid, Ho, Hcs; [reflexivity|].
    repeat constructor.
Defined.

(** C8. From VIEW with the canonical page loaded: after [enterEdit] and any
    sequence of [cellEdit], [addRow] and [deleteRow], [cancel] leaves the
    component in VIEW, showing the canonical page as it was fetched; the
    buffer has been replaced by a fresh copy of the canonical page; and no
    step of the whole sequence issued a gateway call. *)
Theorem cancel_restores_canonical (s : State) (c : loc) (canonical : Page)
    (ms : list Mutation) :
  wf s → pageData s = Some c → read_page (heap s) c = Some canonical →
  isEditing s = false → canEdit s = true →
  ∃ s1 s2 s3,
    handleToggleEdit s = Some s1
    ∧ mutates ms s1 = Some s2
    ∧ handleCancelEdit s2 = Some s3
    ∧ isEditing s1 = true ∧ isEditing s2 = true ∧ isEditing s3 = false
    ∧ displayData s3 = Some canonical
    ∧ pageData s3 = Some c
    ∧ (∃ e3, editData s3 = Some e3
             ∧ read_page (heap s3) e3 = Some (json_page canonical))
    ∧ requests s1 = requests s ∧ requests s2 = requests s
    ∧ requests s3 = requests s.
Proof.
  intros Hwf Hc Hread Hed Hcan.
  destruct (handleToggleEdit_enter s Hwf Hed Hcan)
    as (s1 & Ht & Hwf1 & Hp1 & Hpd1 & Hed1 & Hrq1 & _ & _).
  destruct (mutates_wf ms s1 Hwf1) as (s2 & Hms & Hwf2 & Hv2 & Hp2).
  destruct Hv2 as (_ & Hpd2 & _ & _ & _ & Hed2 & _ & _ & _ & _ & Hrq2).
  destruct (handleCancelEdit_spec s2 Hwf2)
    as (s3 & Hcn & Hwf3 & Hp3 & Hpd3 & Hed3 & _ & Hrq3 & _ & Hbuf).
  assert (Hc2 : pageData s2 = Some c) by congruence.
  assert (Hread2 : read_page (heap s2) c = Some canonical).
  { eapply read_page_preserves; [|exact Hread]. by eapply preserves_trans. }
  exists s1, s2, s3.
  split; [done|]. split; [done|]. split; [done|]. split; [done|].
  split; [congruence|]. split; [done|].
  split.
  { unfold displayData. rewrite Hed3, Hpd3, Hc2.
    by eapply read_page_preserves. }
  split; [congruence|].
  split.
  { rewrite Hc2 in Hbuf. destruct Hbuf as (e3 & p & He3 & Hrp & Hr3).
    rewrite Hread2 in Hrp. simplify_eq. eauto. }
  split; [done|]. split; congruence.
Qed.

Lemma wf_example_loaded : wf example_loaded.
Proof.
  split; intros l Hl; vm_compute in Hl; simplify_eq; eexists; vm_compute; reflexivity.
Qed.

Lemma cancel_restores_canonical_witness :
  wf example_loaded
  ∧ pageData example_loaded = Some 6
  ∧ read_page (heap example_loaded) 6 = Some example_page
  ∧ isEditing example_loaded = false
  ∧ canEdit example_loaded = true
  ∧ ∃ s1 s2 s3,
      handleToggleEdit example_loaded = Some s1
      ∧ mutates [AddRow; DeleteRow (IdNum 1); CellEdit 0 0 "n"] s1 = Some s2
      ∧ handleCancelEdit s2 = Some s3
      ∧ displayData s3 = Some example_page.
Proof.
  split; [exact wf_example_loaded|].
  split; [reflexivity|]. split; [reflexivity|]. split; [reflexivity|].
  split; [reflexivity|].
  destruct (cancel_restores_canonical example_loaded 6 example_page
              [AddRow; DeleteRow (IdNum 1); CellEdit 0 0 "n"]
              wf_example_loaded eq_refl eq_refl eq_refl eq_refl)
    as (s1 & s2 & s3 & H1 & H2 & H3 & _ & _ & _ & Hd & _).
  exists s1, s2, s3. repeat split; assumption.
Defined.











Lemma id_or_null_falsy i :
  id_or_null i = IdNull
  ↔ i = IdUndefined ∨ i = IdNull ∨ i = IdNum 0 ∨ i = IdStr EmptyString.
Proof.
  unfold id_or_null. split.
  - destruct i; simpl; eauto.
    + destruct (Z.eqb_spec n 0); simpl; [subst; eauto|done].
    + destruct (String.eqb_spec s EmptyString); simpl; [subst; eauto|done].
  - intros [-> | [-> | [-> | ->]]]; done.
Qed.

(** C10. The payload of a save carries, for every column and every row, the
    id [id || null] of the buffer's column or row at that position. That id
    is [null] exactly for the falsy ids (absent, [null], [0] and the empty
    string), so a row whose id is the number 0 is sent with id [null]; a
    truthy id is sent as it is. *)
Theorem save_payload_falsy_ids_null (s : State) (e : loc) (buf : Page) :
  isEditing s = true → editData s = Some e → read_page (heap s) e = Some buf →
  ∃ s1 payload,
    handleSaveChanges_start s = Some s1
    ∧ requests s1 = SavePageData (pageSlug s) payload :: requests s
    ∧ col_id <$> pl_columns payload = id_or_null <$> (col_id <$> columns buf)
    ∧ row_id <$> pl_rows payload = id_or_null <$> (row_id <$> rows buf)
    ∧ (∀ i, id_or_null i = IdNull
            ↔ i = IdUndefined ∨ i = IdNull ∨ i = IdNum 0 ∨ i = IdStr EmptyString)
    ∧ (∀ i, truthy_id i = true → id_or_null i = i).
Proof.
  intros Hed He Hread.
  unfold handleSaveChanges_start. rewrite Hed, He. simpl. rewrite Hread. simpl.
  eexists _, _. split; [done|]. simpl. split; [done|].
  split; [unfold build_payload; simpl; rewrite <- !list_fmap_compose;
          by apply list_fmap_ext|].
  split; [unfold build_payload; simpl; rewrite <- !list_fmap_compose;
          by apply list_fmap_ext|].
  split; [apply id_or_null_falsy|].
  intros i Hi. unfold id_or_null. by rewrite Hi.
Qed.

Lemma save_payload_falsy_ids_null_witness :
  isEditing example_editing = true
  ∧ editData example_editing = Some 20
  ∧ read_page (heap example_editing) 20 = Some example_page
  ∧ ∃ s1 payload,
      handleSaveChanges_start example_editing = Some s1
      ∧ requests s1 = [SavePageData "budget" payload; GetPageData "budget"]
      ∧ row_id <$> pl_rows payload = [IdNum 1].
Proof.
  split; [reflexivity|]. split; [reflexivity|]. split; [reflexivity|].
  destruct (save_payload_falsy_ids_null example_editing 20 example_page
              eq_refl eq_refl eq_refl)
    as (s1 & payload & Hs & Hr & _ & Hids & _).
  exists s1, payload. split; [exact Hs|]. split; [exact Hr|exact Hids].
Defined.

(** The one transition that replaces the canonical page: a fetch that
    resolved. The new canonical page is the JSON value fetched, in fresh
    objects, and the buffer is reset to a separate copy of it. *)
Lemma fetchData_resolved_spec (fetched : Page) (s : State) :
  isMounted s = true →
  ∃ s' c e,
    fetchData_resolved fetched s = Some s'
    ∧ pageData s' = Some c ∧ editData s' = Some e ∧ c ≠ e
    ∧ read_page (heap s') c = Some (json_page fetched)
    ∧ read_page (heap s') e = Some (json_page fetched)
    ∧ preserves (heap s) (heap s')
    ∧ wf s'.
Proof.
  intros Hm. unfold fetchData_resolved. rewrite Hm. cbn [negb].
  destruct (parse (json_page fetched) (heap s)) as [c h1] eqn:Hparse.
  assert (Hc : c = (parse (json_page fetched) (heap s)).1) by (by rewrite Hparse).
  assert (Hh1 : h1 = (parse (json_page fetched) (heap s)).2) by (by rewrite Hparse).
  assert (Hread1 : read_page h1 c = Some (json_page fetched)).
  { rewrite Hh1, Hc. apply layout_read, parse_layout. }
  assert (Hp1 : preserves (heap s) h1) by (rewrite Hh1; apply parse_preserves).
  assert (Hlen1 : length h1 = S c).
  { rewrite Hh1, Hc. apply parse_length. }
  destruct (deepCopy_spec _ _ _ Hread1) as (h2 & Hcopy & L & _ & Hp2).
  simpl. rewrite Hcopy. simpl.
  assert (Hread2 : read_page h2 (page_at (length h1)
                      (length (columns (json_page fetched)))
                      (length (rows (json_page fetched))))
                   = Some (json_page fetched)).
  { apply layout_read in L. by rewrite json_page_idemp in L. }
  eexists _, _, _. split; [done|]. simpl.
  split; [done|]. split; [done|]. split; [locs|].
  split; [by eapply read_page_preserves|]. split; [done|].
  split; [by eapply preserves_trans|].
  split; simpl.
  - intros ? [= <-]. exists (json_page fetched). by eapply read_page_preserves.
  - intros ? [= <-]. eauto.
Qed.

Lemma fetchData_resolved_wf (fetched : Page) (s : State) :
  wf s → ∃ s', fetchData_resolved fetched s = Some s' ∧ wf s'.
Proof.
  intros Hwf. destruct (isMounted s) eqn:Hm.
  - destruct (fetchData_resolved_spec fetched s Hm)
      as (s' & c & e & Hs & _ & _ & _ & _ & _ & _ & Hwf').
    eauto.
  - unfold fetchData_resolved. rewrite Hm. simpl. eauto.
Qed.

Lemma wf_initial_state : wf initial_state.
Proof. split; intros l Hl; discriminate Hl. Qed.

(** The handlers never get stuck: from a well-formed state every sequence
    of transitions runs to a well-formed state. In particular every state
    reached from [initial_state] is well-formed. *)
Lemma transitions_wf ts : ∀ s,
  wf s → ∃ s', transitions ts s = Some s' ∧ wf s'.
Proof.
  induction ts as [|t ts IH]; intros s Hwf; [by exists s|].
  assert (H1 : ∃ s1, transition t s = Some s1 ∧ wf s1).
  { destruct t as [ev|fetched]; simpl.
    - destruct (step_wf ev s Hwf) as (s1 & ? & ? & _). eauto.
    - by apply fetchData_resolved_wf. }
  destruct H1 as (s1 & Hs1 & Hwf1).
  destruct (IH s1 Hwf1) as (s' & Hs' & Hwf').
  exists s'. simpl. rewrite Hs1. simpl. done.
Qed.

(** Whatever happened while the save was in flight, its rejection touches
    neither the heap nor the references nor the mode. *)
Lemma handleSaveChanges_rejected_frame (err : AxiosError) (s : State) :
  heap (handleSaveChanges_rejected err s) = heap s
  ∧ pageData (handleSaveChanges_rejected err s) = pageData s
  ∧ editData (handleSaveChanges_rejected err s) = editData s
  ∧ isEditing (handleSaveChanges_rejected err s) = isEditing s
  ∧ requests (handleSaveChanges_rejected err s) = requests s.
Proof.
  unfold handleSaveChanges_rejected, handleSaveChanges_finally.
  destruct (isMounted s) eqn:Hm; simpl; [rewrite Hm|]; done.
Qed.

(** The scenario of the specification: a page with columns [A, B] and one
    row; after entering edit mode, [addRow] appends [{id: null, order: 2,
    cells: [EmptyString, EmptyString]}], [deleteRow(1)] leaves that row alone with order 1,
    and a save that fails leaves the buffer and the mode as they were and
    emits an error notification. *)
Lemma scenario_add_delete_save_fails :
  ∃ s1 s2 s3,
    handleAddRow example_editing = Some s1
    ∧ displayData s1
      = Some (mkPage (columns example_page)
                [mkRow (IdNum 1) 1 [CellStr "x"; CellStr "y"];
                 mkRow IdNull 2 [CellStr EmptyString; CellStr EmptyString]])
    ∧ handleDeleteRow (IdNum 1) s1 = Some s2
    ∧ displayData s2
      = Some (mkPage (columns example_page)
                [mkRow IdNull 1 [CellStr EmptyString; CellStr EmptyString]])
    ∧ handleSaveChanges_start s2 = Some s3
    ∧ displayData
        (handleSaveChanges_rejected
           (mkAxiosError "AxiosError" "Network Error" None) s3)
      = displayData s2
    ∧ isEditing
        (handleSaveChanges_rejected
           (mkAxiosError "AxiosError" "Network Error" None) s3)
      = true
    ∧ notifications
        (handleSaveChanges_rejected
           (mkAxiosError "AxiosError" "Network Error" None) s3)
      = [mkNotification (VStr "Failed to save changes.") "error" 5000].
Proof.
  eexists _, _, _.
  split; [vm_compute; reflexivity|]. split; [vm_compute; reflexivity|].
  split; [vm_compute; reflexivity|]. split; [vm_compute; reflexivity|].
  split; [vm_compute; reflexivity|]. split; [vm_compute; reflexivity|].
  split; vm_compute; reflexivity.
Qed.

(** *** Further properties of the page view *)

Import PageViewProps JsFacts.

(** *** Fetching *)

Lemma displayData_read s l p :
  (if isEditing s then editData s else pageData s) = Some l →
  read_page (heap s) l = Some p → displayData s = Some p.
Proof. unfold displayData. by intros -> ->. Qed.

(** X1. A fetch that resolves on a mounted view installs the page it
    fetched: [pageData] and [editData] refer to two different page objects,
    both allocated past the end of the old heap, and both read as the JSON
    value of the fetched page, so the table shows that page in either mode.
    The permission to edit is granted, [loading] is off, and the mode is
    left as it was: a fetch that resolves during editing replaces the
    buffer without leaving edit mode. No object that existed is touched,
    no call is issued and no notification is emitted. *)
Theorem fetch_resolved_installs_page (fetched : Page) (s : State) :
  isMounted s = true →
  ∃ s' c e,
    fetchData_resolved fetched s = Some s'
    ∧ pageData s' = Some c ∧ editData s' = Some e ∧ c ≠ e
    ∧ length (heap s) ≤ c ∧ length (heap s) ≤ e
    ∧ read_page (heap s') c = Some (json_page fetched)
    ∧ read_page (heap s') e = Some (json_page fetched)
    ∧ displayData s' = Some (json_page fetched)
    ∧ canEdit s' = true ∧ loading s' = false
    ∧ isEditing s' = isEditing s
    ∧ requests s' = requests s ∧ notifications s' = notifications s
    ∧ preserves (heap s) (heap s').
Proof.
  intros Hm. unfold fetchData_resolved. rewrite Hm. cbn [negb].
  destruct (parse (json_page fetched) (heap s)) as [c h1] eqn:Hparse.
  assert (Hc : c = (parse (json_page fetched) (heap s)).1) by (by rewrite Hparse).
  assert (Hh1 : h1 = (parse (json_page fetched) (heap s)).2) by (by rewrite Hparse).
  assert (Hread1 : read_page h1 c = Some (json_page fetched)).
  { rewrite Hh1, Hc. apply layout_read, parse_layout. }
  assert (Hp1 : preserves (heap s) h1) by (rewrite Hh1; apply parse_preserves).
  assert (Hlen1 : length h1 = S c).
  { rewrite Hh1, Hc. apply parse_length. }
  assert (Hfresh : length (heap s) ≤ c).
  { rewrite Hc. simpl. locs. }
  destruct (deepCopy_spec _ _ _ Hread1) as (h2 & Hcopy & L & _ & Hp2).
  simpl. rewrite Hcopy. simpl.
  assert (Hread2 : read_page h2 (page_at (length h1)
                      (length (columns (json_page fetched)))
                      (length (rows (json_page fetched))))
                   = Some (json_page fetched)).
  { apply layout_read in L. by rewrite json_page_idemp in L. }
  assert (Hread1' : read_page h2 c = Some (json_page fetched))
    by (by eapply read_page_preserves).
  eexists _, _, _. split; [done|].
  split; [done|]. split; [done|]. split; [locs|].
  split; [done|]. split; [locs|].
  split; [done|]. split; [done|].
  split.
  { destruct (isEditing s) eqn:He.
    - eapply displayData_read; [simpl; rewrite He; reflexivity|exact Hread2].
    - eapply displayData_read; [simpl; rewrite He; reflexivity|exact Hread1']. }
  repeat (split; [done|]).
  by eapply preserves_trans.
Qed.

Lemma fetch_resolved_installs_page_witness :
  isMounted (fetchData_start initial_state) = true
  ∧ ∃ s', fetchData_resolved example_page (fetchData_start initial_state) = Some s'
          ∧ displayData s' = Some example_page.
Proof.
  split; [reflexivity|].
  destruct (fetch_resolved_installs_page example_page
              (fetchData_start initial_state) eq_refl)
    as (s' & c & e & Hs & _ & _ & _ & _ & _ & _ & _ & Hd & _).
  exists s'. split; [exact Hs|exact Hd].
Defined.

Lemma fetchData_resolved_frame fetched s s' :
  fetchData_resolved fetched s = Some s' →
  isEditing s' = isEditing s ∧ isLoadingSave s' = isLoadingSave s
  ∧ editError s' = editError s ∧ pageError s' = pageError s
  ∧ requests s' = requests s ∧ notifications s' = notifications s
  ∧ warnings s' = warnings s ∧ isMounted s' = isMounted s
  ∧ pageSlug s' = pageSlug s
  ∧ (isMounted s = true → canEdit s' = true ∧ loading s' = false).
Proof.
  unfold fetchData_resolved. destruct (isMounted s) eqn:Hm; cbn [negb].
  - destruct (parse (json_page fetched) (heap s)) as [c h1].
    destruct (deepCopy h1 c) as [[e h2]|]; [|done]. simpl.
    intros [= <-]. simpl. by rewrite ?Hm.
  - intros [= <-]. by repeat split.
Qed.

Lemma wf_displayData s : wf s → is_Some (displayData s).
Proof.
  intros [Hc He]. unfold displayData.
  destruct (isEditing s).
  - destruct (editData s) as [e|]; [by apply He|done].
  - destruct (pageData s) as [c|]; [by apply Hc|done].
Qed.

(** X2. From a state whose references point at readable pages, every
    sequence of transitions of the component (mutations, toggle, cancel,
    save with its outcomes, fetch with its outcomes) runs to the end: no
    handler meets a [TypeError]. The state reached is again well-formed,
    and the data the table is rendered from can be read. The state at
    mount is such a state, so this holds of every reachable state. *)
Theorem handlers_never_throw (ts : list Transition) (s : State) :
  wf s →
  ∃ s' shown,
    transitions ts s = Some s' ∧ wf s' ∧ displayData s' = Some shown.
Proof.
  intros Hwf. destruct (transitions_wf ts s Hwf) as (s' & Hs & Hwf').
  destruct (wf_displayData s' Hwf') as [shown Hshown]. by exists s', shown.
Qed.

Lemma handlers_never_throw_witness :
  wf initial_state
  ∧ ∃ s' shown,
      transitions
        [TEvent EFetchStart; TFetchResolved example_page; TEvent EToggleEdit;
         TEvent (EMutation AddRow); TEvent (EMutation (CellEdit 9 9 "v"));
         TEvent ESaveChanges;
         TEvent (ESaveRejected (mkAxiosError "AxiosError" "Network Error" None))]
        initial_state = Some s'
      ∧ displayData s' = Some shown.
Proof.
  split; [exact wf_initial_state|].
  destruct (handlers_never_throw
              [TEvent EFetchStart; TFetchResolved example_page; TEvent EToggleEdit;
               TEvent (EMutation AddRow); TEvent (EMutation (CellEdit 9 9 "v"));
               TEvent ESaveChanges;
               TEvent (ESaveRejected (mkAxiosError "AxiosError" "Network Error" None))]
              initial_state wf_initial_state)
    as (s' & shown & Hs & _ & Hshown).
  exists s', shown. split; [exact Hs|exact Hshown].
Defined.

(** *** Saving *)

(** X3. In EDITING mode on a mounted view, when the save call resolves
    the component emits the success notification, leaves edit mode and
    issues the re-fetch, still marked as saving and still showing the old
    canonical page. When the re-fetch resolves with a page and the
    [finally] block has run, the component is in VIEW, neither saving nor
    loading, with no edit error; the table shows the page that was fetched
    (not the buffer that was sent), the buffer is a copy of it, and the
    objects of the old buffer are still intact. *)
Theorem save_success_reloads (s : State) (e : loc) (buf fetched : Page) :
  isEditing s = true → editData s = Some e → read_page (heap s) e = Some buf →
  isMounted s = true →
  ∃ s1 s3,
    handleSaveChanges_start s = Some s1
    ∧ let s2 := handleSaveChanges_saved s1 in
      requests s2
      = GetPageData (pageSlug s)
          :: SavePageData (pageSlug s) (build_payload buf) :: requests s
      ∧ notifications s2
        = mkNotification (VStr "Page saved successfully!") "success" 5000
            :: notifications s
      ∧ isEditing s2 = false ∧ isLoadingSave s2 = true ∧ loading s2 = true
      ∧ pageData s2 = pageData s ∧ heap s2 = heap s
      ∧ fetchData_resolved fetched s2 = Some s3
      ∧ let s4 := handleSaveChanges_finally s3 in
        isEditing s4 = false ∧ isLoadingSave s4 = false ∧ loading s4 = false
        ∧ editError s4 = None
        ∧ displayData s4 = Some (json_page fetched)
        ∧ (∃ e4, editData s4 = Some e4
                 ∧ read_page (heap s4) e4 = Some (json_page fetched))
        ∧ read_page (heap s4) e = Some buf
        ∧ requests s4 = requests s2
        ∧ notifications s4 = notifications s2.
Proof.
  intros Hed He Hread Hm.
  unfold handleSaveChanges_start. rewrite Hed, He. simpl. rewrite Hread. simpl.
  set (s1 := send _ _).
  assert (Hm1 : isMounted s1 = true) by done.
  set (s2 := handleSaveChanges_saved s1).
  assert (Hs2 : s2 = send (GetPageData (pageSlug s))
                       (setPageError None (setLoading true
                          (updateIsEditing false
                             (addNotification (VStr "Page saved successfully!")
                                "success" 5000 s1))))).
  { unfold s2, handleSaveChanges_saved, fetchData_start. rewrite Hm1. simpl.
    by rewrite Hm. }
  assert (Hm2 : isMounted s2 = true) by (by rewrite Hs2).
  destruct (fetchData_resolved_spec fetched s2 Hm2)
    as (s3 & c & e3 & Hs3 & Hc3 & He3 & _ & Hrc & Hre & Hp & _).
  destruct (fetchData_resolved_frame _ _ _ Hs3)
    as (Hed3 & Hls3 & Hee3 & _ & Hrq3 & Hn3 & _ & Hm3 & _ & Hce3).
  destruct (Hce3 Hm2) as [_ Hl3].
  exists s1, s3. split; [done|]. cbv zeta. fold s2.
  split; [by rewrite Hs2|]. split; [by rewrite Hs2|].
  split; [by rewrite Hs2|]. split; [by rewrite Hs2|].
  split; [by rewrite Hs2|]. split; [by rewrite Hs2|].
  split; [by rewrite Hs2|]. split; [done|].
  unfold handleSaveChanges_finally. rewrite Hm3, Hm2. simpl.
  split; [by rewrite Hed3, Hs2|]. split; [done|]. split; [done|].
  split; [by rewrite Hee3, Hs2|].
  split.
  { eapply displayData_read; [|exact Hrc]. simpl. by rewrite Hed3, Hs2. }
  split; [by exists e3|].
  split; [|done].
  eapply read_page_preserves; [exact Hp|]. by rewrite Hs2.
Qed.

Lemma save_success_reloads_witness :
  isEditing example_editing = true
  ∧ editData example_editing = Some 20
  ∧ read_page (heap example_editing) 20 = Some example_page
  ∧ isMounted example_editing = true
  ∧ ∃ s1 s3,
      handleSaveChanges_start example_editing = Some s1
      ∧ fetchData_resolved short_row_page (handleSaveChanges_saved s1) = Some s3
      ∧ displayData (handleSaveChanges_finally s3) = Some short_row_page.
Proof.
  split; [reflexivity|]. split; [reflexivity|]. split; [reflexivity|].
  split; [reflexivity|].
  destruct (save_success_reloads example_editing 20 example_page short_row_page
              eq_refl eq_refl eq_refl eq_refl)
    as (s1 & s3 & Hs1 & H).
  cbv zeta in H.
  destruct H as (_ & _ & _ & _ & _ & _ & _ & Hs3 & _ & _ & _ & _ & Hd & _).
  exists s1, s3. split; [exact Hs1|]. split; [exact Hs3|exact Hd].
Defined.

(** *** A fetch that fails *)

(** X4. A fetch that fails never touches the heap, the canonical page,
    the buffer, the mode, the saving flag, the edit error or the log of
    calls. A cancelled fetch reports nothing. Any other failure on a
    mounted view emits one error notification whose message is the
    [detail] of the response, else its [error], else a fixed text, and is
    never empty; [pageError] is that message, replaced by a fixed text for
    the status 404 and for the status 403, and the status 403 also revokes
    the permission to edit. On a mounted view [loading] is switched off in
    every case. *)
Theorem fetch_failure_keeps_data (err : AxiosError) (s : State) :
  let s' := fetchData_rejected err s in
  let msg :=
    or_else (get_opt (response_data err) "detail")
      (or_else (get_opt (response_data err) "error")
         (VStr "Could not load page data.")) in
  heap s' = heap s ∧ pageData s' = pageData s ∧ editData s' = editData s
  ∧ isEditing s' = isEditing s ∧ isLoadingSave s' = isLoadingSave s
  ∧ editError s' = editError s ∧ requests s' = requests s
  ∧ truthy msg = true
  ∧ (err_name err = "CanceledError" →
       notifications s' = notifications s ∧ pageError s' = pageError s
       ∧ canEdit s' = canEdit s)
  ∧ (isMounted s = true → loading s' = false)
  ∧ (isMounted s = true → err_name err ≠ "CanceledError" →
       notifications s' = mkNotification msg "error" 5000 :: notifications s
       ∧ pageError s'
         = Some (if bool_decide (response_status err = Some 403%Z)
                 then VStr "You do not have permission to view this page."
                 else if bool_decide (response_status err = Some 404%Z)
                      then VStr "Page not found."
                      else msg)
       ∧ canEdit s'
         = (if bool_decide (response_status err = Some 403%Z)
            then false else canEdit s)).
Proof.
  cbv zeta. unfold fetchData_rejected.
  assert (Hmsg : truthy (or_else (get_opt (response_data err) "detail")
                           (or_else (get_opt (response_data err) "error")
                              (VStr "Could not load page data."))) = true).
  { apply or_else_truthy, or_else_truthy. reflexivity. }
  destruct (bool_decide (err_name err = "CanceledError")) eqn:Hcancel.
  - apply bool_decide_eq_true in Hcancel.
    destruct (isMounted s) eqn:Hm; simpl;
      (repeat (split; [done|])); done.
  - apply bool_decide_eq_false in Hcancel.
    destruct (isMounted s) eqn:Hm; cbn [negb].
    + destruct (bool_decide (response_status err = Some 404%Z)) eqn:H404;
        destruct (bool_decide (response_status err = Some 403%Z)) eqn:H403;
        simpl; (repeat (split; [done|])); done.
    + repeat (split; [done|]). done.
Qed.

(** X5. Once the view is unmounted, nothing that runs after an [await]
    changes the state: whatever the sequence of resolved or rejected
    fetches, resolved or rejected saves, [finally] blocks and re-fetches,
    the state stays exactly as it was. *)
Theorem unmounted_view_is_never_updated (ts : list Transition) (s : State) :
  isMounted s = false → Forall (λ t, continuation t = true) ts →
  transitions ts s = Some s.
Proof.
  intros Hm Hts. induction Hts as [|t ts Ht _ IH]; [done|].
  assert (Hstep : transition t s = Some s).
  { destruct t as [ev|fetched]; simpl.
    - destruct ev; try discriminate Ht; simpl.
      + unfold handleSaveChanges_saved. by rewrite Hm.
      + unfold handleSaveChanges_rejected. by rewrite Hm.
      + unfold handleSaveChanges_finally. by rewrite Hm.
      + unfold fetchData_start. by rewrite Hm.
      + unfold fetchData_rejected. rewrite Hm. simpl.
        by destruct (bool_decide (err_name err = "CanceledError")).
    - unfold fetchData_resolved. by rewrite Hm. }
  simpl. rewrite Hstep. simpl. exact IH.
Qed.

Lemma unmounted_view_is_never_updated_witness :
  transitions
    [TFetchResolved example_page; TEvent ESaveResolved;
     TEvent (EFetchRejected (mkAxiosError "AxiosError" "Network Error" None));
     TEvent ESaveFinally]
    (mkState [] "budget" None None true None None false false false false [] [] [])
  = Some (mkState [] "budget" None None true None None false false false false [] [] []).
Proof.
  apply unmounted_view_is_never_updated; [reflexivity|].
  repeat constructor.
Defined.

(** *** Without the permission to edit *)

Lemma user_action_without_permission ev s :
  isEditing s = false → canEdit s = false → user_action ev = true →
  ∃ s', step ev s = Some s'
    ∧ isEditing s' = false ∧ canEdit s' = false ∧ heap s' = heap s
    ∧ pageData s' = pageData s ∧ editData s' = editData s
    ∧ requests s' = requests s.
Proof.
  intros Hed Hce Hev. destruct ev as [m| | | | | | | |]; try discriminate Hev; simpl.
  - exists s. split; [|done].
    destruct m as [i j v| |rowId]; simpl.
    + unfold handleCellChange. by rewrite Hed.
    + unfold handleAddRow. by rewrite Hed.
    + unfold handleDeleteRow. by rewrite Hed.
  - unfold handleToggleEdit. simpl. rewrite Hed, Hce. simpl.
    eexists. split; [done|]. done.
  - unfold handleSaveChanges_start. rewrite Hed. eexists. split; [done|]. done.
Qed.

(** X6. In VIEW mode without the permission to edit, whatever the user
    asks for (cell edits, row additions and deletions, the edit toggle,
    a save, in any order and number), the component stays in VIEW, the
    permission stays off, the heap, the canonical page and the buffer are
    untouched, the table shows the same data, and no call is issued. *)
Theorem no_permission_no_edit (es : list Event) (s : State) :
  isEditing s = false → canEdit s = false →
  Forall (λ ev, user_action ev = true) es →
  ∃ s',
    steps es s = Some s'
    ∧ isEditing s' = false ∧ canEdit s' = false
    ∧ heap s' = heap s ∧ pageData s' = pageData s ∧ editData s' = editData s
    ∧ displayData s' = displayData s
    ∧ requests s' = requests s.
Proof.
  intros Hed Hce Hes. revert s Hed Hce.
  induction Hes as [|ev es Hev _ IH]; intros s Hed Hce.
  - exists s. by repeat split.
  - destruct (user_action_without_permission ev s Hed Hce Hev)
      as (s1 & Hs1 & Hed1 & Hce1 & Hh1 & Hp1 & He1 & Hr1).
    destruct (IH s1 Hed1 Hce1)
      as (s' & Hs' & Hed' & Hce' & Hh' & Hp' & He' & Hd' & Hr').
    exists s'. simpl. rewrite Hs1. simpl.
    split; [done|]. split; [done|]. split; [done|].
    split; [congruence|]. split; [congruence|]. split; [congruence|].
    split; [|congruence].
    rewrite Hd'. unfold displayData. by rewrite Hed1, Hed, Hp1, Hh1.
Qed.

Lemma no_permission_no_edit_witness :
  ∃ s',
    steps [EToggleEdit; EMutation AddRow; ESaveChanges;
           EMutation (CellEdit 0 0 "v")]
      (updateCanEdit false example_loaded) = Some s'
    ∧ displayData s' = Some example_page
    ∧ requests s' = [GetPageData "budget"].
Proof.
  destruct (no_permission_no_edit
              [EToggleEdit; EMutation AddRow; ESaveChanges;
               EMutation (CellEdit 0 0 "v")]
              (updateCanEdit false example_loaded) eq_refl eq_refl)
    as (s' & Hs & _ & _ & _ & _ & _ & Hd & Hr).
  { repeat constructor. }
  exists s'. split; [exact Hs|]. split; [exact Hd|exact Hr].
Defined.

(** *** The order of the rows *)

Lemma row_order_json_rows (rs : list Row) :
  row_order <$> (json_row <$> rs) = row_order <$> rs.
Proof. rewrite <- list_fmap_compose. by apply list_fmap_ext. Qed.

(** X7. In EDITING mode, when the orders of the rows are below 2^53
    (the range in which the code's sum of doubles is the sum of the
    integers), the row that [addRow] appends is the last row of the new
    buffer; its order is at least 1 and strictly greater than the order of
    every row that was there, so it is the only row of the new buffer with
    that order. *)
Theorem added_row_order_is_fresh (s : State) (e : loc) (buf : Page) :
  isEditing s = true → editData s = Some e → read_page (heap s) e = Some buf →
  Forall (λ r, (row_order r < 2 ^ 53)%Z) (rows buf) →
  ∃ s' e' buf' newRow,
    handleAddRow s = Some s'
    ∧ editData s' = Some e'
    ∧ read_page (heap s') e' = Some buf'
    ∧ last (rows buf') = Some newRow
    ∧ (1 ≤ row_order newRow)%Z
    ∧ (∀ r, r ∈ rows buf → (row_order r < row_order newRow)%Z)
    ∧ (∀ r, r ∈ rows buf' → row_order r = row_order newRow → r = newRow).
Proof.
  intros Hed He Hread _.
  destruct (handleAddRow_spec s e buf Hed He Hread)
    as (s' & e' & Hs & He' & Hread' & _).
  destruct (max_order_spec (row_order <$> rows buf)) as (H0 & Hmax & _).
  assert (Hlt : ∀ r, r ∈ rows buf →
            (row_order r < max_order (row_order <$> rows buf) + 1)%Z).
  { intros r Hr. assert (row_order r ≤ max_order (row_order <$> rows buf))%Z; [|lia].
    apply Hmax. by apply list_elem_of_fmap_2. }
  exists s', e', (spec_addRow (json_page buf)), (spec_newRow (json_page buf)).
  split; [done|]. split; [done|]. split; [done|].
  split; [apply last_snoc|].
  unfold spec_newRow. cbn [row_order rows json_page].
  rewrite row_order_json_rows.
  split; [lia|]. split; [done|].
  intros r Hr Heq. unfold spec_addRow in Hr. cbn [rows json_page] in Hr.
  apply elem_of_app in Hr as [Hr|Hr].
  - apply list_elem_of_fmap in Hr as (r0 & -> & Hr0).
    specialize (Hlt r0 Hr0). simpl in Heq. lia.
  - apply list_elem_of_singleton in Hr. subst r. unfold spec_newRow.
    cbn [rows json_page]. by rewrite row_order_json_rows.
Qed.

Lemma added_row_order_is_fresh_witness :
  isEditing example_editing = true
  ∧ editData example_editing = Some 20
  ∧ read_page (heap example_editing) 20 = Some example_page
  ∧ Forall (λ r, (row_order r < 2 ^ 53)%Z) (rows example_page)
  ∧ ∃ s' newRow, handleAddRow example_editing = Some s'
       ∧ (row_order newRow > 1)%Z.
Proof.
  assert (Hsafe : Forall (λ r, (row_order r < 2 ^ 53)%Z) (rows example_page)).
  { repeat constructor. }
  split; [reflexivity|]. split; [reflexivity|]. split; [reflexivity|].
  split; [exact Hsafe|].
  destruct (added_row_order_is_fresh example_editing 20 example_page
              eq_refl eq_refl eq_refl Hsafe)
    as (s' & e' & buf' & newRow & Hs & _ & _ & _ & _ & Hlt & _).
  exists s', newRow. split; [exact Hs|].
  specialize (Hlt (mkRow (IdNum 1) 1 [CellStr "x"; CellStr "y"])).
  simpl in Hlt. apply Z.lt_gt, Hlt. apply list_elem_of_singleton. reflexivity.
Defined.

Lemma max_order_app (l1 l2 : list Z) :
  max_order (l1 ++ l2) = Z.max (max_order l1) (max_order l2).
Proof.
  unfold max_order. induction l1 as [|x l1 IH]; simpl.
  - destruct (max_order_spec l2) as [H0 _]. unfold max_order in H0. lia.
  - rewrite IH. lia.
Qed.

Lemma max_order_seq (n : nat) :
  max_order (Z.of_nat <$> seq 1 n) = Z.of_nat n.
Proof.
  induction n as [|n IH]; [done|].
  rewrite seq_S, fmap_app, max_order_app, IH. simpl. lia.
Qed.

Lemma consecutive_json p : consecutive p → consecutive (json_page p).
Proof.
  unfold consecutive. cbn [rows json_page]. intros H.
  by rewrite row_order_json_rows, length_fmap.
Qed.

Lemma consecutive_cellEdit i j v p : consecutive p → consecutive (spec_cellEdit i j v p).
Proof.
  unfold consecutive, spec_cellEdit. intros H.
  destruct (rows p !! i) as [r|] eqn:Hr; [|done].
  cbn [rows]. rewrite length_insert, list_fmap_insert. cbn [row_order].
  rewrite <- H. apply list_insert_id. by rewrite list_lookup_fmap, Hr.
Qed.

Lemma consecutive_addRow p : consecutive p → consecutive (spec_addRow p).
Proof.
  unfold consecutive, spec_addRow, spec_newRow. cbn [rows]. intros H.
  rewrite fmap_app, length_app, H. cbn [length fmap list_fmap row_order].
  rewrite Nat.add_1_r, seq_S, fmap_app, max_order_seq. simpl.
  do 3 f_equal. lia.
Qed.

Lemma consecutive_deleteRow rowId p : consecutive (spec_deleteRow rowId p).
Proof.
  unfold consecutive, spec_deleteRow. cbn [rows].
  by rewrite renumbered_orders, length_renumbered.
Qed.

Lemma consecutive_mutate m p : consecutive p → consecutive (spec_mutate m (json_page p)).
Proof.
  intros H%consecutive_json. destruct m; simpl.
  - by apply consecutive_cellEdit.
  - by apply consecutive_addRow.
  - apply consecutive_deleteRow.
Qed.

Lemma consecutive_mutates ms : ∀ p, consecutive p → consecutive (spec_mutates ms p).
Proof.
  unfold spec_mutates.
  induction ms as [|m ms IH]; intros p Hp; [done|].
  simpl. apply IH. by apply consecutive_mutate.
Qed.

(** X8. If the rows of the buffer are numbered [1..N] by position, they
    still are after any sequence of cell edits, row additions and row
    deletions: in particular every order lies between 1 and the number of
    rows, and no two rows have the same order. *)
Theorem mutations_keep_rows_numbered (ms : list Mutation) (s : State) (e : loc)
    (buf : Page) :
  isEditing s = true → editData s = Some e → read_page (heap s) e = Some buf →
  consecutive buf →
  ∃ s' e' buf',
    mutates ms s = Some s'
    ∧ editData s' = Some e'
    ∧ read_page (heap s') e' = Some buf'
    ∧ consecutive buf'
    ∧ (∀ r, r ∈ rows buf' →
         (1 ≤ row_order r ≤ Z.of_nat (length (rows buf')))%Z)
    ∧ NoDup (row_order <$> rows buf').
Proof.
  intros Hed He Hread Hcons.
  destruct (mutates_editing ms s e buf Hed He Hread)
    as (s' & e' & Hs & He' & Hread' & _).
  pose proof (consecutive_mutates ms buf Hcons) as Hcons'.
  exists s', e', (spec_mutates ms buf).
  split; [done|]. split; [done|]. split; [done|]. split; [done|].
  split.
  - intros r Hr.
    assert (Ho : row_order r ∈ row_order <$> rows (spec_mutates ms buf))
      by (by apply list_elem_of_fmap_2).
    rewrite Hcons' in Ho. apply list_elem_of_fmap in Ho as (k & -> & Hk).
    apply elem_of_seq in Hk. lia.
  - rewrite Hcons'. apply NoDup_fmap; [intros ?? ?; lia|apply NoDup_seq].
Qed.

Lemma mutations_keep_rows_numbered_witness :
  isEditing example_editing = true
  ∧ editData example_editing = Some 20
  ∧ read_page (heap example_editing) 20 = Some example_page
  ∧ consecutive example_page
  ∧ ∃ s' e' buf',
      mutates [AddRow; AddRow; DeleteRow (IdNum 1); AddRow] example_editing
        = Some s'
      ∧ editData s' = Some e'
      ∧ read_page (heap s') e' = Some buf'
      ∧ consecutive buf'.
Proof.
  split; [reflexivity|]. split; [reflexivity|]. split; [reflexivity|].
  split; [reflexivity|].
  destruct (mutations_keep_rows_numbered
              [AddRow; AddRow; DeleteRow (IdNum 1); AddRow]
              example_editing 20 example_page eq_refl eq_refl eq_refl eq_refl)
    as (s' & e' & buf' & Hs & He & Hr & Hc & _).
  exists s', e', buf'.
  split; [exact Hs|]. split; [exact He|]. split; [exact Hr|exact Hc].
Defined.

(** *** What a save sends *)

Lemma id_or_null_truthy i : truthy_id i = true → id_or_null i = i.
Proof. unfold id_or_null. by intros ->. Qed.

Lemma build_payload_saved_ids p :
  saved_ids p →
  build_payload (json_page p) = mkPayload (columns p) (rows (json_page p)).
Proof.
  intros [Hcols Hrows]. unfold build_payload. cbn [columns rows json_page]. f_equal.
  - induction Hcols as [|c cs Hc _ IH]; [done|].
    rewrite fmap_cons. f_equal; [|done].
    unfold payload_column. rewrite id_or_null_truthy by done. by destruct c.
  - rewrite <- list_fmap_compose. apply Forall_fmap_ext_1.
    eapply Forall_impl; [exact Hrows|]. intros r Hr. simpl.
    unfold payload_row, json_row. cbn [row_id row_order row_cells].
    rewrite id_or_null_truthy by done. f_equal.
    rewrite <- list_fmap_compose. apply list_fmap_ext. intros _ c _.
    apply json_cell_idemp.
Qed.

(** X9. From VIEW with a loaded page whose columns and rows all have
    truthy ids and the permission to edit: the toggle enters edit mode
    without any call, and the toggle pressed again (now the save button)
    issues one save call whose payload is the canonical page itself, as
    JSON: the same columns, the same rows. *)
Theorem save_without_edits_sends_page_back (s : State) (c : loc)
    (canonical : Page) :
  wf s → pageData s = Some c → read_page (heap s) c = Some canonical →
  isEditing s = false → canEdit s = true → saved_ids canonical →
  ∃ s1 s2,
    handleToggleEdit s = Some s1
    ∧ isEditing s1 = true
    ∧ requests s1 = requests s
    ∧ handleToggleEdit s1 = Some s2
    ∧ requests s2
      = SavePageData (pageSlug s)
          (mkPayload (columns canonical) (rows (json_page canonical)))
          :: requests s
    ∧ (json_page canonical = canonical →
         requests s2
         = SavePageData (pageSlug s)
             (mkPayload (columns canonical) (rows canonical)) :: requests s)
    ∧ isLoadingSave s2 = true
    ∧ isEditing s2 = true.
Proof.
  intros Hwf Hpd Hread Hed Hce Hids.
  destruct (deepCopy_wf _ _ _ Hread) as (e & h' & Hcopy & Hread' & _).
  unfold handleToggleEdit at 1. simpl. rewrite Hed, Hce, Hpd. simpl.
  rewrite Hcopy. simpl.
  eexists _, _. split; [done|]. split; [done|]. split; [done|].
  unfold handleToggleEdit, handleSaveChanges_start. simpl.
  rewrite Hread'. simpl. rewrite (build_payload_saved_ids _ Hids).
  split; [done|]. split; [done|]. split; [|done].
  by intros ->.
Qed.

Lemma save_without_edits_sends_page_back_witness :
  wf example_loaded
  ∧ pageData example_loaded = Some 6
  ∧ read_page (heap example_loaded) 6 = Some example_page
  ∧ isEditing example_loaded = false
  ∧ canEdit example_loaded = true
  ∧ saved_ids example_page
  ∧ ∃ s1 s2,
      handleToggleEdit example_loaded = Some s1
      ∧ handleToggleEdit s1 = Some s2
      ∧ requests s2
        = [SavePageData "budget"
             (mkPayload (columns example_page) (rows example_page));
           GetPageData "budget"].
Proof.
  assert (Hids : saved_ids example_page).
  { split; repeat constructor. }
  split; [exact wf_example_loaded|]. split; [reflexivity|].
  split; [reflexivity|]. split; [reflexivity|]. split; [reflexivity|].
  split; [exact Hids|].
  destruct (save_without_edits_sends_page_back example_loaded 6 example_page
              wf_example_loaded eq_refl eq_refl eq_refl eq_refl Hids)
    as (s1 & s2 & Hs1 & _ & _ & Hs2 & Hr & _).
  exists s1, s2. split; [exact Hs1|]. split; [exact Hs2|exact Hr].
Defined.

(** *** The deep copy *)

(** X10. The deep copy [JSON.parse(JSON.stringify(x))] of a readable page
    succeeds; the copy serialises to the same JSON as the original; all
    its objects (columns, arrays, rows, cells) lie past the end of the old
    heap, the page object last; and every object of the old heap,
    the original page included, is left as it was. *)
Theorem deepCopy_is_equal_and_separate (h : Heap) (l : loc) (p : Page) :
  read_page h l = Some p →
  ∃ c h',
    deepCopy h l = Some (c, h')
    ∧ stringify h' c = stringify h l
    ∧ read_page h' c = Some (json_page p)
    ∧ layout h' (length h) (json_page p)
    ∧ length h ≤ c
    ∧ length h' = S c
    ∧ preserves h h'
    ∧ read_page h' l = Some p.
Proof.
  intros Hread.
  destruct (deepCopy_spec h l p Hread) as (h' & Hcopy & L & Hlen & Hp).
  eexists _, h'. split; [exact Hcopy|].
  assert (Hread' : read_page h'
                     (page_at (length h) (length (columns p)) (length (rows p)))
                   = Some (json_page p)).
  { apply layout_read in L. cbn [columns rows json_page] in L.
    by rewrite length_fmap in L. }
  split.
  { unfold stringify. rewrite Hread', Hread. simpl. by rewrite json_page_idemp. }
  split; [done|]. split; [done|]. split; [locs|]. split; [done|].
  split; [done|]. by eapply read_page_preserves.
Qed.

Lemma deepCopy_is_equal_and_separate_witness :
  read_page (heap example_loaded) 6 = Some example_page
  ∧ ∃ c h', deepCopy (heap example_loaded) 6 = Some (c, h')
            ∧ read_page h' c = Some example_page
            ∧ read_page h' 6 = Some example_page.
Proof.
  split; [reflexivity|].
  destruct (deepCopy_is_equal_and_separate (heap example_loaded) 6 example_page
              eq_refl)
    as (c & h' & Hc & _ & Hr & _ & _ & _ & _ & Hr').
  exists c, h'. split; [exact Hc|]. split; [exact Hr|exact Hr'].
Defined.

(** *** Edits made while a save is in flight *)

Lemma handleSaveChanges_saved_mounted fetched s :
  isMounted s = true →
  ∃ s3,
    fetchData_resolved fetched (handleSaveChanges_saved s) = Some s3
    ∧ isEditing (handleSaveChanges_finally s3) = false
    ∧ isLoadingSave (handleSaveChanges_finally s3) = false
    ∧ displayData (handleSaveChanges_finally s3) = Some (json_page fetched)
    ∧ (∃ e4, editData (handleSaveChanges_finally s3) = Some e4
             ∧ read_page (heap (handleSaveChanges_finally s3)) e4
               = Some (json_page fetched))
    ∧ requests (handleSaveChanges_finally s3)
      = GetPageData (pageSlug s) :: requests s.
Proof.
  intros Hm.
  set (s2 := handleSaveChanges_saved s).
  assert (Hs2 : s2 = send (GetPageData (pageSlug s))
                       (setPageError None (setLoading true
                          (updateIsEditing false
                             (addNotification (VStr "Page saved successfully!")
                                "success" 5000 s))))).
  { unfold s2, handleSaveChanges_saved, fetchData_start. rewrite Hm. simpl.
    by rewrite Hm. }
  assert (Hm2 : isMounted s2 = true) by (by rewrite Hs2).
  destruct (fetchData_resolved_spec fetched s2 Hm2)
    as (s3 & c & e3 & Hs3 & Hc3 & He3 & _ & Hrc & Hre & Hp & _).
  destruct (fetchData_resolved_frame _ _ _ Hs3)
    as (Hed3 & Hls3 & Hee3 & _ & Hrq3 & Hn3 & _ & Hm3 & _ & _).
  exists s3. split; [done|].
  unfold handleSaveChanges_finally. rewrite Hm3, Hm2. simpl.
  split; [by rewrite Hed3, Hs2|]. split; [done|].
  split.
  { eapply displayData_read; [|exact Hrc]. simpl. by rewrite Hed3, Hs2. }
  split; [by exists e3|]. by rewrite Hrq3, Hs2.
Qed.

(** The mutations that the table offers never add a row. *)
Lemma table_mutation_rows m p :
  table_mutation m = true →
  length (rows (spec_mutate m (json_page p))) ≤ length (rows p).
Proof.
  destruct m as [i j v| |rowId]; [|done|]; intros _; cbn [spec_mutate].
  - unfold spec_cellEdit. cbn [rows json_page].
    destruct ((json_row <$> rows p) !! i); cbn [rows json_page];
      by rewrite ?length_insert, ?length_fmap.
  - unfold spec_deleteRow, renumbered. cbn [rows json_page].
    rewrite length_imap. etrans; [apply length_filter|]. by rewrite length_fmap.
Qed.

Lemma table_mutations_rows ms : ∀ p,
  Forall (λ m, table_mutation m = true) ms →
  length (rows (spec_mutates ms p)) ≤ length (rows p).
Proof.
  unfold spec_mutates. induction ms as [|m ms IH]; intros p Hms; [done|].
  apply Forall_cons in Hms as [Hm Hms]. cbn [foldl].
  etrans; [apply IH, Hms|]. by apply table_mutation_rows.
Qed.

(** X11. Edits made in the table while a save is in flight: cell edits
    and row deletions (the button that adds a row is disabled until the
    save has ended). The save call carries the payload built from the
    buffer as it was when the save started; the edits made after that
    change the buffer and the table, without adding a row, but not the
    call. If the save then succeeds and the re-fetch resolves, the view
    leaves edit mode and shows the fetched page, and the buffer is a copy
    of it: the late edits are gone. If the save fails, the view stays in
    edit mode and the buffer keeps the late edits. *)
Theorem edits_during_save (s : State) (e : loc) (buf fetched : Page)
    (ms : list Mutation) (err : AxiosError) :
  isEditing s = true → editData s = Some e → read_page (heap s) e = Some buf →
  isMounted s = true → Forall (λ m, table_mutation m = true) ms →
  ∃ s1 s2 s3,
    handleSaveChanges_start s = Some s1
    ∧ mutates ms s1 = Some s2
    ∧ requests s2
      = SavePageData (pageSlug s) (build_payload buf) :: requests s
    ∧ displayData s2 = Some (spec_mutates ms buf)
    ∧ length (rows (spec_mutates ms buf)) ≤ length (rows buf)
    ∧ fetchData_resolved fetched (handleSaveChanges_saved s2) = Some s3
    ∧ isEditing (handleSaveChanges_finally s3) = false
    ∧ displayData (handleSaveChanges_finally s3) = Some (json_page fetched)
    ∧ (∃ e4, editData (handleSaveChanges_finally s3) = Some e4
             ∧ read_page (heap (handleSaveChanges_finally s3)) e4
               = Some (json_page fetched))
    ∧ isEditing (handleSaveChanges_rejected err s2) = true
    ∧ displayData (handleSaveChanges_rejected err s2)
      = Some (spec_mutates ms buf).
Proof.
  intros Hed He Hread Hm Hms.
  unfold handleSaveChanges_start. rewrite Hed, He. simpl. rewrite Hread. simpl.
  set (s1 := send _ _).
  destruct (mutates_editing ms s1 e buf Hed He Hread)
    as (s2 & e2 & Hs2 & He2 & Hread2 & _ & Hsv).
  destruct Hsv as (_ & _ & _ & _ & _ & Hed2 & _ & _ & Hm2 & _ & Hrq2).
  assert (Hm2' : isMounted s2 = true) by (by rewrite Hm2).
  assert (Hed2' : isEditing s2 = true) by (by rewrite Hed2).
  destruct (handleSaveChanges_saved_mounted fetched s2 Hm2')
    as (s3 & Hs3 & Hed4 & _ & Hd4 & He4 & _).
  destruct (handleSaveChanges_rejected_frame err s2)
    as (Hh5 & _ & He5 & Hed5 & _).
  exists s1, s2, s3.
  split; [done|]. split; [done|]. split; [by rewrite Hrq2|].
  split; [eapply displayData_read; [by rewrite Hed2'|exact Hread2]|].
  split; [by apply table_mutations_rows|].
  split; [done|]. split; [done|]. split; [done|]. split; [done|].
  split; [by rewrite Hed5|].
  eapply displayData_read; [by rewrite Hed5, Hed2', He5|by rewrite Hh5].
Qed.

Lemma edits_during_save_witness :
  isEditing example_editing = true
  ∧ editData example_editing = Some 20
  ∧ read_page (heap example_editing) 20 = Some example_page
  ∧ isMounted example_editing = true
  ∧ Forall (λ m, table_mutation m = true) [CellEdit 0 0 "late"]
  ∧ ∃ s1 s2 s3,
      handleSaveChanges_start example_editing = Some s1
      ∧ mutates [CellEdit 0 0 "late"] s1 = Some s2
      ∧ displayData s2
        = Some (mkPage (columns example_page)
                  [mkRow (IdNum 1) 1 [CellStr "late"; CellStr "y"]])
      ∧ fetchData_resolved example_page (handleSaveChanges_saved s2) = Some s3
      ∧ displayData (handleSaveChanges_finally s3) = Some example_page.
Proof.
  assert (Hms : Forall (λ m, table_mutation m = true) [CellEdit 0 0 "late"]).
  { repeat constructor. }
  split; [reflexivity|]. split; [reflexivity|]. split; [reflexivity|].
  split; [reflexivity|]. split; [exact Hms|].
  destruct (edits_during_save example_editing 20 example_page example_page
              [CellEdit 0 0 "late"]
              (mkAxiosError "AxiosError" "Network Error" None)
              eq_refl eq_refl eq_refl eq_refl Hms)
    as (s1 & s2 & s3 & Hs1 & Hs2 & _ & Hd2 & _ & Hs3 & _ & Hd3 & _).
  exists s1, s2, s3.
  split; [exact Hs1|]. split; [exact Hs2|]. split; [exact Hd2|].
  split; [exact Hs3|exact Hd3].
Defined.

(** *** The cells a save sends *)

(** X12. The payload of a save keeps, position by position, the name,
    order and width of every column and the order of every row; the cells
    of every row are sent in the same number, each as it is, except that a
    hole (left by a cell edit past the end of the row) is sent as [null].
    No row of the payload holds a hole. *)
Theorem save_sends_holes_as_null (s : State) (e : loc) (buf : Page) :
  isEditing s = true → editData s = Some e → read_page (heap s) e = Some buf →
  ∃ s1 payload,
    handleSaveChanges_start s = Some s1
    ∧ requests s1 = SavePageData (pageSlug s) payload :: requests s
    ∧ (λ c, (col_name c, col_order c, col_width c)) <$> pl_columns payload
      = (λ c, (col_name c, col_order c, col_width c)) <$> columns buf
    ∧ row_order <$> pl_rows payload = row_order <$> rows buf
    ∧ row_cells <$> pl_rows payload
      = (λ r, json_cell <$> row_cells r) <$> rows buf
    ∧ Forall (λ r, CellHole ∉ row_cells r) (pl_rows payload)
    ∧ (∀ i r, rows buf !! i = Some r →
         ∃ r', pl_rows payload !! i = Some r'
           ∧ length (row_cells r') = length (row_cells r)
           ∧ ∀ j, row_cells r' !! j
                  = match row_cells r !! j with
                    | Some CellHole => Some CellNull
                    | c => c
                    end).
Proof.
  intros Hed He Hread.
  unfold handleSaveChanges_start. rewrite Hed, He. simpl. rewrite Hread. simpl.
  eexists _, _. split; [done|]. split; [done|].
  unfold build_payload. cbn [pl_columns pl_rows].
  split; [by rewrite <- list_fmap_compose|].
  split; [by rewrite <- list_fmap_compose|].
  split; [by rewrite <- list_fmap_compose|].
  split.
  - apply Forall_fmap, Forall_true. intros r. cbn [payload_row row_cells].
    intros Hin. apply list_elem_of_fmap in Hin as (c & Hc & _). by destruct c.
  - intros i r Hr. exists (payload_row r).
    split; [by rewrite list_lookup_fmap, Hr|].
    cbn [payload_row row_cells]. split; [by rewrite length_fmap|].
    intros j. rewrite list_lookup_fmap.
    by destruct (row_cells r !! j) as [[]|].
Qed.

Lemma save_sends_holes_as_null_witness :
  isEditing short_row_edited = true
  ∧ editData short_row_edited = Some 31
  ∧ read_page (heap short_row_edited) 31
    = Some (mkPage (columns short_row_page)
              [mkRow (IdNum 1) 1 [CellStr "x"; CellHole; CellStr "v"]])
  ∧ ∃ s1 payload,
      handleSaveChanges_start short_row_edited = Some s1
      ∧ requests s1
        = SavePageData (pageSlug short_row_edited) payload
            :: requests short_row_edited
      ∧ row_cells <$> pl_rows payload = [[CellStr "x"; CellNull; CellStr "v"]].
Proof.
  split; [reflexivity|]. split; [reflexivity|]. split; [reflexivity|].
  destruct (save_sends_holes_as_null short_row_edited 31
              (mkPage (columns short_row_page)
                 [mkRow (IdNum 1) 1 [CellStr "x"; CellHole; CellStr "v"]])
              eq_refl eq_refl eq_refl)
    as (s1 & payload & Hs1 & Hrq & _ & _ & Hcells & _).
  exists s1, payload. split; [exact Hs1|]. split; [exact Hrq|exact Hcells].
Defined.

End PageViewFacts.

(** ** Properties of the table *)

Module DataTableFacts.
Import Js PageView DataTable JsFacts PageViewFacts.

(** *** What the table shows *)

Lemma initialValue_json r k : initialValue (json_row r) k = initialValue r k.
Proof.
  unfold initialValue, json_row. cbn [row_cells]. rewrite list_lookup_fmap.
  destruct (row_cells r !! k) as [[?| |]|]; done.
Qed.

Lemma row_texts_json cols r : row_texts cols (json_row r) = row_texts cols r.
Proof. unfold row_texts. apply imap_ext. intros k c _. apply initialValue_json. Qed.

Lemma table_texts_json p : table_texts (json_page p) = table_texts p.
Proof.
  unfold table_texts. cbn [columns rows json_page]. rewrite <- list_fmap_compose.
  apply list_fmap_ext. intros _ r _. apply row_texts_json.
Qed.

Lemma lookup_array_set_eq cs j v : array_set cs j v !! j = Some v.
Proof.
  unfold array_set. destruct (decide (j < length cs)).
  - by apply list_lookup_insert_eq.
  - rewrite lookup_app_r by lia. rewrite lookup_app_r; rewrite length_replicate; [|lia].
    by rewrite Nat.sub_diag.
Qed.

Lemma initialValue_array_set i o cs j v k :
  initialValue (mkRow i o (array_set cs j (CellStr v))) k
  = if decide (k = j) then v else initialValue (mkRow i o cs) k.
Proof.
  unfold initialValue. cbn [row_cells]. destruct (decide (k = j)) as [->|Hne].
  - by rewrite lookup_array_set_eq.
  - unfold array_set. destruct (decide (j < length cs)).
    + by rewrite list_lookup_insert_ne.
    + destruct (decide (k < length cs)).
      * by rewrite lookup_app_l.
      * rewrite lookup_app_r by lia. rewrite (lookup_ge_None_2 cs k) by lia.
        destruct (decide (k - length cs < j - length cs)).
        -- rewrite lookup_app_l by (by rewrite length_replicate).
           by rewrite lookup_replicate_2.
        -- rewrite lookup_app_r; rewrite length_replicate; [|lia].
           destruct (k - length cs - (j - length cs)) as [|m] eqn:Hk; [lia|].
           done.
Qed.

Lemma row_texts_array_set cols i o cs j v :
  row_texts cols (mkRow i o (array_set cs j (CellStr v)))
  = <[j := v]> (row_texts cols (mkRow i o cs)).
Proof.
  unfold row_texts. apply list_eq. intros k.
  rewrite list_lookup_insert, !list_lookup_imap, length_imap.
  destruct (cols !! k) as [c|] eqn:Hc; simpl.
  - apply lookup_lt_Some in Hc as Hlt. rewrite initialValue_array_set.
    destruct (decide (k = j)) as [->|Hne].
    + by rewrite decide_True.
    + rewrite decide_False; [done|]. intros [? _]. congruence.
  - apply lookup_ge_None in Hc. rewrite decide_False; [done|]. lia.
Qed.

Lemma table_texts_cellEdit p i j v :
  table_texts (spec_cellEdit i j v p)
  = <[i := <[j := v]> (default [] (table_texts p !! i))]> (table_texts p).
Proof.
  unfold spec_cellEdit, table_texts. rewrite list_lookup_fmap.
  destruct (rows p !! i) as [r|] eqn:Hr; simpl.
  - rewrite list_fmap_insert. f_equal. rewrite row_texts_array_set.
    by destruct r.
  - rewrite list_insert_ge; [done|]. rewrite length_fmap.
    by apply lookup_ge_None.
Qed.

Lemma displayData_editing s p :
  isEditing s = true → displayData s = Some p → 0 < length (rows p) →
  ∃ e, editData s = Some e ∧ read_page (heap s) e = Some p.
Proof.
  unfold displayData. intros -> Hd Hlen.
  destruct (editData s) as [e|]; [by exists e|].
  simplify_eq. simpl in Hlen. lia.
Qed.

(** X13. In EDITING mode, when the text area of a cell that the table
    shows (a row of the buffer, a column of the page, whether or not the
    row holds a cell there) loses the focus with some text, the table
    afterwards shows that text in that cell and shows every other cell as
    before; the columns and the number of rows are the same, no warning is
    logged and no call is issued. Leaving the cell once more with the same
    text changes nothing at all. *)
Theorem cell_blur_updates_one_shown_cell (s : State) (p : Page) (i j : nat)
    (typed : string) :
  isEditing s = true → is_Some (pageData s) → displayData s = Some p →
  i < length (rows p) → j < length (columns p) →
  ∃ s' p',
    cell_blur i j typed s = Some s'
    ∧ displayData s' = Some p'
    ∧ table_texts p'
      = <[i := <[j := typed]> (default [] (table_texts p !! i))]> (table_texts p)
    ∧ columns p' = columns p
    ∧ length (rows p') = length (rows p)
    ∧ warnings s' = warnings s
    ∧ requests s' = requests s
    ∧ pageData s' = pageData s
    ∧ cell_blur i j typed s' = Some s'.
Proof.
  intros Hed [c Hpd] Hd Hi Hj.
  assert (Hpos : 0 < length (rows p)) by lia.
  destruct (displayData_editing s p Hed Hd Hpos) as (e & He & Hread).
  destruct (lookup_lt_is_Some_2 _ _ Hi) as [r Hr].
  destruct (lookup_lt_is_Some_2 _ _ Hj) as [col Hcol].
  unfold cell_blur at 1. rewrite Hpd, Hed, Hd. simpl. rewrite Hr, Hcol.
  unfold handleBlur. case_bool_decide as Hch.
  - destruct (handleCellChange_spec s e p i j typed Hed He Hread)
      as (s' & e' & Hs & He' & Hread' & _ & Hsv & Hw).
    destruct Hsv as (_ & Hpd' & _ & _ & _ & Hed' & _ & _ & _ & _ & Hrq).
    assert (Hd' : displayData s' = Some (spec_cellEdit i j typed (json_page p))).
    { eapply displayData_read; [|exact Hread']. by rewrite Hed', Hed. }
    assert (Hr' : rows (json_page p) !! i = Some (json_row r)).
    { cbn [rows json_page]. by rewrite list_lookup_fmap, Hr. }
    exists s', (spec_cellEdit i j typed (json_page p)).
    split; [done|]. split; [done|].
    split; [by rewrite table_texts_cellEdit, table_texts_json|].
    unfold spec_cellEdit in *. rewrite Hr' in *. cbn [columns rows json_page].
    split; [done|]. split; [by rewrite length_insert, length_fmap|].
    split; [by rewrite Hw, decide_True|]. split; [done|]. split; [congruence|].
    unfold cell_blur. rewrite Hpd', Hpd, Hed', Hed, Hd'. simpl.
    rewrite list_lookup_insert_eq by (by rewrite length_fmap).
    rewrite Hcol. unfold handleBlur.
    rewrite initialValue_array_set, decide_True by done.
    by rewrite bool_decide_eq_false_2 by (by intros []).
  - exists s, p. split; [done|]. split; [done|].
    assert (Htyped : typed = initialValue r j) by exact Hch.
    split.
    { symmetry. apply list_insert_id. unfold table_texts.
      rewrite list_lookup_fmap, Hr. simpl. f_equal. symmetry. apply list_insert_id.
      unfold row_texts. by rewrite list_lookup_imap, Hcol, Htyped. }
    repeat (split; [done|]).
    unfold cell_blur. rewrite Hpd, Hed, Hd. simpl. rewrite Hr, Hcol.
    unfold handleBlur. by rewrite bool_decide_eq_false_2 by (by intros []).
Qed.

Lemma cell_blur_updates_one_shown_cell_witness :
  isEditing short_row_editing = true
  ∧ is_Some (pageData short_row_editing)
  ∧ displayData short_row_editing = Some short_row_page
  ∧ table_texts short_row_page = [["x"; EmptyString; EmptyString]]
  ∧ ∃ s' p',
      cell_blur 0 2 "v" short_row_editing = Some s'
      ∧ displayData s' = Some p'
      ∧ table_texts p' = [["x"; EmptyString; "v"]].
Proof.
  split; [reflexivity|]. split; [by eexists|]. split; [reflexivity|].
  split; [reflexivity|].
  destruct (cell_blur_updates_one_shown_cell short_row_editing short_row_page
              0 2 "v" eq_refl (ex_intro _ _ eq_refl) eq_refl)
    as (s' & p' & Hs & Hd & Ht & _); [simpl; lia|simpl; lia|].
  exists s', p'. split; [exact Hs|]. split; [exact Hd|exact Ht].
Defined.

Lemma filter_unique_id (rs : list Row) : ∀ i r,
  rs !! i = Some r →
  (∀ k r', rs !! k = Some r' → row_id r' = row_id r → k = i) →
  filter (λ r', row_id r' ≠ row_id r) rs = delete i rs.
Proof.
  induction rs as [|r0 rs IH]; intros i r Hr Huniq; [done|].
  destruct i as [|i]; simpl in Hr.
  - simplify_eq. rewrite filter_cons_False by (by intros []). simpl.
    apply filter_all, Forall_forall. intros r' Hin Heq.
    apply list_elem_of_lookup in Hin as [k Hk].
    specialize (Huniq (S k) r' Hk Heq). discriminate.
  - assert (Hne : row_id r0 ≠ row_id r).
    { intros Heq. specialize (Huniq 0 r0 eq_refl Heq). discriminate. }
    rewrite filter_cons_True by done. simpl. f_equal.
    apply IH; [done|]. intros k r' Hk Heq.
    specialize (Huniq (S k) r' Hk Heq). by simplify_eq.
Qed.

Lemma row_texts_renumbered cols rs :
  row_texts cols <$> renumbered rs = row_texts cols <$> rs.
Proof.
  unfold renumbered. apply list_eq. intros k.
  rewrite !list_lookup_fmap, list_lookup_imap.
  by destruct (rs !! k).
Qed.

Lemma row_id_renumbered rs : row_id <$> renumbered rs = row_id <$> rs.
Proof.
  unfold renumbered. apply list_eq. intros k.
  rewrite !list_lookup_fmap, list_lookup_imap.
  by destruct (rs !! k).
Qed.

(** X14. The delete button of a table row in EDITING mode. For a row whose
    id is falsy (a row added and not yet saved) the button is disabled and
    a click changes nothing. For a row with a truthy id that no other row
    of the buffer has, a click removes exactly that row: the table shows
    the other rows, in order, with the same texts and the same ids,
    numbered from 1, and no call is issued. *)
Theorem delete_click_removes_that_row (s : State) (p : Page) (i : nat) (r : Row) :
  isEditing s = true → is_Some (pageData s) → displayData s = Some p →
  rows p !! i = Some r →
  (truthy_id (row_id r) = false → delete_click i s = Some s)
  ∧ (truthy_id (row_id r) = true →
     (∀ k r', rows p !! k = Some r' → row_id r' = row_id r → k = i) →
     ∃ s' p',
       delete_click i s = Some s'
       ∧ displayData s' = Some p'
       ∧ columns p' = columns p
       ∧ table_texts p' = delete i (table_texts p)
       ∧ row_id <$> rows p' = delete i (row_id <$> rows p)
       ∧ row_order <$> rows p' = Z.of_nat <$> seq 1 (length (rows p) - 1)
       ∧ requests s' = requests s
       ∧ pageData s' = pageData s).
Proof.
  intros Hed [c Hpd] Hd Hr.
  assert (Hpos : 0 < length (rows p)) by (apply lookup_lt_Some in Hr; lia).
  destruct (displayData_editing s p Hed Hd Hpos) as (e & He & Hread).
  unfold delete_click. rewrite Hpd, Hed, Hd. simpl. rewrite Hr.
  split; [by intros ->|]. intros Ht Huniq. rewrite Ht.
  destruct (handleDeleteRow_spec s e p (row_id r) Hed He Hread)
    as (s' & e' & Hs & He' & Hread' & _ & Hsv & _).
  destruct Hsv as (_ & Hpd' & _ & _ & _ & Hed' & _ & _ & _ & _ & Hrq).
  exists s', (spec_deleteRow (row_id r) (json_page p)).
  split; [done|].
  split; [eapply displayData_read; [by rewrite Hed', Hed|exact Hread']|].
  unfold spec_deleteRow, table_texts. cbn [columns rows json_page].
  rewrite filter_json_rows, (filter_unique_id _ _ _ Hr Huniq).
  split; [done|].
  split.
  { rewrite row_texts_renumbered, <- list_fmap_compose, !list_fmap_delete.
    f_equal. apply list_fmap_ext. intros _ r' _. apply row_texts_json. }
  split.
  { rewrite row_id_renumbered, <- list_fmap_compose, !list_fmap_delete.
    f_equal. }
  split.
  { rewrite renumbered_orders, length_fmap, length_delete by done. done. }
  split; [done|congruence].
Qed.

Lemma delete_click_removes_that_row_witness :
  isEditing example_editing = true
  ∧ is_Some (pageData example_editing)
  ∧ displayData example_editing = Some example_page
  ∧ rows example_page !! 0 = Some (mkRow (IdNum 1) 1 [CellStr "x"; CellStr "y"])
  ∧ ∃ s' p',
      delete_click 0 example_editing = Some s'
      ∧ displayData s' = Some p'
      ∧ table_texts p' = [].
Proof.
  split; [reflexivity|]. split; [by eexists|]. split; [reflexivity|].
  split; [reflexivity|].
  destruct (delete_click_removes_that_row example_editing example_page 0
              (mkRow (IdNum 1) 1 [CellStr "x"; CellStr "y"])
              eq_refl (ex_intro _ _ eq_refl) eq_refl eq_refl) as [_ H].
  destruct (H eq_refl) as (s' & p' & Hs & Hd & _ & Ht & _).
  { intros [|k] r' Hk _; [reflexivity|discriminate Hk]. }
  exists s', p'. split; [exact Hs|]. split; [exact Hd|exact Ht].
Defined.

End DataTableFacts.

(** ** Properties of the ToDo view *)

Module TodoViewFacts.
Import Js TodoView.

Lemma strict_eq_eq a b : strict_eq a b = true → a = b.
Proof.
  destruct a, b; simpl; try done; intros H%bool_decide_eq_true; by subst.
Qed.

Lemma strict_eq_refl_l a b : strict_eq a b = true → strict_eq a a = true.
Proof. destruct a, b; simpl; try done; intros _; by apply bool_decide_eq_true. Qed.

Lemma clone_in_json v : is_json v = true → clone_in v = v.
Proof.
  induction v as [| | | | |l IH|fs IH] using value_ind'; try done.
  - simpl. intros Hj. f_equal.
    induction l as [|x l IHl]; [done|].
    simpl in Hj. apply andb_true_iff in Hj as [Hx Hl].
    apply Forall_cons in IH as [IHx IH]. simpl. f_equal; [|by apply IHl].
    rewrite (IHx Hx). by destruct x.
  - simpl. intros Hj. f_equal.
    induction fs as [|[k x] fs IHfs]; [done|].
    simpl in Hj. apply andb_true_iff in Hj as [Hx Hfs].
    apply Forall_cons in IH as [IHx IH]. simpl in IHx.
    rewrite (IHfs IH Hfs). rewrite (IHx Hx). by destruct x.
Qed.

Lemma clone_json v : is_json v = true → clone v = Some v.
Proof.
  intros Hj. unfold clone. rewrite (clone_in_json v Hj). by destruct v.
Qed.

Lemma map_get_set id k v m :
  map_get id (map_set k v m) = if strict_eq k id then v else map_get id m.
Proof.
  induction m as [|[k' v'] m IH]; simpl; [done|].
  destruct (strict_eq k' k) eqn:Hk'k; simpl.
  - apply strict_eq_eq in Hk'k as ->. by destruct (strict_eq k id).
  - rewrite IH. destruct (strict_eq k' id) eqn:Hk'id; [|done].
    destruct (strict_eq k id) eqn:Hkid; [|done].
    pose proof (strict_eq_refl_l _ _ Hk'id) as Hrefl.
    apply strict_eq_eq in Hk'id. apply strict_eq_eq in Hkid. subst. congruence.
Qed.

Lemma map_get_foldl id (entries : list (value * string)) : ∀ m,
  map_get id (foldl (λ m kv, map_set kv.1 kv.2 m) m (js_entry <$> entries))
  = match spec_status_lookup id entries with
    | Some st => VStr st
    | None => map_get id m
    end.
Proof.
  induction entries as [|[k st] es IH]; intros m; [done|].
  simpl. rewrite IH.
  destruct (spec_status_lookup id es); [done|].
  rewrite map_get_set. simpl. by destruct (strict_eq k id).
Qed.

Lemma map_get_new_Map id (entries : list (value * string)) :
  map_get id (new_Map (js_entry <$> entries))
  = match spec_status_lookup id entries with
    | Some st => VStr st
    | None => VUndef
    end.
Proof. unfold new_Map. by rewrite map_get_foldl. Qed.

Lemma spec_status_lookup_valid id entries st :
  Forall (λ e, valid_status e.2) entries →
  spec_status_lookup id entries = Some st → valid_status st.
Proof.
  induction 1 as [|[k st'] es Hv HF IH]; simpl; [done|].
  destruct (spec_status_lookup id es) as [st''|].
  - intros [= <-]. by apply IH.
  - destruct (strict_eq k id); [|done]. by intros [= <-].
Qed.

Lemma valid_status_truthy st : valid_status st → truthy (VStr st) = true.
Proof. by intros [-> | [-> | ->]]. Qed.

(** C6. With statuses taken from the enumeration, the combined view holds,
    at every position, the source row extended with a [status] property:
    the status of the entry recorded for the row's id (the last one, if
    several), and ["NOT_STARTED"] when there is none. *)
Theorem combined_rows_carry_status (fetchedTodo sourcePage : value)
    (statuses : list value) (entries : list (value * string))
    (rows : list (list (string * value))) :
  get fetchedTodo "statuses" = Some (VArr statuses) →
  Forall2 (λ s e, get s "row_id" = Some e.1 ∧ get s "status" = Some (VStr e.2))
    statuses entries →
  Forall (λ e, valid_status e.2) entries →
  get sourcePage "rows" = Some (VArr (VObj <$> rows)) →
  combine fetchedTodo sourcePage
  = Some (VObj
            [("todoInfo", fetchedTodo); ("sourcePageInfo", sourcePage);
             ("rows",
              VArr ((λ row,
                       VObj (set_prop "status"
                               (VStr (spec_status (lookup_prop "id" row) entries))
                               row))
                      <$> rows))]).
Proof.
  intros Hst Hentries Hvalid Hrows.
  unfold combine, status_entries. rewrite Hst. simpl.
  assert (He : mapM (λ s, k ← get s "row_id"; v ← get s "status"; Some (k, v))
                 statuses = Some (js_entry <$> entries)).
  { apply mapM_Some. apply Forall2_fmap_r.
    eapply Forall2_impl; [exact Hentries|].
    intros s [k st] [-> ->]. done. }
  rewrite He. simpl. rewrite Hrows. simpl.
  assert (Hc : mapM (combine_row (new_Map (js_entry <$> entries))) (VObj <$> rows)
               = Some ((λ row,
                       VObj (set_prop "status"
                               (VStr (spec_status (lookup_prop "id" row) entries))
                               row)) <$> rows)).
  { apply mapM_Some. apply Forall2_fmap. apply Forall_Forall2_diag.
    apply Forall_forall. intros row _.
    unfold combine_row. simpl. rewrite map_get_new_Map. unfold spec_status.
    destruct (spec_status_lookup (lookup_prop "id" row) entries) as [st|] eqn:Hl; simpl.
    - unfold or_else.
      by rewrite (valid_status_truthy _ (spec_status_lookup_valid _ _ _ Hvalid Hl)).
    - done. }
  rewrite Hc. done.
Qed.

Lemma combined_rows_carry_status_witness :
  get example_todo "statuses"
    = Some (VArr [VObj [("row_id", VNum 5); ("status", VStr "COMPLETED")]])
  ∧ Forall2 (λ s e, get s "row_id" = Some e.1 ∧ get s "status" = Some (VStr e.2))
      [VObj [("row_id", VNum 5); ("status", VStr "COMPLETED")]]
      [(VNum 5, "COMPLETED")]
  ∧ Forall (λ e : value * string, valid_status e.2) [(VNum 5, "COMPLETED")]
  ∧ get example_source "rows"
    = Some (VArr (VObj <$> [[("id", VNum 5)]; [("id", VNum 6)]]))
  ∧ combine example_todo example_source
    = Some (VObj
              [("todoInfo", example_todo); ("sourcePageInfo", example_source);
               ("rows",
                VArr [VObj [("id", VNum 5); ("status", VStr "COMPLETED")];
                      VObj [("id", VNum 6); ("status", VStr "NOT_STARTED")]])]).
Proof.
  assert (H1 : get example_todo "statuses"
    = Some (VArr [VObj [("row_id", VNum 5); ("status", VStr "COMPLETED")]]))
    by reflexivity.
  assert (H2 : Forall2 (λ s (e : value * string),
                 get s "row_id" = Some e.1 ∧ get s "status" = Some (VStr e.2))
      [VObj [("row_id", VNum 5); ("status", VStr "COMPLETED")]]
      [(VNum 5, "COMPLETED")]).
  { constructor; [split; reflexivity|constructor]. }
  assert (H3 : Forall (λ e : value * string, valid_status e.2) [(VNum 5, "COMPLETED")]).
  { constructor; [right; right; reflexivity|constructor]. }
  assert (H4 : get example_source "rows"
    = Some (VArr (VObj <$> [[("id", VNum 5)]; [("id", VNum 6)]]))) by reflexivity.
  split; [exact H1|]. split; [exact H2|]. split; [exact H3|]. split; [exact H4|].
  exact (combined_rows_carry_status example_todo example_source _ _ _ H1 H2 H3 H4).
Defined.

Lemma is_json_lookup_prop k fs :
  forallb (λ kv, is_json kv.2) fs = true →
  lookup_prop k fs = VUndef ∨ is_json (lookup_prop k fs) = true.
Proof.
  induction fs as [|[k' v] fs IH]; simpl; [by left|].
  intros [Hv Hfs]%andb_true_iff. case_bool_decide; [by right|by apply IH].
Qed.

Lemma is_json_set_prop k x fs :
  is_json x = true →
  forallb (λ kv, is_json kv.2) fs = true →
  forallb (λ kv, is_json kv.2) (set_prop k x fs) = true.
Proof.
  intros Hx. induction fs as [|[k' v] fs IH]; simpl.
  - by rewrite Hx.
  - intros [Hv Hfs]%andb_true_iff. case_bool_decide; simpl.
    + by rewrite Hx, Hfs.
    + by rewrite Hv, IH.
Qed.

Lemma lookup_set_prop k x fs : lookup_prop k (set_prop k x fs) = x.
Proof.
  induction fs as [|[k' v] fs IH]; simpl.
  - by rewrite bool_decide_eq_true_2.
  - case_bool_decide as Hk; simpl.
    + by rewrite bool_decide_eq_true_2.
    + by rewrite bool_decide_eq_false_2.
Qed.

Lemma lookup_set_prop_ne k k' x fs :
  k ≠ k' → lookup_prop k' (set_prop k x fs) = lookup_prop k' fs.
Proof.
  intros Hne. induction fs as [|[k0 v] fs IH]; simpl.
  - by rewrite bool_decide_eq_false_2.
  - case_bool_decide as Hk; simpl.
    + subst. by rewrite !bool_decide_eq_false_2.
    + by rewrite IH.
Qed.

Lemma update_rows_objects rowId newStatus rows :
  Forall (λ r, is_object r = true) rows →
  mapM (update_row rowId newStatus) rows
  = Some (updated_rows rowId newStatus rows).
Proof.
  intros Hobj. apply mapM_Some. apply Forall2_fmap_r.
  apply Forall_Forall2_diag. eapply Forall_impl; [exact Hobj|].
  intros [] Hr; done.
Qed.

Lemma updated_rows_objects rowId newStatus rows :
  Forall (λ r, is_object r = true) rows →
  Forall (λ r, is_object r = true) (updated_rows rowId newStatus rows).
Proof.
  intros Hobj. apply Forall_fmap. eapply Forall_impl; [exact Hobj|].
  intros r Hr. simpl. by destruct (strict_eq _ _).
Qed.

Lemma forallb_Forall {A} (f : A → bool) (l : list A) :
  forallb f l = true ↔ Forall (λ x, f x = true) l.
Proof.
  induction l as [|x l IH]; simpl.
  - split; [constructor|done].
  - rewrite andb_true_iff, Forall_cons, IH. done.
Qed.

Lemma updated_rows_json rowId newStatus rows :
  Forall (λ r, is_object r = true) rows →
  forallb is_json rows = true →
  forallb is_json (updated_rows rowId newStatus rows) = true.
Proof.
  intros Hobj Hj. apply forallb_Forall, Forall_fmap.
  apply forallb_Forall in Hj.
  induction Hobj as [|r rows Hr Hobj IH]; [constructor|].
  apply Forall_cons in Hj as [Hjr Hj]. constructor; [|by apply IH].
  simpl. destruct r; try done. simpl in *.
  destruct (strict_eq _ _); [|done].
  simpl. by apply is_json_set_prop.
Qed.

(** C5. On a loaded, mounted view [changeStatus(rowId, newStatus)] takes a
    snapshot equal to the view, sets the status of every row whose id is
    [rowId] to [newStatus] at once, leaving the other rows alone, and issues
    the update call. If the call then fails, the view is the snapshot again
    and an error notification is emitted. If it succeeds, the optimistic
    view is kept, no further call is issued, and a success notification of
    2000 ms is emitted. *)
Theorem changeStatus_optimistic_then_settle (s : State)
    (fs : list (string * value)) (rows : list value)
    (rowId : value) (newStatus : string) :
  loaded_view (todoDisplayData s) fs rows → isMounted s = true →
  ∃ s1,
    handleStatusChange_start rowId newStatus s
      = Some (s1, Some (todoDisplayData s))
    ∧ todoDisplayData s1
      = VObj (set_prop "rows" (VArr (updated_rows rowId newStatus rows)) fs)
    ∧ (∀ i row, rows !! i = Some row →
         updated_rows rowId newStatus rows !! i
         = Some (if strict_eq (get_opt row "id") rowId
                 then VObj (set_prop "status" (VStr newStatus) (spread row))
                 else row))
    ∧ (∀ row, get (VObj (set_prop "status" (VStr newStatus) (spread row))) "status"
              = Some (VStr newStatus))
    ∧ requests s1 = UpdateTodoStatus (todoId s) rowId newStatus :: requests s
    ∧ notifications s1 = notifications s
    ∧ loaded_view (todoDisplayData s1)
        (set_prop "rows" (VArr (updated_rows rowId newStatus rows)) fs)
        (updated_rows rowId newStatus rows)
    ∧ (∀ err,
         let s2 := handleStatusChange_rejected err (todoDisplayData s) s1 in
         todoDisplayData s2 = todoDisplayData s
         ∧ notifications s2
           = mkNotification
               (or_else (get_opt (response_data err) "detail")
                  (VStr "Failed to update status.")) "error" 5000
               :: notifications s
         ∧ requests s2 = requests s1)
    ∧ (let s2 := handleStatusChange_resolved s1 in
       todoDisplayData s2 = todoDisplayData s1
       ∧ requests s2 = requests s1
       ∧ notifications s2
         = mkNotification (VStr "Status updated!") "success" 2000
             :: notifications s).
Proof.
  intros (Hd & Hrows & Hobj & Hjson) Hm.
  unfold handleStatusChange_start. rewrite Hd in *.
  change (negb (truthy (VObj fs))) with false. cbv iota.
  rewrite (clone_json (VObj fs) Hjson). simpl in Hjson.
  unfold optimistic. simpl. rewrite Hrows. simpl.
  rewrite (update_rows_objects _ _ _ Hobj). simpl.
  assert (Hrj : forallb is_json rows = true).
  { destruct (is_json_lookup_prop "rows" fs Hjson) as [Hu|Hj];
      rewrite Hrows in *; done. }
  eexists. split; [done|]. simpl.
  split; [done|]. split.
  { intros i row Hi. unfold updated_rows. by rewrite list_lookup_fmap, Hi. }
  split.
  { intros row. simpl. by rewrite lookup_set_prop. }
  split; [done|]. split; [done|]. split.
  { split; [done|]. split; [apply lookup_set_prop|].
    split; [by apply updated_rows_objects|].
    simpl. apply is_json_set_prop; [|done]. simpl. by apply updated_rows_json. }
  split.
  - intros err. unfold handleStatusChange_rejected. simpl. rewrite Hm. done.
  - done.
Qed.

Lemma loaded_example_state :
  loaded_view (todoDisplayData example_state)
    [("todoInfo", example_todo); ("sourcePageInfo", example_source);
     ("rows", VArr [VObj [("id", VNum 5); ("status", VStr "COMPLETED")];
                    VObj [("id", VNum 6); ("status", VStr "NOT_STARTED")]])]
    [VObj [("id", VNum 5); ("status", VStr "COMPLETED")];
     VObj [("id", VNum 6); ("status", VStr "NOT_STARTED")]].
Proof.
  split; [reflexivity|]. split; [reflexivity|]. split; [|reflexivity].
  repeat constructor.
Qed.

Lemma changeStatus_optimistic_then_settle_witness :
  loaded_view (todoDisplayData example_state)
    [("todoInfo", example_todo); ("sourcePageInfo", example_source);
     ("rows", VArr [VObj [("id", VNum 5); ("status", VStr "COMPLETED")];
                    VObj [("id", VNum 6); ("status", VStr "NOT_STARTED")]])]
    [VObj [("id", VNum 5); ("status", VStr "COMPLETED")];
     VObj [("id", VNum 6); ("status", VStr "NOT_STARTED")]]
  ∧ isMounted example_state = true
  ∧ ∃ s1,
      handleStatusChange_start (VNum 6) "IN_PROGRESS" example_state
        = Some (s1, Some example_view)
      ∧ get_opt (todoDisplayData s1) "rows"
        = VArr [VObj [("id", VNum 5); ("status", VStr "COMPLETED")];
                VObj [("id", VNum 6); ("status", VStr "IN_PROGRESS")]]
      ∧ todoDisplayData
          (handleStatusChange_rejected (mkAxiosError "AxiosError" EmptyString None)
             example_view s1)
        = example_view.
Proof.
  split; [exact loaded_example_state|]. split; [reflexivity|].
  destruct (changeStatus_optimistic_then_settle example_state _ _ (VNum 6)
              "IN_PROGRESS" loaded_example_state eq_refl)
    as (s1 & Hs & Hd & _ & _ & _ & _ & _ & Hrej & _).
  exists s1. split; [exact Hs|]. split.
  - rewrite Hd. reflexivity.
  - exact (proj1 (Hrej (mkAxiosError "AxiosError" EmptyString None))).
Defined.

Lemma is_json_get v k x :
  is_json v = true → get v k = Some x → x = VUndef ∨ is_json x = true.
Proof.
  destruct v; simpl; try done; intros Hj [= <-]; try by left.
  by apply is_json_lookup_prop.
Qed.

Lemma is_json_imap (l : list value) :
  forallb is_json l = true →
  forallb (λ kv : string * value, is_json kv.2) (imap (λ i x, (pretty i, x)) l) = true.
Proof.
  intros Hl. apply forallb_Forall. apply forallb_Forall in Hl.
  apply Forall_forall. intros [k x] Hin.
  apply list_elem_of_lookup in Hin as [i Hi].
  rewrite list_lookup_imap in Hi.
  destruct (l !! i) as [y|] eqn:Hy; simplify_eq/=.
  by eapply (proj1 (Forall_lookup _ _) Hl).
Qed.

Lemma is_json_spread v :
  is_json v = true → forallb (λ kv, is_json kv.2) (spread v) = true.
Proof.
  destruct v; simpl; try done.
  - intros _. apply is_json_imap. unfold chars.
    apply forallb_Forall, Forall_fmap, Forall_true. done.
  - apply is_json_imap.
Qed.

Lemma map_get_json id (m : JsMap) :
  Forall (λ kv, kv.2 = VUndef ∨ is_json kv.2 = true) m →
  map_get id m = VUndef ∨ is_json (map_get id m) = true.
Proof.
  induction 1 as [|[k v] m Hv _ IH]; simpl; [by left|].
  by destruct (strict_eq k id).
Qed.

Lemma map_set_json k v (m : JsMap) :
  (v = VUndef ∨ is_json v = true) →
  Forall (λ kv, kv.2 = VUndef ∨ is_json kv.2 = true) m →
  Forall (λ kv, kv.2 = VUndef ∨ is_json kv.2 = true) (map_set k v m).
Proof.
  intros Hv. induction 1 as [|[k' v'] m Hv' Hm IH]; simpl.
  - constructor; [done|constructor].
  - destruct (strict_eq k' k); by constructor.
Qed.

Lemma foldl_map_set_json (entries : list (value * value)) : ∀ m : JsMap,
  Forall (λ kv, kv.2 = VUndef ∨ is_json kv.2 = true) m →
  Forall (λ kv, kv.2 = VUndef ∨ is_json kv.2 = true) entries →
  Forall (λ kv, kv.2 = VUndef ∨ is_json kv.2 = true)
    (foldl (λ m kv, map_set kv.1 kv.2 m) m entries).
Proof.
  induction entries as [|[k v] es IH]; intros m Hm Hes; [done|].
  apply Forall_cons in Hes as [Hv Hes]. simpl. apply IH; [|done].
  by apply map_set_json.
Qed.

(** Every view that [combine] builds from JSON responses is a loaded view. *)
Lemma combine_loaded_view (fetchedTodo sourcePage d : value) :
  is_json fetchedTodo = true → is_json sourcePage = true →
  combine fetchedTodo sourcePage = Some d →
  ∃ fs rows, loaded_view d fs rows.
Proof.
  intros Hjt Hjs. unfold combine, status_entries.
  destruct (get fetchedTodo "statuses") as [statuses|] eqn:Hst; [|done]. simpl.
  destruct statuses as [| | | | |ss|]; try done.
  destruct (mapM _ ss) as [entries|] eqn:He; [|done]. simpl.
  destruct (get sourcePage "rows") as [rows|] eqn:Hrows; [|done]. simpl.
  destruct rows as [| | | | |rs|]; try done.
  destruct (mapM _ rs) as [combined|] eqn:Hc; [|done]. simpl.
  intros [= <-].
  assert (Hentries : Forall (λ kv : value * value,
                       kv.2 = VUndef ∨ is_json kv.2 = true) entries).
  { destruct (is_json_get _ _ _ Hjt Hst) as [|Hss]; [done|]. simpl in Hss.
    apply forallb_Forall in Hss. apply mapM_Some in He. clear Hst Hc.
    induction He as [|s [k v] ss es Hs _ IH]; [constructor|].
    apply Forall_cons in Hss as [Hjs' Hss]. constructor; [|by apply IH].
    simpl. destruct (get s "row_id") as [k'|]; [|done]. simpl in Hs.
    destruct (get s "status") as [v'|] eqn:Hv; [|done]. simpl in Hs.
    simplify_eq. by eapply is_json_get. }
  assert (Hmap := foldl_map_set_json entries [] (Forall_nil_2 _) Hentries).
  fold (new_Map entries) in Hmap.
  assert (Hrs : Forall (λ r, is_json r = true) rs).
  { destruct (is_json_get _ _ _ Hjs Hrows) as [|Hr]; [done|].
    by apply forallb_Forall in Hr. }
  assert (Hcomb : Forall (λ r, is_object r = true ∧ is_json r = true) combined).
  { apply mapM_Some in Hc. clear Hrows.
    induction Hc as [|r c rs cs Hr _ IH]; [constructor|].
    apply Forall_cons in Hrs as [Hjr Hrs]. constructor; [|by apply IH].
    unfold combine_row in Hr. destruct (get r "id") as [id|]; [|done].
    simpl in Hr. simplify_eq. split; [done|]. simpl.
    apply is_json_set_prop; [|by apply is_json_spread].
    unfold or_else. destruct (truthy (map_get id (new_Map entries))) eqn:Ht; [|done].
    destruct (map_get_json id _ Hmap) as [Hu|Hj]; [|done].
    by rewrite Hu in Ht. }
  eexists _, combined. split; [done|]. split; [done|].
  split.
  - eapply Forall_impl; [exact Hcomb|]. by intros ? [? ?].
  - simpl. rewrite Hjt, Hjs. simpl. rewrite andb_true_r.
    apply forallb_Forall. eapply Forall_impl; [exact Hcomb|]. by intros ? [? ?].
Qed.

(** *** Further properties of the ToDo view *)

Import JsFacts TodoTable.

(** *** The view after a load, and status changes on it *)

Lemma handleStatusChange_start_loaded s fs rows rowId newStatus :
  loaded_view (todoDisplayData s) fs rows →
  handleStatusChange_start rowId newStatus s
  = Some (send (UpdateTodoStatus (todoId s) rowId newStatus)
            (setTodoDisplayData
               (VObj (set_prop "rows" (VArr (updated_rows rowId newStatus rows)) fs))
               s),
          Some (todoDisplayData s))
  ∧ loaded_view
      (VObj (set_prop "rows" (VArr (updated_rows rowId newStatus rows)) fs))
      (set_prop "rows" (VArr (updated_rows rowId newStatus rows)) fs)
      (updated_rows rowId newStatus rows).
Proof.
  intros (Hd & Hrows & Hobj & Hjson).
  unfold handleStatusChange_start. rewrite Hd in *.
  change (negb (truthy (VObj fs))) with false. cbv iota.
  rewrite (clone_json (VObj fs) Hjson). simpl in Hjson.
  unfold optimistic. simpl. rewrite Hrows. simpl.
  rewrite (update_rows_objects _ _ _ Hobj). simpl.
  assert (Hrj : forallb is_json rows = true).
  { destruct (is_json_lookup_prop "rows" fs Hjson) as [Hu|Hj];
      rewrite Hrows in *; done. }
  split; [done|].
  split; [done|]. split; [apply lookup_set_prop|].
  split; [by apply updated_rows_objects|].
  simpl. apply is_json_set_prop; [|done]. simpl. by apply updated_rows_json.
Qed.

Lemma combine_rows_truthy_status (statusMap : JsMap) (rs combined : list value) :
  mapM (combine_row statusMap) rs = Some combined →
  length combined = length rs
  ∧ Forall (λ r, truthy (get_opt r "status") = true) combined.
Proof.
  intros H%mapM_Some. split; [symmetry; by eapply Forall2_length|].
  induction H as [|r c rs cs Hr _ IH]; [constructor|].
  constructor; [|done].
  unfold combine_row in Hr. destruct (get r "id") as [id|]; [|done].
  simpl in Hr. simplify_eq. unfold get_opt. simpl. rewrite lookup_set_prop.
  by apply or_else_truthy.
Qed.

(** X15. When the ToDo detail and the source page are JSON documents and
    combining them succeeds, the view is an object holding both documents
    and an array of row objects, one for every row of the source page;
    every row has a truthy [status]; and on that view a status change, for
    any row id and status, takes its snapshot and issues its call without
    a [TypeError]. *)
Theorem load_builds_a_view_with_statuses (fetchedTodo sourcePage d : value) :
  is_json fetchedTodo = true → is_json sourcePage = true →
  combine fetchedTodo sourcePage = Some d →
  ∃ fs rows srcRows,
    loaded_view d fs rows
    ∧ get sourcePage "rows" = Some (VArr srcRows)
    ∧ length rows = length srcRows
    ∧ Forall (λ r, truthy (get_opt r "status") = true) rows
    ∧ get_opt d "todoInfo" = fetchedTodo
    ∧ get_opt d "sourcePageInfo" = sourcePage
    ∧ ∀ rowId newStatus s,
        todoDisplayData s = d →
        ∃ s1,
          handleStatusChange_start rowId newStatus s = Some (s1, Some d)
          ∧ requests s1 = UpdateTodoStatus (todoId s) rowId newStatus :: requests s.
Proof.
  intros Hjt Hjs Hcomb.
  destruct (combine_loaded_view _ _ _ Hjt Hjs Hcomb) as (fs & rows & Hview).
  unfold combine in Hcomb.
  destruct (status_entries fetchedTodo) as [entries|]; [|done]. simpl in Hcomb.
  destruct (get sourcePage "rows") as [srows|] eqn:Hrows; [|done]. simpl in Hcomb.
  destruct srows as [| | | | |srcRows|]; try done.
  destruct (mapM _ srcRows) as [combined|] eqn:Hc; [|done]. simpl in Hcomb.
  simplify_eq.
  destruct (combine_rows_truthy_status _ _ _ Hc) as [Hlen Hst].
  assert (Hrows' : rows = combined).
  { destruct Hview as (Hd & Hr & _). simplify_eq. simpl in Hr. by simplify_eq. }
  subst rows.
  exists fs, combined, srcRows.
  split; [done|]. split; [done|]. split; [done|]. split; [done|].
  split; [done|]. split; [done|].
  intros rowId newStatus s Hs. rewrite <- Hs in Hview.
  destruct (handleStatusChange_start_loaded s fs combined rowId newStatus Hview)
    as [Hstart _].
  eexists. rewrite Hstart, Hs. split; [done|]. done.
Qed.

Lemma load_builds_a_view_with_statuses_witness :
  is_json example_todo = true
  ∧ is_json example_source = true
  ∧ combine example_todo example_source = Some example_view
  ∧ ∃ s1,
      handleStatusChange_start (VNum 6) "COMPLETED" example_state
      = Some (s1, Some example_view).
Proof.
  split; [reflexivity|]. split; [reflexivity|]. split; [reflexivity|].
  destruct (load_builds_a_view_with_statuses example_todo example_source
              example_view eq_refl eq_refl eq_refl)
    as (fs & rows & srcRows & _ & _ & _ & _ & _ & _ & H).
  destruct (H (VNum 6) "COMPLETED" example_state eq_refl) as (s1 & Hs1 & _).
  exists s1. exact Hs1.
Defined.

Lemma set_prop_same k x fs :
  lookup_prop k fs = x → x ≠ VUndef → set_prop k x fs = fs.
Proof.
  intros Hx Hne. induction fs as [|[k' v] fs IH]; simpl in *; [congruence|].
  case_bool_decide; [congruence|]. f_equal. by apply IH.
Qed.

Lemma set_prop_set_prop k x y fs :
  set_prop k x (set_prop k y fs) = set_prop k x fs.
Proof.
  induction fs as [|[k' v] fs IH]; simpl.
  - by rewrite bool_decide_eq_true_2.
  - case_bool_decide as Hk; simpl.
    + by rewrite bool_decide_eq_true_2.
    + rewrite bool_decide_eq_false_2 by done. by rewrite IH.
Qed.

Lemma updated_rows_none rowId newStatus rows :
  Forall (λ r, strict_eq (get_opt r "id") rowId = false) rows →
  updated_rows rowId newStatus rows = rows.
Proof.
  intros H. unfold updated_rows. induction H as [|r rows Hr _ IH]; [done|].
  rewrite fmap_cons, IH. by rewrite Hr.
Qed.

Lemma updated_rows_twice rowId st1 st2 rows :
  Forall (λ r, is_object r = true) rows →
  updated_rows rowId st2 (updated_rows rowId st1 rows)
  = updated_rows rowId st2 rows.
Proof.
  intros H. unfold updated_rows. rewrite <- list_fmap_compose.
  apply Forall_fmap_ext_1. eapply Forall_impl; [exact H|].
  intros [| | | | | |fs] Hr; try done. simpl. unfold get_opt. simpl.
  destruct (strict_eq (lookup_prop "id" fs) rowId) eqn:Hid; simpl.
  - rewrite lookup_set_prop_ne by done. rewrite Hid.
    by rewrite set_prop_set_prop.
  - by rewrite Hid.
Qed.

(** X16. On a loaded view, a status change for a row id that no row has
    leaves the view exactly as it was, and still issues the update call;
    if the call resolves, the success notification is emitted. *)
Theorem status_change_for_unknown_row (s : State) (fs : list (string * value))
    (rows : list value) (rowId : value) (newStatus : string) :
  loaded_view (todoDisplayData s) fs rows →
  Forall (λ r, strict_eq (get_opt r "id") rowId = false) rows →
  ∃ s1,
    handleStatusChange_start rowId newStatus s
      = Some (s1, Some (todoDisplayData s))
    ∧ todoDisplayData s1 = todoDisplayData s
    ∧ requests s1 = UpdateTodoStatus (todoId s) rowId newStatus :: requests s
    ∧ notifications (handleStatusChange_resolved s1)
      = mkNotification (VStr "Status updated!") "success" 2000 :: notifications s.
Proof.
  intros Hview Hnone.
  destruct (handleStatusChange_start_loaded s fs rows rowId newStatus Hview)
    as [Hstart _].
  eexists. split; [exact Hstart|].
  rewrite (updated_rows_none _ _ _ Hnone).
  destruct Hview as (Hd & Hrows & _).
  rewrite (set_prop_same "rows" (VArr rows) fs Hrows) by done.
  by rewrite Hd.
Qed.

Lemma status_change_for_unknown_row_witness :
  ∃ s1,
    handleStatusChange_start (VNum 99) "COMPLETED" example_state
      = Some (s1, Some example_view)
    ∧ todoDisplayData s1 = example_view
    ∧ requests s1 = [UpdateTodoStatus "7" (VNum 99) "COMPLETED"].
Proof.
  destruct (status_change_for_unknown_row example_state _ _ (VNum 99)
              "COMPLETED" loaded_example_state)
    as (s1 & Hs1 & Hd & Hr & _).
  { repeat constructor. }
  exists s1. split; [exact Hs1|]. split; [exact Hd|exact Hr].
Defined.

(** X17. Two status changes made one after the other on a loaded, mounted
    view, the second before the first call has settled. Both calls are
    issued, in that order, and the rows carry both updates. For the same
    row the result is the view a single change to the second status would
    give. If the first call then fails, its rollback restores the snapshot
    taken before both changes: the second change disappears from the view
    as well. *)
Theorem status_changes_in_a_row (s : State) (fs : list (string * value))
    (rows : list value) (rowId1 rowId2 : value) (st1 st2 : string) :
  loaded_view (todoDisplayData s) fs rows → isMounted s = true →
  ∃ s1 s12 s2,
    handleStatusChange_start rowId1 st1 s = Some (s1, Some (todoDisplayData s))
    ∧ handleStatusChange_start rowId2 st2 s1
      = Some (s12, Some (todoDisplayData s1))
    ∧ handleStatusChange_start rowId2 st2 s = Some (s2, Some (todoDisplayData s))
    ∧ requests s12
      = UpdateTodoStatus (todoId s) rowId2 st2
          :: UpdateTodoStatus (todoId s) rowId1 st1 :: requests s
    ∧ get_opt (todoDisplayData s12) "rows"
      = VArr (updated_rows rowId2 st2 (updated_rows rowId1 st1 rows))
    ∧ (rowId1 = rowId2 → todoDisplayData s12 = todoDisplayData s2)
    ∧ (∀ err,
         todoDisplayData
           (handleStatusChange_rejected err (todoDisplayData s) s12)
         = todoDisplayData s).
Proof.
  intros Hview Hm.
  destruct (handleStatusChange_start_loaded s fs rows rowId1 st1 Hview)
    as [Hstart1 Hview1].
  destruct (handleStatusChange_start_loaded s fs rows rowId2 st2 Hview)
    as [Hstart2 _].
  set (s1 := send (UpdateTodoStatus (todoId s) rowId1 st1)
               (setTodoDisplayData
                  (VObj (set_prop "rows" (VArr (updated_rows rowId1 st1 rows)) fs))
                  s)) in *.
  assert (Hview1' : loaded_view (todoDisplayData s1)
            (set_prop "rows" (VArr (updated_rows rowId1 st1 rows)) fs)
            (updated_rows rowId1 st1 rows)) by exact Hview1.
  destruct (handleStatusChange_start_loaded s1 _ _ rowId2 st2 Hview1')
    as [Hstart12 _].
  eexists s1, _, _.
  split; [exact Hstart1|]. split; [exact Hstart12|]. split; [exact Hstart2|].
  split; [done|].
  split.
  { unfold get_opt. simpl. by rewrite lookup_set_prop. }
  split.
  - intros <-. simpl. rewrite set_prop_set_prop.
    rewrite updated_rows_twice; [done|]. by destruct Hview as (_ & _ & ? & _).
  - intros err. unfold handleStatusChange_rejected. simpl. by rewrite Hm.
Qed.

Lemma status_changes_in_a_row_witness :
  isMounted example_state = true
  ∧ ∃ s1 s12,
      handleStatusChange_start (VNum 5) "IN_PROGRESS" example_state
        = Some (s1, Some example_view)
      ∧ handleStatusChange_start (VNum 6) "COMPLETED" s1
        = Some (s12, Some (todoDisplayData s1))
      ∧ todoDisplayData
          (handleStatusChange_rejected (mkAxiosError "AxiosError" EmptyString None)
             example_view s12)
        = example_view.
Proof.
  split; [reflexivity|].
  destruct (status_changes_in_a_row example_state _ _ (VNum 5) (VNum 6)
              "IN_PROGRESS" "COMPLETED" loaded_example_state eq_refl)
    as (s1 & s12 & s2 & Hs1 & Hs12 & _ & _ & _ & _ & Hrej).
  exists s1, s12. split; [exact Hs1|]. split; [exact Hs12|].
  exact (Hrej (mkAxiosError "AxiosError" EmptyString None)).
Defined.

(** *** A load that fails *)

Lemma combine_needs_statuses fetchedTodo sourcePage :
  (∀ l, get fetchedTodo "statuses" ≠ Some (VArr l)) →
  combine fetchedTodo sourcePage = None.
Proof.
  intros H. unfold combine, status_entries.
  destruct (get fetchedTodo "statuses") as [st|] eqn:Hst; [|done]. simpl.
  destruct st; try done. by destruct (H l).
Qed.

(** X18. A load of the ToDo view that fails never touches the combined
    view or the log of calls. A cancelled load reports nothing. Any other
    failure on a mounted view emits one error notification whose message
    is the [detail] of the response, else its [error], else a fixed text,
    and is never empty; [error] is that message, replaced by a fixed text
    for the status 404 and for the status 403. A response that cannot be
    read (a ToDo detail whose [source_page] is [null] or missing, no
    [statuses] array in the detail, or no [rows] array in the source page)
    ends the same way, with the fixed text, and not with an exception; in
    the first case the second call is not issued. A [source_page] that is
    there is not checked for its [slug]: the second call is issued with
    whatever [slug] it has, [undefined] for the source page [{}], and
    nothing is reported at that point. *)
Theorem todo_load_failure_keeps_view (err : AxiosError) (s : State) :
  let s' := fetchTodoData_rejected err s in
  let msg :=
    or_else (get_opt (response_data err) "detail")
      (or_else (get_opt (response_data err) "error")
         (VStr "Could not load ToDo data.")) in
  todoDisplayData s' = todoDisplayData s ∧ requests s' = requests s
  ∧ truthy msg = true
  ∧ (err_name err = "CanceledError" →
       notifications s' = notifications s ∧ error s' = error s)
  ∧ (isMounted s = true → loading s' = false)
  ∧ (isMounted s = true → err_name err ≠ "CanceledError" →
       notifications s' = mkNotification msg "error" 5000 :: notifications s
       ∧ error s'
         = (if bool_decide (response_status err = Some 403%Z)
            then VStr "You do not have permission to view this ToDo list."
            else if bool_decide (response_status err = Some 404%Z)
                 then VStr "ToDo list or its source page not found."
                 else msg))
  ∧ (∀ fetchedTodo sourcePage,
       isMounted s = true →
       (∀ l, get fetchedTodo "statuses" ≠ Some (VArr l))
       ∨ (∀ l, get sourcePage "rows" ≠ Some (VArr l)) →
       let s'' := fetchTodoData_resolved fetchedTodo sourcePage s in
       error s'' = VStr "Could not load ToDo data."
       ∧ todoDisplayData s'' = todoDisplayData s
       ∧ loading s'' = false
       ∧ notifications s''
         = mkNotification (VStr "Could not load ToDo data.") "error" 5000
             :: notifications s)
  ∧ (∀ fetchedTodo,
       isMounted s = true →
       get_opt fetchedTodo "source_page" = VNull
       ∨ get_opt fetchedTodo "source_page" = VUndef →
       let s'' := fetchTodoData_detail fetchedTodo s in
       error s'' = VStr "Could not load ToDo data."
       ∧ todoDisplayData s'' = todoDisplayData s
       ∧ loading s'' = false
       ∧ requests s'' = requests s
       ∧ notifications s''
         = mkNotification (VStr "Could not load ToDo data.") "error" 5000
             :: notifications s)
  ∧ (∀ fetchedTodo sourcePage,
       isMounted s = true →
       get fetchedTodo "source_page" = Some sourcePage →
       sourcePage ≠ VNull → sourcePage ≠ VUndef →
       let s'' := fetchTodoData_detail fetchedTodo s in
       requests s'' = GetPageData (get_opt sourcePage "slug") :: requests s
       ∧ error s'' = error s
       ∧ todoDisplayData s'' = todoDisplayData s
       ∧ loading s'' = loading s
       ∧ notifications s'' = notifications s)
  ∧ fetchTodoData_detail (VObj [("source_page", VObj [])]) example_state
    = send (GetPageData VUndef) example_state.
Proof.
  cbv zeta. unfold fetchTodoData_rejected.
  assert (Hmsg : truthy (or_else (get_opt (response_data err) "detail")
                           (or_else (get_opt (response_data err) "error")
                              (VStr "Could not load ToDo data."))) = true).
  { apply or_else_truthy, or_else_truthy. reflexivity. }
  split; [|split; [|split; [done|]]].
  - destruct (bool_decide (err_name err = "CanceledError")).
    + by destruct (isMounted s).
    + destruct (isMounted s); cbn [negb]; [|done].
      by destruct (bool_decide (response_status err = Some 404%Z)),
                  (bool_decide (response_status err = Some 403%Z)).
  - destruct (bool_decide (err_name err = "CanceledError")).
    + by destruct (isMounted s).
    + destruct (isMounted s); cbn [negb]; [|done].
      by destruct (bool_decide (response_status err = Some 404%Z)),
                  (bool_decide (response_status err = Some 403%Z)).
  - split.
    { intros Hc. rewrite (bool_decide_eq_true_2 _ Hc). by destruct (isMounted s). }
    split.
    { intros Hm. rewrite Hm. cbn [negb].
      destruct (bool_decide (err_name err = "CanceledError")); [done|].
      by destruct (bool_decide (response_status err = Some 404%Z)),
                  (bool_decide (response_status err = Some 403%Z)). }
    split.
    { intros Hm Hc. rewrite Hm, (bool_decide_eq_false_2 _ Hc). cbn [negb].
      by destruct (bool_decide (response_status err = Some 404%Z)),
                  (bool_decide (response_status err = Some 403%Z)). }
    split; [|split; [|split; [|reflexivity]]].
    2:{ intros fetchedTodo Hm Hbad.
        assert (Hnone : get fetchedTodo "source_page" ≫= (λ p, get p "slug")
                        = None).
        { unfold get_opt in Hbad.
          destruct (get fetchedTodo "source_page") as [p|]; [|done].
          by destruct Hbad as [Hp|Hp]; simpl in Hp; subst p. }
        unfold fetchTodoData_detail, fetchTodoData_rejected.
        rewrite Hm, Hnone. simpl. rewrite ?Hm. done. }
    2:{ intros fetchedTodo sourcePage Hm Hsp Hnull Hundef.
        unfold fetchTodoData_detail. rewrite Hm, Hsp. cbn [negb mbind option_bind].
        unfold get_opt. by destruct sourcePage. }
    intros fetchedTodo sourcePage Hm Hbad.
    assert (Hnone : combine fetchedTodo sourcePage = None).
    { destruct Hbad as [Hbad|Hbad]; [by apply combine_needs_statuses|].
      unfold combine. destruct (status_entries fetchedTodo); [|done]. simpl.
      destruct (get sourcePage "rows") as [rs|] eqn:Hrs; [|done]. simpl.
      destruct rs; try done. by destruct (Hbad l0). }
    unfold fetchTodoData_resolved, fetchTodoData_rejected.
    rewrite Hm, Hnone. simpl. rewrite ?Hm. done.
Qed.

(** *** The status select of a row *)

Lemma updated_rows_lookup rowId newStatus rows j r :
  rows !! j = Some r →
  updated_rows rowId newStatus rows !! j
  = Some (if strict_eq (get_opt r "id") rowId
          then VObj (set_prop "status" (VStr newStatus) (spread r))
          else r).
Proof. intros Hj. unfold updated_rows. by rewrite list_lookup_fmap, Hj. Qed.

(** X19. On a loaded view, when the select of a row with a primitive id
    calls the handler with that row's id and one of the three statuses,
    the handler takes its snapshot and issues the update call for that
    id, and at once the view has the same number of rows with the same
    ids, the select of that row shows the chosen status, so does the
    select of every row with the same id, and the select of every other
    row shows what it showed before. The loading flag and the error are
    not touched. *)
Theorem status_select_shows_choice (s : State) (fs : list (string * value))
    (rows : list value) (i : nat) (row : value) (newStatus : string) :
  loaded_view (todoDisplayData s) fs rows →
  rows !! i = Some row →
  strict_eq (get_opt row "id") (get_opt row "id") = true →
  valid_status newStatus →
  ∃ s1 rows1,
    handleStatusChange_start (get_opt row "id") newStatus s
      = Some (s1, Some (todoDisplayData s))
    ∧ get_opt (todoDisplayData s1) "rows" = VArr rows1
    ∧ length rows1 = length rows
    ∧ (∀ j r, rows !! j = Some r →
         ∃ r1, rows1 !! j = Some r1
           ∧ get_opt r1 "id" = get_opt r "id"
           ∧ currentStatus r1
             = if strict_eq (get_opt r "id") (get_opt row "id")
               then Some (VStr newStatus) else currentStatus r)
    ∧ (∃ r1, rows1 !! i = Some r1 ∧ currentStatus r1 = Some (VStr newStatus))
    ∧ requests s1
      = UpdateTodoStatus (todoId s) (get_opt row "id") newStatus :: requests s
    ∧ loading s1 = loading s ∧ error s1 = error s.
Proof.
  intros Hview Hi Hrefl Hvalid.
  destruct (handleStatusChange_start_loaded s fs rows (get_opt row "id")
              newStatus Hview) as [Hstart _].
  pose proof Hview as (Hd & Hrows & Hobj & _).
  assert (Hshown : ∀ j r, rows !! j = Some r →
            ∃ r1, updated_rows (get_opt row "id") newStatus rows !! j = Some r1
              ∧ get_opt r1 "id" = get_opt r "id"
              ∧ currentStatus r1
                = if strict_eq (get_opt r "id") (get_opt row "id")
                  then Some (VStr newStatus) else currentStatus r).
  { intros j r Hj. eexists. split; [by apply updated_rows_lookup|].
    assert (Hr : is_object r = true).
    { eapply (proj1 (Forall_lookup _ _) Hobj); eauto. }
    destruct r as [ | | b | n | str | l | rfs ]; try discriminate Hr.
    destruct (strict_eq (get_opt (VObj rfs) "id") (get_opt row "id")); [|done].
    unfold currentStatus, get_opt. simpl.
    rewrite lookup_set_prop, lookup_set_prop_ne by done.
    split; [done|]. unfold or_else.
    by rewrite (valid_status_truthy _ Hvalid). }
  eexists _, (updated_rows (get_opt row "id") newStatus rows).
  split; [exact Hstart|].
  split; [unfold get_opt; simpl; by rewrite lookup_set_prop|].
  split; [unfold updated_rows; by rewrite length_fmap|].
  split; [exact Hshown|].
  split.
  { destruct (Hshown i row Hi) as (r1 & Hr1 & _ & Hst). rewrite Hrefl in Hst.
    by exists r1. }
  done.
Qed.

Lemma status_select_shows_choice_witness :
  ∃ s1 rows1,
    handleStatusChange_start (VNum 6) "IN_PROGRESS" example_state
      = Some (s1, Some example_view)
    ∧ get_opt (todoDisplayData s1) "rows" = VArr rows1
    ∧ ∃ r1, rows1 !! 1 = Some r1 ∧ currentStatus r1 = Some (VStr "IN_PROGRESS").
Proof.
  destruct (status_select_shows_choice example_state _ _ 1
              (VObj [("id", VNum 6); ("status", VStr "NOT_STARTED")])
              "IN_PROGRESS" loaded_example_state eq_refl eq_refl)
    as (s1 & rows1 & Hs1 & Hrows & _ & _ & Hi & _).
  { right. left. reflexivity. }
  exists s1, rows1. split; [exact Hs1|]. split; [exact Hrows|exact Hi].
Defined.

End TodoViewFacts.

(** ** Properties of the request gateway *)

Module ApiFacts.
Import Api.

Lemma append_cons (c : ascii) (a b : string) :
  String c a +:+ b = String c (a +:+ b).
Proof. reflexivity. Qed.

Lemma substring_to_append (a b : string) :
  substring_to (String.length a) (a +:+ b) = a.
Proof.
  unfold substring_to. induction a as [|c a IH].
  - by destruct b.
  - rewrite append_cons. simpl. by f_equal.
Qed.

Lemma substring_all (b : string) : String.substring 0 (String.length b) b = b.
Proof. induction b as [|c b IH]; simpl; [done|]. by rewrite IH. Qed.

Lemma substring_from_append (a b : string) :
  substring_from (String.length a) (a +:+ b) = b.
Proof.
  unfold substring_from. induction a as [|c a IH].
  - change (EmptyString +:+ b) with b. simpl. rewrite Nat.sub_0_r. apply substring_all.
  - rewrite append_cons. exact IH.
Qed.

Lemma length_append_eq (name : string) :
  String.length (name +:+ "=") = String.length name + 1.
Proof.
  induction name as [|c n IH]; [done|]. rewrite append_cons. simpl. by f_equal.
Qed.

Lemma append_assoc (a b c : string) : (a +:+ b) +:+ c = a +:+ (b +:+ c).
Proof.
  induction a as [|x a IH]; [done|]. rewrite !append_cons. by f_equal.
Qed.

(** The cookie [name] is absent: no segment starts with [name=]. *)
Lemma getCookie_absent (document_cookie name : string) :
  Forall (λ c, substring_to (String.length name + 1) (trim c) ≠ name +:+ "=")
    (split ";" document_cookie) →
  getCookie document_cookie name = Some None.
Proof.
  unfold getCookie. destruct (negb _); [|done].
  induction 1 as [|c cs Hc _ IH]; simpl; [done|].
  destruct (String.eqb_spec (substring_to (String.length name + 1) (trim c))
              (name +:+ "=")); done.
Qed.

(** The cookie [name] is present: the first segment that starts with
    [name=] gives the value, decoded. *)
Lemma getCookie_present (document_cookie name raw c : string)
    (before after : list string) :
  document_cookie ≠ EmptyString →
  split ";" document_cookie = before ++ c :: after →
  Forall (λ c, substring_to (String.length name + 1) (trim c) ≠ name +:+ "=")
    before →
  trim c = name +:+ "=" +:+ raw →
  getCookie document_cookie name = Some <$> decodeURIComponent raw.
Proof.
  intros Hne Hsplit Hbefore Hc. unfold getCookie.
  destruct (String.eqb_spec document_cookie EmptyString); [done|]. simpl.
  rewrite Hsplit. clear Hsplit.
  induction Hbefore as [|b bs Hb _ IH]; simpl.
  - rewrite Hc, <- append_assoc, <- length_append_eq.
    rewrite substring_to_append, substring_from_append.
    by rewrite String.eqb_refl.
  - destruct (String.eqb_spec (substring_to (String.length name + 1) (trim b))
                (name +:+ "=")); done.
Qed.

(** C9 as stated does not hold. For a POST with the cookie [csrftoken]
    present but empty, the request goes on without the header and with a
    warning; with a cookie value that does not decode, the interceptor
    throws. *)
Lemma csrf_cookie_present_without_header :
  getCookie "csrftoken=" "csrftoken" = Some (Some EmptyString)
  ∧ request_interceptor "csrftoken=" (example_config "POST")
    = Some (example_config "POST",
            [csrf_warning "POST" "/pages/budget/save/"])
  ∧ ((λ r, headers r.1 !! "X-CSRFToken")
       <$> request_interceptor "csrftoken=" (example_config "POST"))
    = Some None
  ∧ request_interceptor "sessionid=1; csrftoken=%zz" (example_config "POST")
    = None.
Proof. repeat split; vm_compute; reflexivity. Qed.

Lemma mutating_not_safe m :
  m ∈ mutating_methods →
  negb (String.eqb m EmptyString) && negb (bool_decide (m ∈ safe_methods)) = true.
Proof.
  unfold mutating_methods.
  rewrite !elem_of_cons, elem_of_nil.
  intros [-> | [-> | [-> | [-> | []]]]]; vm_compute; reflexivity.
Qed.

(** C9, amended. A request with a safe method (GET, HEAD, OPTIONS, also
    TRACE) leaves the interceptor unchanged. A request with a mutating
    method (POST, PUT, PATCH, DELETE, in any letter case) gets the header
    [X-CSRFToken] equal to the decoded value of the cookie [csrftoken] when
    [getCookie] finds a non-empty value; when the cookie is absent or its
    value is empty, the request goes on unchanged and only a warning is
    logged. *)
Theorem csrf_header_by_method_and_token (document_cookie : string)
    (config : Config) (m : string) :
  method config = Some m →
  (toUpperCase m ∈ safe_methods →
     request_interceptor document_cookie config = Some (config, []))
  ∧ (toUpperCase m ∈ mutating_methods →
       (∀ token,
          getCookie document_cookie "csrftoken" = Some (Some token) →
          token ≠ EmptyString →
          request_interceptor document_cookie config
            = Some (set_header "X-CSRFToken" token config, [])
          ∧ headers (set_header "X-CSRFToken" token config) !! "X-CSRFToken"
            = Some token)
       ∧ (getCookie document_cookie "csrftoken" = Some None
          ∨ getCookie document_cookie "csrftoken" = Some (Some EmptyString) →
          request_interceptor document_cookie config
            = Some (config, [csrf_warning (toUpperCase m) (url config)]))).
Proof.
  intros Hm. unfold request_interceptor. rewrite Hm. simpl. split.
  - intros Hsafe. rewrite (bool_decide_eq_true_2 _ Hsafe). simpl.
    by rewrite andb_false_r.
  - intros Hmut. rewrite (mutating_not_safe _ Hmut). split.
    + intros token Htok Hne. rewrite Htok. simpl.
      destruct (String.eqb_spec token EmptyString); [done|]. simpl.
      split; [done|]. apply lookup_insert_eq.
    + intros [-> | ->]; done.
Qed.

Lemma csrf_header_by_method_and_token_witness :
  method (example_config "post") = Some "post"
  ∧ request_interceptor "sessionid=1; csrftoken=aB3%2Fx" (example_config "post")
    = Some (set_header "X-CSRFToken" "aB3/x" (example_config "post"), [])
  ∧ request_interceptor "sessionid=1" (example_config "post")
    = Some (example_config "post",
            [csrf_warning "POST" "/pages/budget/save/"]).
Proof.
  split; [reflexivity|].
  destruct (csrf_header_by_method_and_token "sessionid=1; csrftoken=aB3%2Fx"
              (example_config "post") "post" eq_refl) as [_ Hmut].
  destruct (csrf_header_by_method_and_token "sessionid=1"
              (example_config "post") "post" eq_refl) as [_ Hmut'].
  split.
  - refine (proj1 (proj1 (Hmut _) "aB3/x" eq_refl _)).
    + change (toUpperCase "post") with "POST". constructor.
    + discriminate.
  - refine (proj2 (Hmut' _) (or_introl eq_refl)).
    change (toUpperCase "post") with "POST". constructor.
Defined.

(** *** Further properties of the gateway *)

Import Strings Cookies.

(** *** Reading a cookie out of the cookie string *)

Lemma all_chars_app P a b :
  all_chars P (a +:+ b) = all_chars P a && all_chars P b.
Proof.
  induction a as [|c a IH]; [done|].
  rewrite append_cons. simpl. by rewrite IH, andb_assoc.
Qed.

Lemma all_chars_impl (P Q : ascii → bool) s :
  (∀ a, P a = true → Q a = true) → all_chars P s = true → all_chars Q s = true.
Proof.
  intros HPQ. induction s as [|c s IH]; [done|]. simpl.
  intros [Hc Hs]%andb_true_iff. rewrite (HPQ _ Hc). by apply IH.
Qed.

Lemma split_one s :
  all_chars (λ a, negb (Ascii.eqb a ";")) s = true → split ";" s = [s].
Proof.
  induction s as [|c s IH]; [done|]. simpl.
  intros [Hc Hs]%andb_true_iff. apply negb_true_iff in Hc. rewrite Hc.
  by rewrite (IH Hs).
Qed.

Lemma split_first s rest :
  all_chars (λ a, negb (Ascii.eqb a ";")) s = true →
  split ";" (s +:+ ";" +:+ rest) = s :: split ";" rest.
Proof.
  induction s as [|c s IH].
  - intros _. by destruct rest.
  - cbn [all_chars]. intros [Hc Hs]%andb_true_iff. apply negb_true_iff in Hc.
    rewrite append_cons. cbn [split]. rewrite Hc. by rewrite (IH Hs).
Qed.

Lemma trim_end_no_space s :
  all_chars (λ a, negb (is_space a)) s = true → trim_end s = s.
Proof.
  induction s as [|c s IH]; [done|]. simpl.
  intros [Hc Hs]%andb_true_iff. apply negb_true_iff in Hc.
  rewrite (IH Hs), Hc. by destruct s.
Qed.

Lemma trim_start_no_space s :
  all_chars (λ a, negb (is_space a)) s = true → trim_start s = s.
Proof.
  destruct s as [|c s]; [done|]. simpl.
  intros [Hc _]%andb_true_iff. apply negb_true_iff in Hc. by rewrite Hc.
Qed.

Lemma trim_no_space s :
  all_chars (λ a, negb (is_space a)) s = true → trim s = s.
Proof.
  intros H. unfold trim. by rewrite trim_start_no_space, trim_end_no_space.
Qed.

Lemma trim_space_no_space s :
  all_chars (λ a, negb (is_space a)) s = true → trim (" " +:+ s) = s.
Proof.
  intros H. unfold trim. change (" " +:+ s) with (String " " s).
  change (trim_start (String " " s)) with (trim_start s).
  by rewrite trim_start_no_space, trim_end_no_space.
Qed.

Lemma name_char_spec a :
  name_char a = true →
  is_space a = false ∧ Ascii.eqb a ";" = false ∧ Ascii.eqb a "=" = false.
Proof.
  unfold name_char.
  intros [[[_ H1]%andb_true_iff H2]%andb_true_iff H3]%andb_true_iff.
  by rewrite !negb_true_iff in *.
Qed.

Lemma value_char_spec a :
  value_char a = true → is_space a = false ∧ Ascii.eqb a ";" = false.
Proof.
  unfold value_char. intros [[_ H1]%andb_true_iff H2]%andb_true_iff.
  by rewrite !negb_true_iff in *.
Qed.

Lemma cookie_pair_chars c :
  well_formed c →
  all_chars (λ a, negb (is_space a)) (cookie_pair c) = true
  ∧ all_chars (λ a, negb (Ascii.eqb a ";")) (cookie_pair c) = true.
Proof.
  intros [Hn Hv].
  assert (H1 : all_chars (λ a, negb (is_space a)) c.1 = true).
  { eapply all_chars_impl; [|exact Hn].
    intros a H. apply name_char_spec in H as (-> & _). done. }
  assert (H2 : all_chars (λ a, negb (is_space a)) c.2 = true).
  { eapply all_chars_impl; [|exact Hv].
    intros a H. apply value_char_spec in H as (-> & _). done. }
  assert (H3 : all_chars (λ a, negb (Ascii.eqb a ";")) c.1 = true).
  { eapply all_chars_impl; [|exact Hn].
    intros a H. apply name_char_spec in H as (_ & -> & _). done. }
  assert (H4 : all_chars (λ a, negb (Ascii.eqb a ";")) c.2 = true).
  { eapply all_chars_impl; [|exact Hv].
    intros a H. apply value_char_spec in H as (_ & ->). done. }
  unfold cookie_pair. rewrite !all_chars_app, H1, H2, H3, H4. done.
Qed.

Lemma substring_0_0 v : String.substring 0 0 v = EmptyString.
Proof. by destruct v. Qed.

Lemma eqb_prefix_name (name : string) : ∀ n v,
  all_chars name_char n = true → all_chars name_char name = true →
  String.eqb (substring_to (String.length name + 1) (n +:+ "=" +:+ v))
    (name +:+ "=")
  = String.eqb n name.
Proof.
  unfold substring_to.
  induction name as [|b name IH]; intros n v Hn Hname.
  - destruct n as [|a n].
    + change (EmptyString +:+ "=" +:+ v) with (String "=" v).
      change (EmptyString +:+ "=") with "=".
      cbn [String.length Nat.add String.substring]. by rewrite substring_0_0.
    + cbn [all_chars] in Hn. apply andb_true_iff in Hn as [Ha _].
      apply name_char_spec in Ha as (_ & _ & Ha).
      rewrite append_cons. change (EmptyString +:+ "=") with "=".
      cbn [String.length Nat.add String.substring String.eqb].
      by rewrite Ha.
  - cbn [all_chars] in Hname. apply andb_true_iff in Hname as [Hb Hname].
    destruct n as [|a n].
    + apply name_char_spec in Hb as (_ & _ & Hb).
      change (EmptyString +:+ "=" +:+ v) with (String "=" v).
      rewrite append_cons. cbn [String.length Nat.add String.substring String.eqb].
      rewrite Ascii.eqb_sym, Hb. done.
    + cbn [all_chars] in Hn. apply andb_true_iff in Hn as [_ Hn].
      rewrite (append_cons a n), (append_cons b name).
      cbn [String.length Nat.add String.substring String.eqb].
      rewrite (IH n v Hn Hname). done.
Qed.

Lemma getCookie_loop_segment name c pre rest :
  well_formed c → all_chars name_char name = true →
  pre = EmptyString ∨ pre = " " →
  getCookie_loop name ((pre +:+ cookie_pair c) :: rest)
  = if String.eqb c.1 name then Some <$> decodeURIComponent c.2
    else getCookie_loop name rest.
Proof.
  intros Hc Hname Hpre. destruct (cookie_pair_chars c Hc) as [Hsp _].
  assert (Htrim : trim (pre +:+ cookie_pair c) = cookie_pair c).
  { destruct Hpre as [-> | ->]; [by apply trim_no_space|by apply trim_space_no_space]. }
  cbn [getCookie_loop]. rewrite Htrim. unfold cookie_pair at 1.
  rewrite (eqb_prefix_name name c.1 c.2 (proj1 Hc) Hname).
  destruct (String.eqb_spec c.1 name) as [Heq|Hne]; [|done].
  unfold cookie_pair. rewrite Heq, <- append_assoc, <- length_append_eq.
  by rewrite substring_from_append.
Qed.

Lemma getCookie_loop_jar name : ∀ jar pre,
  jar ≠ [] → Forall well_formed jar → all_chars name_char name = true →
  pre = EmptyString ∨ pre = " " →
  getCookie_loop name (split ";" (pre +:+ cookie_string jar))
  = match jar_lookup name jar with
    | Some v => Some <$> decodeURIComponent v
    | None => Some None
    end.
Proof.
  induction jar as [|c jar IH]; intros pre Hne Hjar Hname Hpre; [done|].
  apply Forall_cons in Hjar as [Hc Hjar].
  destruct (cookie_pair_chars c Hc) as [_ Hsemi].
  assert (Hsemi' : all_chars (λ a, negb (Ascii.eqb a ";")) (pre +:+ cookie_pair c) = true).
  { rewrite all_chars_app, Hsemi. by destruct Hpre as [-> | ->]. }
  destruct jar as [|c' jar].
  - cbn [cookie_string jar_lookup]. rewrite (split_one _ Hsemi').
    rewrite (getCookie_loop_segment name c pre [] Hc Hname Hpre).
    by destruct (String.eqb c.1 name).
  - change (cookie_string (c :: c' :: jar))
      with (cookie_pair c +:+ "; " +:+ cookie_string (c' :: jar)).
    assert (Heq : pre +:+ cookie_pair c +:+ "; " +:+ cookie_string (c' :: jar)
                  = (pre +:+ cookie_pair c) +:+ ";" +:+ (" " +:+ cookie_string (c' :: jar))).
    { by rewrite append_assoc. }
    rewrite Heq, (split_first _ _ Hsemi').
    rewrite (getCookie_loop_segment name c pre _ Hc Hname Hpre).
    cbn [jar_lookup]. destruct (String.eqb c.1 name); [done|].
    apply (IH " "); [done|done|done|by right].
Qed.

Lemma cookie_string_nonempty c jar : cookie_string (c :: jar) ≠ EmptyString.
Proof.
  destruct jar; cbn [cookie_string]; unfold cookie_pair;
    destruct c.1; rewrite ?append_cons; done.
Qed.

Lemma getCookie_nonempty document_cookie name :
  document_cookie ≠ EmptyString →
  getCookie document_cookie name
  = getCookie_loop name (split ";" (EmptyString +:+ document_cookie)).
Proof.
  intros Hne. unfold getCookie.
  by destruct (String.eqb_spec document_cookie EmptyString).
Qed.

(** X20. On a cookie string made of [name=value] pairs separated by a
    semicolon and a space, with names and values of ASCII characters, the
    names free of white space, semicolons and equals signs and the values
    free of white space and semicolons, [getCookie(name)] is a lookup: it
    returns the decoded value of the first pair called [name], [null] when
    there is none (also for the empty cookie string), and throws exactly
    when that first value does not decode. Pairs whose name only starts
    with, or ends with, [name] do not match. *)
Theorem getCookie_reads_first_pair (jar : list (string * string)) (name : string) :
  Forall well_formed jar → all_chars name_char name = true →
  getCookie (cookie_string jar) name
  = match jar_lookup name jar with
    | Some v => Some <$> decodeURIComponent v
    | None => Some None
    end.
Proof.
  intros Hjar Hname. destruct jar as [|c jar]; [done|].
  rewrite getCookie_nonempty by apply cookie_string_nonempty.
  apply getCookie_loop_jar; [done|done|done|by left].
Qed.

Lemma getCookie_reads_first_pair_witness :
  Forall well_formed [("sessionid", "1"); ("csrftoken", "aB3%2Fx"); ("csrftoken", "old")]
  ∧ all_chars name_char "csrftoken" = true
  ∧ cookie_string [("sessionid", "1"); ("csrftoken", "aB3%2Fx"); ("csrftoken", "old")]
    = "sessionid=1; csrftoken=aB3%2Fx; csrftoken=old"
  ∧ getCookie "sessionid=1; csrftoken=aB3%2Fx; csrftoken=old" "csrftoken"
    = Some (Some "aB3/x").
Proof.
  assert (Hjar : Forall well_formed
            [("sessionid", "1"); ("csrftoken", "aB3%2Fx"); ("csrftoken", "old")]).
  { repeat constructor. }
  split; [exact Hjar|]. split; [reflexivity|]. split; [reflexivity|].
  exact (getCookie_reads_first_pair
           [("sessionid", "1"); ("csrftoken", "aB3%2Fx"); ("csrftoken", "old")]
           "csrftoken" Hjar eq_refl).
Defined.

(** *** The header the interceptor attaches *)

Lemma decode_other c rest st :
  Ascii.eqb c "%" = false →
  decode st (String c rest)
  = match st with
    | Outside => String c <$> decode Outside rest
    | Inside _ _ _ => None
    end.
Proof.
  intros H. destruct c as [[] [] [] [] [] [] [] []];
    try discriminate H; reflexivity.
Qed.

Lemma decode_plain v : plain v = true → decodeURIComponent v = Some v.
Proof.
  unfold plain, decodeURIComponent. induction v as [|c v IH]; [done|].
  cbn [all_chars]. intros [Hc Hv]%andb_true_iff. apply negb_true_iff in Hc.
  rewrite (decode_other c v Outside Hc), (IH Hv). done.
Qed.

(** X21. For a request with a mutating method and a well-formed cookie
    string (pairs of ASCII names and values), the interceptor is decided by
    the first cookie called [csrftoken]: without one, or with one whose
    decoded value is empty, the request goes on unchanged with a warning;
    with one whose value does not decode, the interceptor throws;
    otherwise the request goes on with the header [X-CSRFToken] set to the
    decoded value. A value without a percent sign is attached as it is. *)
Theorem csrf_header_from_cookie_jar (jar : list (string * string))
    (config : Config) (m : string) :
  Forall well_formed jar → method config = Some m →
  toUpperCase m ∈ mutating_methods →
  request_interceptor (cookie_string jar) config
  = match jar_lookup "csrftoken" jar with
    | None => Some (config, [csrf_warning (toUpperCase m) (url config)])
    | Some v =>
        match decodeURIComponent v with
        | None => None
        | Some token =>
            if String.eqb token EmptyString
            then Some (config, [csrf_warning (toUpperCase m) (url config)])
            else Some (set_header "X-CSRFToken" token config, [])
        end
    end
  ∧ (∀ v, jar_lookup "csrftoken" jar = Some v → plain v = true → v ≠ EmptyString →
       request_interceptor (cookie_string jar) config
       = Some (set_header "X-CSRFToken" v config, [])).
Proof.
  intros Hjar Hm Hmut.
  assert (Hget : getCookie (cookie_string jar) "csrftoken"
                 = match jar_lookup "csrftoken" jar with
                   | Some v => Some <$> decodeURIComponent v
                   | None => Some None
                   end).
  { destruct jar as [|c jar]; [done|].
    rewrite getCookie_nonempty by apply cookie_string_nonempty.
    apply getCookie_loop_jar; [done|done|done|by left]. }
  assert (Hmain : request_interceptor (cookie_string jar) config
    = match jar_lookup "csrftoken" jar with
      | None => Some (config, [csrf_warning (toUpperCase m) (url config)])
      | Some v =>
          match decodeURIComponent v with
          | None => None
          | Some token =>
              if String.eqb token EmptyString
              then Some (config, [csrf_warning (toUpperCase m) (url config)])
              else Some (set_header "X-CSRFToken" token config, [])
          end
      end).
  { unfold request_interceptor. rewrite Hm. cbn [fmap option_fmap option_map].
    rewrite (mutating_not_safe _ Hmut), Hget.
    destruct (jar_lookup "csrftoken" jar) as [v|]; [|done].
    destruct (decodeURIComponent v) as [token|]; [|done]. simpl.
    by destruct (String.eqb token EmptyString). }
  split; [exact Hmain|].
  intros v Hv Hplain Hne. rewrite Hmain, Hv, (decode_plain v Hplain).
  by destruct (String.eqb_spec v EmptyString).
Qed.

Lemma csrf_header_from_cookie_jar_witness :
  Forall well_formed [("sessionid", "1"); ("csrftoken", "Zq9")]
  ∧ method (example_config "patch") = Some "patch"
  ∧ toUpperCase "patch" ∈ mutating_methods
  ∧ request_interceptor "sessionid=1; csrftoken=Zq9" (example_config "patch")
    = Some (set_header "X-CSRFToken" "Zq9" (example_config "patch"), []).
Proof.
  assert (Hjar : Forall well_formed [("sessionid", "1"); ("csrftoken", "Zq9")]).
  { repeat constructor. }
  assert (Hmut : toUpperCase "patch" ∈ mutating_methods).
  { change (toUpperCase "patch") with "PATCH". repeat constructor. }
  split; [exact Hjar|]. split; [reflexivity|]. split; [exact Hmut|].
  exact (proj1 (csrf_header_from_cookie_jar
                  [("sessionid", "1"); ("csrftoken", "Zq9")]
                  (example_config "patch") "patch" Hjar eq_refl Hmut)).
Defined.

(** X22. Whenever the interceptor lets a request go on, the method and the
    URL are those it was given and so is every header other than
    [X-CSRFToken]. Either the whole config is unchanged, or the header
    [X-CSRFToken] was set to the non-empty token that [getCookie] found,
    and then no warning was logged. Running the interceptor again on its
    own result gives the same result. *)
Theorem interceptor_touches_only_csrf_header (document_cookie : string)
    (config config' : Config) (ws : list string) :
  request_interceptor document_cookie config = Some (config', ws) →
  method config' = method config
  ∧ url config' = url config
  ∧ (∀ k, k ≠ "X-CSRFToken" → headers config' !! k = headers config !! k)
  ∧ (config' = config
     ∨ ∃ token, token ≠ EmptyString
         ∧ getCookie document_cookie "csrftoken" = Some (Some token)
         ∧ config' = set_header "X-CSRFToken" token config
         ∧ ws = [])
  ∧ request_interceptor document_cookie config' = Some (config', ws).
Proof.
  unfold request_interceptor.
  destruct (method config) as [m|] eqn:Hm; cbn [fmap option_fmap option_map].
  - destruct (negb (String.eqb (toUpperCase m) EmptyString)
              && negb (bool_decide (toUpperCase m ∈ safe_methods))) eqn:Hcond.
    + destruct (getCookie document_cookie "csrftoken") as [[token|]|] eqn:Hget;
        cbn [mbind option_bind]; [| |done].
      * destruct (String.eqb_spec token EmptyString) as [->|Hne]; cbn [negb].
        -- intros [= <- <-]. rewrite Hm. cbn [fmap option_fmap option_map].
           rewrite ?Hcond, ?Hget. cbn [mbind option_bind].
           repeat (split; [done|]). split; [by left|done].
        -- intros [= <- <-]. cbn [method url headers set_header].
           rewrite Hm. cbn [fmap option_fmap option_map].
           rewrite ?Hcond, ?Hget. cbn [mbind option_bind].
           destruct (String.eqb_spec token EmptyString); [done|]. cbn [negb].
           split; [done|]. split; [done|].
           split; [intros k Hk; by rewrite lookup_insert_ne|].
           split; [right; by exists token|].
           unfold set_header. cbn [method url headers].
           by rewrite insert_insert_eq.
      * intros [= <- <-]. rewrite Hm. cbn [fmap option_fmap option_map].
        rewrite ?Hcond, ?Hget. cbn [mbind option_bind].
        repeat (split; [done|]). split; [by left|done].
    + intros [= <- <-]. rewrite Hm. cbn [fmap option_fmap option_map].
      rewrite ?Hcond. repeat (split; [done|]). split; [by left|done].
  - intros [= <- <-]. rewrite Hm. cbn [fmap option_fmap option_map].
    repeat (split; [done|]). split; [by left|done].
Qed.

Lemma interceptor_touches_only_csrf_header_witness :
  request_interceptor "csrftoken=Zq9" (example_config "DELETE")
  = Some (set_header "X-CSRFToken" "Zq9" (example_config "DELETE"), [])
  ∧ headers (set_header "X-CSRFToken" "Zq9" (example_config "DELETE"))
      !! "Content-Type"
    = headers (example_config "DELETE") !! "Content-Type".
Proof.
  split; [reflexivity|].
  destruct (interceptor_touches_only_csrf_header "csrftoken=Zq9"
              (example_config "DELETE")
              (set_header "X-CSRFToken" "Zq9" (example_config "DELETE")) []
              eq_refl) as (_ & _ & H & _).
  apply H. discriminate.
Defined.

End ApiFacts.

(** ** Properties of the notification list *)

Module NotificationContextFacts.
Import Js NotificationContext JsFacts.

Lemma removeNotification_absent i (l : list Item) :
  i ∉ item_id <$> l → removeNotification i l = l.
Proof.
  intros Hi. apply filter_all, Forall_forall. intros n Hn Heq.
  apply Hi. rewrite <- Heq. by apply list_elem_of_fmap_2.
Qed.

(** X23. On a notification list whose ids are distinct, dismissing a
    notification removes that one and keeps all others in their order;
    adding a notification under a fresh id keeps the ids distinct, and
    dismissing it again gives back the list as it was; dismissing an id
    that is not in the list changes nothing; and after a dismissal the ids
    are still distinct and the dismissed id is gone. *)
Theorem dismiss_removes_exactly_that_notification (l : list Item) :
  NoDup (item_id <$> l) →
  (∀ before n after,
     l = before ++ n :: after →
     removeNotification (item_id n) l = before ++ after)
  ∧ (∀ uuid message type duration,
       uuid ∉ item_id <$> l →
       removeNotification uuid (addNotification uuid message type duration l) = l
       ∧ NoDup (item_id <$> addNotification uuid message type duration l))
  ∧ (∀ i, i ∉ item_id <$> l → removeNotification i l = l)
  ∧ (∀ i, NoDup (item_id <$> removeNotification i l)
          ∧ i ∉ item_id <$> removeNotification i l).
Proof.
  intros Hnd. split; [|split; [|split]].
  - intros before n after ->.
    rewrite fmap_app, fmap_cons in Hnd.
    apply NoDup_app in Hnd as (_ & Hdisj & Hnd).
    apply NoDup_cons in Hnd as [Hn _].
    unfold removeNotification. rewrite filter_app, filter_cons_False by (by intros []).
    f_equal.
    + apply removeNotification_absent. intros Hin.
      apply (Hdisj _ Hin). by left.
    + by apply removeNotification_absent.
  - intros uuid message type duration Hfresh. split.
    + unfold addNotification, removeNotification.
      rewrite filter_cons_False by (by intros []).
      by apply removeNotification_absent.
    + unfold addNotification. rewrite fmap_cons. by apply NoDup_cons.
  - intros i. apply removeNotification_absent.
  - intros i. unfold removeNotification. split.
    + induction l as [|n l IH]; [constructor|].
      rewrite fmap_cons in Hnd. apply NoDup_cons in Hnd as [Hn Hnd].
      destruct (decide (item_id n ≠ i)) as [Hne|Heq].
      * rewrite filter_cons_True by done. rewrite fmap_cons.
        apply NoDup_cons. split; [|by apply IH].
        intros Hin. apply Hn. apply list_elem_of_fmap in Hin as (n' & -> & Hn').
        apply list_elem_of_filter in Hn' as [_ Hn']. by apply list_elem_of_fmap_2.
      * rewrite filter_cons_False by done. by apply IH.
    + intros Hin. apply list_elem_of_fmap in Hin as (n' & -> & Hn').
      by apply list_elem_of_filter in Hn' as [Hne _].
Qed.

Lemma dismiss_removes_exactly_that_notification_witness :
  removeNotification "b"
    [mkItem "c" (mkNotification (VStr "saved") "success" 5000);
     mkItem "b" (mkNotification (VStr "failed") "error" 5000);
     mkItem "a" (mkNotification (VStr "hello") "info" 5000)]
  = [mkItem "c" (mkNotification (VStr "saved") "success" 5000);
     mkItem "a" (mkNotification (VStr "hello") "info" 5000)].
Proof.
  assert (Hnd : NoDup (item_id <$>
            [mkItem "c" (mkNotification (VStr "saved") "success" 5000);
             mkItem "b" (mkNotification (VStr "failed") "error" 5000);
             mkItem "a" (mkNotification (VStr "hello") "info" 5000)])).
  { apply (bool_decide_unpack _). vm_compute. exact I. }
  exact (proj1 (dismiss_removes_exactly_that_notification _ Hnd)
           [mkItem "c" (mkNotification (VStr "saved") "success" 5000)]
           (mkItem "b" (mkNotification (VStr "failed") "error" 5000))
           [mkItem "a" (mkNotification (VStr "hello") "info" 5000)] eq_refl).
Defined.

End NotificationContextFacts.

(** ** Properties of the form that creates a ToDo list *)

Module CreateTodoModalFacts.
Import Js Api Strings CreateTodoModal JsFacts TodoViewFacts.

(** *** The name that is sent *)

Lemma trim_end_empty s : trim_end s = EmptyString ↔ all_chars is_space s = true.
Proof.
  induction s as [|a s IH]; [done|]. cbn [trim_end all_chars].
  destruct (trim_end s) as [|b t] eqn:Ht.
  - destruct (is_space a); [|done]. simpl. by rewrite <- IH.
  - split; [done|]. intros [_ Hs]%andb_true_iff. by apply IH in Hs.
Qed.

Lemma trim_start_empty s : trim_start s = EmptyString ↔ all_chars is_space s = true.
Proof.
  induction s as [|a s IH]; [done|]. cbn [trim_start all_chars].
  destruct (is_space a); [by rewrite IH|done].
Qed.

Lemma trim_start_head s :
  trim_start s = EmptyString ∨ ∃ c t, trim_start s = String c t ∧ is_space c = false.
Proof.
  induction s as [|a s IH]; [by left|]. cbn [trim_start].
  destruct (is_space a) eqn:Ha; [done|]. right. by exists a, s.
Qed.

Lemma trim_end_head c t :
  is_space c = false → ∃ t', trim_end (String c t) = String c t'.
Proof.
  intros Hc. cbn [trim_end]. rewrite Hc. destruct (trim_end t); by eexists.
Qed.

Lemma trim_end_idemp s : trim_end (trim_end s) = trim_end s.
Proof.
  induction s as [|a s IH]; [done|]. cbn [trim_end].
  destruct (trim_end s) as [|b t] eqn:Ht.
  - destruct (is_space a) eqn:Ha; [done|]. cbn [trim_end]. by rewrite Ha.
  - cbn [trim_end] in *. by rewrite IH.
Qed.

Lemma trim_idemp s : trim (trim s) = trim s.
Proof.
  unfold trim. destruct (trim_start_head s) as [->|(c & t & -> & Hc)]; [done|].
  destruct (trim_end_head c t Hc) as [t' Ht']. rewrite Ht'.
  cbn [trim_start]. rewrite Hc, <- Ht'. apply trim_end_idemp.
Qed.

Lemma trim_empty s : trim s = EmptyString ↔ all_chars is_space s = true.
Proof.
  unfold trim. rewrite <- trim_start_empty. split.
  - intros H. destruct (trim_start_head s) as [->|(c & t & Heq & Hc)]; [done|].
    rewrite Heq in H. destruct (trim_end_head c t Hc) as [t' Ht'].
    by rewrite Ht' in H.
  - by intros ->.
Qed.

Lemma trim_head s c t : trim s = String c t → is_space c = false.
Proof.
  unfold trim. destruct (trim_start_head s) as [->|(c' & t' & -> & Hc)]; [done|].
  destruct (trim_end_head c' t' Hc) as [t'' ->]. by intros [= <- _].
Qed.

(** X24. Submitting the create-ToDo form with a name of ASCII
    characters. When the name consists of white space only (or is empty),
    no call is issued, the loading flag is not raised, and the error of
    the field [name] is set. Otherwise exactly one call is issued; the
    name it carries is the trimmed name, which is not empty, does not
    start with white space and is unchanged by another trim; the call
    carries the personal flag and the slug of the source page, and the
    form is marked as loading with its errors cleared. *)
Theorem blank_todo_name_is_not_sent (sourcePageSlug : string) (s : State) :
  all_chars ascii_char (todoName s) = true →
  let s' := handleSubmit_start sourcePageSlug s in
  (all_chars is_space (todoName s) = true →
     requests s' = requests s ∧ loading s' = loading s
     ∧ errors s' = [("name", VStr "ToDo name cannot be empty.")]
     ∧ notifications s' = notifications s)
  ∧ (all_chars is_space (todoName s) = false →
     ∃ p, requests s' = p :: requests s
       ∧ name p = trim (todoName s)
       ∧ name p ≠ EmptyString
       ∧ trim (name p) = name p
       ∧ (∀ c t, name p = String c t → is_space c = false)
       ∧ is_personal p = isPersonal s
       ∧ source_page_slug p = sourcePageSlug
       ∧ loading s' = true ∧ errors s' = []).
Proof.
  intros _. cbv zeta. unfold handleSubmit_start. split.
  - intros Hblank. apply trim_empty in Hblank. by rewrite Hblank.
  - intros Hname.
    assert (Hne : trim (todoName s) ≠ EmptyString).
    { intros H%trim_empty. congruence. }
    destruct (String.eqb_spec (trim (todoName s)) EmptyString); [done|].
    eexists. split; [done|]. cbn [name is_personal source_page_slug].
    split; [done|]. split; [done|]. split; [apply trim_idemp|].
    split; [intros c t; apply trim_head|]. done.
Qed.

Lemma blank_todo_name_is_not_sent_witness :
  all_chars ascii_char "  chores " = true
  ∧ all_chars ascii_char " " = true
  ∧ requests (handleSubmit_start "budget" (mkState "  chores " true false [] [] []))
    = [mkPayload "chores" true "budget"]
  ∧ requests (handleSubmit_start "budget" (mkState " " true false [] [] [])) = [].
Proof.
  split; [reflexivity|]. split; [reflexivity|]. split.
  - destruct (proj2 (blank_todo_name_is_not_sent "budget"
                       (mkState "  chores " true false [] [] []) eq_refl)
                eq_refl)
      as (p & Hr & Hname & _ & _ & _ & Hp & Hslug & _).
    rewrite Hr. destruct p as [n ip sl]. simpl in *.
    rewrite Hname, Hp, Hslug. reflexivity.
  - exact (proj1 (proj1 (blank_todo_name_is_not_sent "budget"
                           (mkState " " true false [] [] []) eq_refl)
                    eq_refl)).
Defined.

(** *** The message of a failed call *)

Lemma lookup_foldl_set_prop (g : string → value) k ks : ∀ acc,
  lookup_prop k (foldl (λ acc key, set_prop key (g key) acc) acc ks)
  = if bool_decide (k ∈ ks) then g k else lookup_prop k acc.
Proof.
  induction ks as [|key ks IH]; intros acc; [done|].
  cbn [foldl]. rewrite IH.
  destruct (decide (k ∈ ks)) as [Hin|Hnin].
  - rewrite !bool_decide_eq_true_2; [done|by right|done].
  - rewrite (bool_decide_eq_false_2 _ Hnin).
    destruct (decide (key = k)) as [->|Hne].
    + rewrite bool_decide_eq_true_2 by (by left). apply lookup_set_prop.
    + rewrite bool_decide_eq_false_2.
      * by apply lookup_set_prop_ne.
      * intros [?|?]%elem_of_cons; congruence.
Qed.

Lemma length_set_prop k x fs : 0 < length (set_prop k x fs).
Proof. destruct fs as [|[k' v] fs]; simpl; [lia|]. case_bool_decide; simpl; lia. Qed.

Lemma length_set_prop_ge k x fs : length fs ≤ length (set_prop k x fs).
Proof.
  induction fs as [|[k' v] fs IH]; simpl; [lia|]. case_bool_decide; simpl; lia.
Qed.

Lemma length_foldl_set_prop (g : string → value) ks : ∀ acc,
  0 < length acc ∨ ks ≠ [] →
  0 < length (foldl (λ acc key, set_prop key (g key) acc) acc ks).
Proof.
  induction ks as [|key ks IH]; intros acc H.
  - by destruct H.
  - cbn [foldl]. apply IH. left. apply length_set_prop.
Qed.

Lemma keys_set_prop k x fs k' :
  k' ∈ (set_prop k x fs).*1 ↔ k' = k ∨ k' ∈ fs.*1.
Proof.
  induction fs as [|[k0 v] fs IH]; simpl.
  - rewrite list_elem_of_singleton. split; [by left|]. intros [->|H]; [done|].
    by apply elem_of_nil in H.
  - case_bool_decide as Hk; simpl.
    + subst k0. rewrite !elem_of_cons. tauto.
    + rewrite !elem_of_cons, IH. tauto.
Qed.

Lemma keys_foldl_set_prop (g : string → value) ks k' : ∀ acc,
  k' ∈ (foldl (λ acc key, set_prop key (g key) acc) acc ks).*1
  ↔ k' ∈ ks ∨ k' ∈ acc.*1.
Proof.
  induction ks as [|key ks IH]; intros acc; cbn [foldl].
  - split; [by right|]. intros [H|H]; [by apply elem_of_nil in H|done].
  - rewrite IH, keys_set_prop, elem_of_cons. tauto.
Qed.

Lemma lookup_prop_absent k fs : k ∉ fs.*1 → lookup_prop k fs = VUndef.
Proof.
  induction fs as [|[k' v] fs IH]; [done|]. simpl.
  intros Hk. rewrite bool_decide_eq_false_2.
  - apply IH. intros ?. apply Hk. by right.
  - intros ->. apply Hk. by left.
Qed.

Lemma backendErrors_object array_join k v fs :
  response_data k = VObj (v :: fs) →
  backendErrors array_join k
  = foldl (λ acc key,
             set_prop key (field_error array_join (lookup_prop key (v :: fs))) acc)
      [] (v :: fs).*1
  ∧ lookup_prop "general" (backendErrors array_join k)
    = field_error array_join (lookup_prop "general" (v :: fs)).
Proof.
  intros Hd. unfold backendErrors. rewrite Hd.
  cbn [truthy typeof_object andb spread].
  set (g := λ key, field_error array_join (lookup_prop key (v :: fs))).
  assert (Hks : (v :: fs).*1 ≠ []) by done.
  pose proof (length_foldl_set_prop g (v :: fs).*1 [] (or_intror Hks)) as Hlen.
  set (collected := foldl _ [] _) in *.
  rewrite !bool_decide_eq_false_2 by lia. cbn [andb].
  split; [done|]. unfold collected. rewrite lookup_foldl_set_prop.
  case_bool_decide as Hin; [done|].
  by rewrite (lookup_prop_absent _ _ Hin).
Qed.

(** X25. When the create-ToDo call fails (for an error body without a
    property called [__proto__]), the form stops loading, issues no other
    call, keeps the name typed, and emits one error notification with a
    non-empty message. For an error body that is an object with
    properties, the errors of the form have the properties of the body,
    each with its value, an array being replaced by what
    [Array.prototype.join] makes of it with a space (whatever that
    built-in writes for the elements); the message is the field [general]
    so obtained when it is truthy and a fixed text otherwise. For an empty
    object or array the message is a second fixed text, for a body that
    is not an object, or no response at all, a third one, and in both
    cases it is the only error of the form, under [general]. In
    particular a body such as [{detail: ...}] without [general] gives the
    first fixed text and leaves the general error of the form unset: the
    fields [detail] and [error] are not used. *)
Theorem create_failure_notification (array_join : string → list value → string)
    (err : AxiosError) (s : State) :
  "__proto__" ∉ (spread (response_data err)).*1 →
  let s' := handleSubmit_rejected array_join err s in
  ∃ msg,
    notifications s' = mkNotification msg "error" 5000 :: notifications s
    ∧ truthy msg = true
    ∧ loading s' = false
    ∧ requests s' = requests s
    ∧ todoName s' = todoName s
    ∧ match response_data err with
      | VObj [] | VArr [] =>
          msg = VStr "Failed to create ToDo list. Please try again."
          ∧ errors s' = [("general", msg)]
      | VObj fs =>
          msg = or_else (field_error array_join (lookup_prop "general" fs))
                  (VStr "Failed to create ToDo list.")
          ∧ fs.*1 ⊆ (errors s').*1
          ∧ (errors s').*1 ⊆ fs.*1
          ∧ ∀ key, lookup_prop key (errors s')
                   = field_error array_join (lookup_prop key fs)
      | VArr _ => True
      | _ =>
          msg = VStr "Failed to create ToDo list. An unknown error occurred."
          ∧ errors s' = [("general", msg)]
      end
    ∧ (∀ fs, response_data err = VObj fs → fs ≠ [] →
         lookup_prop "general" fs = VUndef →
         msg = VStr "Failed to create ToDo list."
         ∧ lookup_prop "general" (errors s') = VUndef).
Proof.
  intros _. cbv zeta. unfold handleSubmit_rejected.
  eexists. split; [reflexivity|]. split; [by apply or_else_truthy|].
  split; [done|]. split; [done|]. split; [done|].
  cbn [errors setLoading addNotification setErrors].
  split.
  - destruct (response_data err) as [ | | b | n | str | l | fs ] eqn:Hd.
    1-5: unfold backendErrors; rewrite Hd; cbn [truthy typeof_object];
         rewrite ?andb_false_r; split; reflexivity.
    + destruct l; [|done]. unfold backendErrors. rewrite Hd. split; reflexivity.
    + destruct fs as [|v fs];
        [unfold backendErrors; rewrite Hd; split; reflexivity|].
      destruct (backendErrors_object array_join err v fs Hd) as [Hb Hg].
      split; [by rewrite Hg|]. rewrite Hb.
      split; [intros k Hk; apply keys_foldl_set_prop; by left|].
      split.
      { intros k [Hk|Hk]%keys_foldl_set_prop; [done|].
        by apply elem_of_nil in Hk. }
      intros key. rewrite lookup_foldl_set_prop.
      case_bool_decide as Hin; [done|].
      by rewrite (lookup_prop_absent _ _ Hin).
  - intros fs Hd Hne Hgen. destruct fs as [|v fs]; [done|].
    rewrite (proj2 (backendErrors_object array_join err v fs Hd)), Hgen. done.
Qed.

Lemma create_failure_notification_witness :
  ("__proto__"
     ∉ (spread (VObj [("detail", VStr "You do not have permission.")])).*1)
  ∧ notifications
      (handleSubmit_rejected (λ sep l, String.concat sep (PageView.strings_of l))
         (mkAxiosError "AxiosError" "Request failed with status code 403"
            (Some (mkResponse 403
                     (VObj [("detail", VStr "You do not have permission.")]))))
         (mkState "chores" true true [] [] []))
    = [mkNotification (VStr "Failed to create ToDo list.") "error" 5000].
Proof.
  assert (Hproto : "__proto__"
            ∉ (spread (VObj [("detail", VStr "You do not have permission.")])).*1).
  { cbn. intros H. apply list_elem_of_singleton in H. discriminate H. }
  split; [exact Hproto|].
  destruct (create_failure_notification (λ sep l, String.concat sep (PageView.strings_of l))
              (mkAxiosError "AxiosError" "Request failed with status code 403"
                 (Some (mkResponse 403
                          (VObj [("detail", VStr "You do not have permission.")]))))
              (mkState "chores" true true [] [] []) Hproto)
    as (msg & Hn & _ & _ & _ & _ & _ & Hdetail).
  destruct (Hdetail _ eq_refl ltac:(discriminate) eq_refl) as [-> _].
  exact Hn.
Defined.

End CreateTodoModalFacts.
